(** * flask-session: server-side sessions, embedded and verified

    A shallow embedding of [flask_session/sessions.py] and of
    [flask_session/__init__.py], as they run under Python 3 ([PY2] is
    false).  Python dictionaries are finite maps ([gmap string _]),
    attributes are record fields, and the methods that touch the store, the
    response, the clock or the random source are state transformers that
    may raise.  The collaborators outside the repository (pickle, the
    itsdangerous signer, uuid4, the installed modules) are the fields of the
    class [Externals]; what the session classes inherit from werkzeug's
    [CallbackDict] and flask's [SessionMixin] is written out next to
    [ServerSideSession]. *)

From Stdlib Require Import ZArith Zquot QArith.
From stdpp Require Import base strings gmap list.

Local Open Scope string_scope.
Local Open Scope list_scope.
Local Open Scope Z_scope.

(** ** Python values *)

(** The scalar values a session mapping holds in this development. *)
Inductive value : Type :=
| VNone
| VBool (b : bool)
| VInt (z : Z)
| VStr (s : string).

#[global] Instance value_eq_dec : EqDecision value.
Proof. solve_decision. Defined.

(** An unpickled object: a scalar or a dictionary of scalars. *)
Inductive pyobj : Type :=
| PVal (v : value)
| PDict (d : gmap string value).

(** [bool(v)] *)
Definition truthy (v : value) : bool :=
  match v with
  | VNone => false
  | VBool b => b
  | VInt z => negb (z =? 0)
  | VStr s => negb (String.eqb s "")
  end.

(** [bool(o)]: a dictionary is true when it has an entry. *)
Definition obj_truthy (o : pyobj) : bool :=
  match o with
  | PVal v => truthy v
  | PDict d => negb (bool_decide (d = ∅))
  end.

(** [a == b].  [bool] is a subclass of [int]: [True == 1] and [False == 0]. *)
Definition py_eq (a b : value) : bool :=
  match a, b with
  | VNone, VNone => true
  | VBool x, VBool y => Bool.eqb x y
  | VBool x, VInt y | VInt y, VBool x => (if x then 1 else 0) =? y
  | VInt x, VInt y => x =? y
  | VStr x, VStr y => String.eqb x y
  | _, _ => false
  end.

(** [a == b] where either side may be the [None] returned by [dict.get]. *)
Definition py_eq_opt (a : option value) (b : value) : bool :=
  py_eq (default VNone a) b.

(** ** Exceptions and the state monad *)

Inductive exn : Type :=
| KeyError (msg : string)
| BadSignature
| TypeError
| ValueError
| AttributeError
| UnpicklingError
| ImportError
| RuntimeError (msg : string).

Inductive result (A : Type) : Type :=
| Ok (a : A)
| Raise (e : exn).
Arguments Ok {A} a.
Arguments Raise {A} e.

(** A computation over a world [W]: it returns or raises, and in both cases
    leaves a world behind. *)
Definition M (W A : Type) : Type := W → result A * W.

Definition ret {W A} (a : A) : M W A := λ w, (Ok a, w).
Definition raise {W A} (e : exn) : M W A := λ w, (Raise e, w).
Definition bind {W A B} (m : M W A) (k : A → M W B) : M W B :=
  λ w, match m w with
       | (Ok a, w') => k a w'
       | (Raise e, w') => (Raise e, w')
       end.
Definition gets {W A} (f : W → A) : M W A := λ w, (Ok (f w), w).
Definition modify {W} (f : W → W) : M W unit := λ w, (Ok tt, f w).

(** [try: m except E: h], where [h e] is [Some _] for the exceptions the
    clause catches. *)
Definition try_except {W A} (m : M W A) (h : exn → option (M W A)) : M W A :=
  λ w, match m w with
       | (Ok a, w') => (Ok a, w')
       | (Raise e, w') =>
           match h e with
           | Some k => k w'
           | None => (Raise e, w')
           end
       end.

Declare Scope py_scope.
Delimit Scope py_scope with py.
Notation "x <- m ;; k" := (bind m (λ x, k))
  (at level 100, m at next level, right associativity) : py_scope.
Notation "m ;;; k" := (bind m (λ _, k))
  (at level 100, right associativity) : py_scope.
Local Open Scope py_scope.

(** ** [total_seconds] *)

Record timedelta : Type := { days : Z; seconds : Z }.

Definition total_seconds (td : timedelta) : Z :=
  days td * 60 * 60 * 24 + seconds td.

(** ** [ServerSideSession] *)

(** The mapping is the dictionary the class inherits from [CallbackDict];
    [sid], [modified] and [initial] are the attributes set by [__init__].
    [permanent] is not an attribute: [flask.sessions.SessionMixin] declares it
    as a property that reads and writes the ["_permanent"] entry of the
    mapping (see [SessionMixin_permanent] and [SessionMixin_set_permanent]). *)
Record ServerSideSession : Type := {
  mapping : gmap string value;
  sid : string;
  modified : bool;
  initial : pyobj;
}.

Definition set_mapping (m : gmap string value) (s : ServerSideSession) :=
  {| mapping := m; sid := sid s; modified := modified s; initial := initial s |}.
Definition set_sid (x : string) (s : ServerSideSession) :=
  {| mapping := mapping s; sid := x; modified := modified s; initial := initial s |}.
Definition set_modified (b : bool) (s : ServerSideSession) :=
  {| mapping := mapping s; sid := sid s; modified := b; initial := initial s |}.
Definition set_initial (i : pyobj) (s : ServerSideSession) :=
  {| mapping := mapping s; sid := sid s; modified := modified s; initial := i |}.

(** The callback [__init__] hands to [CallbackDict]. *)
Definition on_update (s : ServerSideSession) : ServerSideSession :=
  set_modified true s.

(** *** werkzeug's [CallbackDict]: every change of the dictionary calls
    [on_update].

    [__setitem__], [__delitem__] and [clear] run the method of [dict] and,
    when it returned, the callback: [rv = dict.method(self, ...)], then
    [self.on_update(self)]. *)

(** [self[k] = v] *)
Definition setitem (k : string) (v : value) (s : ServerSideSession) :=
  on_update (set_mapping (<[k := v]> (mapping s)) s).

(** [del self[k]]: a missing key raises [KeyError] before the callback. *)
Definition delitem (k : string) (s : ServerSideSession) : result ServerSideSession :=
  match mapping s !! k with
  | Some _ => Ok (on_update (set_mapping (delete k (mapping s)) s))
  | None => Raise (KeyError k)
  end.

(** [self.clear()] *)
Definition clear (s : ServerSideSession) :=
  on_update (set_mapping ∅ s).

(** [self.get(k)], which calls nothing. *)
Definition getitem (k : string) (s : ServerSideSession) : option value :=
  mapping s !! k.

(** [not session] *)
Definition is_empty (s : ServerSideSession) : bool :=
  bool_decide (mapping s = ∅).

(** *** flask's [SessionMixin]: the [permanent] property.

    [flask/sessions.py] declares
    [[
    class SessionMixin(MutableMapping):
        @property
        def permanent(self):
            return self.get("_permanent", False)

        @permanent.setter
        def permanent(self, value):
            self["_permanent"] = bool(value)

        new = False
        modified = True
    ]]
    so the flag lives in the mapping, is pickled with it by [save_session],
    and assigning it goes through [CallbackDict.__setitem__]. *)

(** [self.get("_permanent", False)] *)
Definition SessionMixin_permanent (s : ServerSideSession) : value :=
  default (VBool false) (mapping s !! "_permanent").

(** [self["_permanent"] = bool(value)] *)
Definition SessionMixin_set_permanent (v : bool) (s : ServerSideSession) :=
  setitem "_permanent" (VBool v) s.

(** [dict.__init__(self, initial or ())], the first line of
    [CallbackDict.__init__]: a false [initial] ([None], an empty dictionary,
    [0], ...) gives the empty dictionary, a dictionary is copied, and another
    true object is not a sequence of pairs. *)
Definition dict_init (initial : pyobj) : result (gmap string value) :=
  if obj_truthy initial then
    match initial with
    | PDict d => Ok d
    | PVal (VStr _) => Raise ValueError
    | PVal _ => Raise TypeError
    end
  else Ok ∅.

(** [None], the default of the [initial] argument. *)
Definition PNone : pyobj := PVal VNone.

(** [ServerSideSession.__init__(self, initial=None, sid=None, permanent=None)].
    [permanent] is the truth value of the argument, so [false] also stands for
    the default [None].  Before [__init__] assigns it, [modified] is the class
    attribute [SessionMixin.modified = True]. *)
Definition ServerSideSession_init
    (initial : pyobj) (sid : string) (permanent : bool)
  : result ServerSideSession :=
  match dict_init initial with
  | Raise e => Raise e
  | Ok d =>
      let self := {| mapping := d; sid := ""; modified := true;
                     initial := PDict ∅ |} in
      let self := set_sid sid self in
      let self := if permanent then SessionMixin_set_permanent permanent self
                  else self in
      let self := set_modified false self in
      let self := set_initial (match initial with
                               | PVal VNone => PDict ∅
                               | o => o            (* deepcopy(initial) *)
                               end) self in
      Ok self
  end.

(** ** The application, the request and the response *)

(** What the session interfaces read from the [Flask] application object:
    [secret_key] ([None] when the attribute is missing or [None]), the cookie
    name of [app.config], the lifetime, and the values of flask's
    [get_cookie_domain], [get_cookie_path], [get_cookie_httponly],
    [get_cookie_secure] and [get_cookie_samesite]. *)
Record Flask : Type := {
  secret_key : option string;
  SESSION_COOKIE_NAME : string;
  permanent_session_lifetime : timedelta;
  get_cookie_domain : option string;
  get_cookie_path : string;
  get_cookie_httponly : bool;
  get_cookie_secure : bool;
  get_cookie_samesite : option string;
}.

Record Request : Type := { cookies : gmap string string }.

(** The two calls the interfaces make on the response.  [samesite] is [None]
    when the keyword is not passed at all. *)
Inductive cookie_op : Type :=
| set_cookie (name value : string) (expires : option Z) (httponly : bool)
    (domain : option string) (path : string) (secure : bool)
    (samesite : option (option string))
| delete_cookie (name : string) (domain : option string) (path : string).

(** ** The external collaborators *)

(** [uuid4] draws from a random source; [pickle_dumps] and [pickle_loads]
    are the serializer ([None] when [pickle.loads] raises, whatever the
    protocol number given to [dumps]); [signer_unsign secret token] is [None] when
    itsdangerous raises [BadSignature]; [flask_has_samesite] tells whether
    the installed flask defines [get_cookie_samesite]; [redis_importable]
    tells whether [from redis import Redis] succeeds. *)
Class Externals : Type := {
  rng : Type;
  blob : Type;
  uuid4 : rng → string * rng;
  pickle_dumps : pyobj → blob;
  pickle_loads : blob → option pyobj;
  signer_sign : string → string → string;
  signer_unsign : string → string → option string;
  flask_has_samesite : bool;
  redis_importable : bool;
}.

(** The state a request handler runs in: the random source, the two clock
    readings ([datetime.utcnow()] in seconds and [time.time()]), the backend
    store [B] and the calls made on the response so far. *)
Record world `{Externals} (B : Type) : Type := {
  entropy : rng;
  utcnow : Z;
  time_time : Q;
  backend : B;
  response : list cookie_op;
}.
Arguments entropy {_ _} _.
Arguments utcnow {_ _} _.
Arguments time_time {_ _} _.
Arguments backend {_ _} _.
Arguments response {_ _} _.

Section World.
Context `{Externals} {B : Type}.

Definition set_entropy (r : rng) (w : world B) : world B :=
  {| entropy := r; utcnow := utcnow w; time_time := time_time w;
     backend := backend w; response := response w |}.
Definition set_backend (b : B) (w : world B) : world B :=
  {| entropy := entropy w; utcnow := utcnow w; time_time := time_time w;
     backend := b; response := response w |}.
Definition set_response (r : list cookie_op) (w : world B) : world B :=
  {| entropy := entropy w; utcnow := utcnow w; time_time := time_time w;
     backend := backend w; response := r |}.

(** A pure result as a computation. *)
Definition lift {A} (r : result A) : M (world B) A := λ w, (r, w).

(** [response.set_cookie(...)] and [response.delete_cookie(...)] *)
Definition call_response (op : cookie_op) : M (world B) unit :=
  modify (λ w, set_response (response w ++ [op]) w).

(** flask's [SessionInterface.get_expiration_time(app, session)]:
    [datetime.utcnow() + app.permanent_session_lifetime] for a permanent
    session, [None] otherwise. *)
Definition get_expiration_time (app : Flask) (session : ServerSideSession)
  : M (world B) (option Z) :=
  if truthy (SessionMixin_permanent session) then
    now <- gets utcnow ;;
    ret (Some (now + total_seconds (permanent_session_lifetime app)))
  else ret None.
End World.

(** ** [SessionInterface] *)
Module SessionInterface.
Section Methods.
Context `{Externals} {B : Type}.

(** [str(uuid4())] *)
Definition _generate_sid : M (world B) string :=
  λ w, let '(u, r) := uuid4 (entropy w) in (Ok u, set_entropy r w).

(** The signer is determined by the secret key: salt and key derivation
    are constants. *)
Definition _get_signer (app : Flask) : result string :=
  match secret_key app with
  | None => Raise (KeyError "SECRET_KEY must be set when SESSION_USE_SIGNER=True")
  | Some k =>
      if String.eqb k "" then
        Raise (KeyError "SECRET_KEY must be set when SESSION_USE_SIGNER=True")
      else Ok k
  end.

Definition _unsign (app : Flask) (sid : string) : result string :=
  match _get_signer app with
  | Raise e => Raise e
  | Ok signer =>
      match signer_unsign signer sid with
      | Some sid => Ok sid
      | None => Raise BadSignature
      end
  end.

Definition _sign (app : Flask) (sid : string) : result string :=
  match _get_signer app with
  | Raise e => Raise e
  | Ok signer => Ok (signer_sign signer sid)
  end.

(** [except BadSignature:] *)
Definition except_BadSignature {A} (k : M (world B) A) (e : exn)
  : option (M (world B) A) :=
  match e with BadSignature => Some k | _ => None end.

(** A bare [except:] *)
Definition except_all {A} (k : M (world B) A) (e : exn)
  : option (M (world B) A) := Some k.
End Methods.
End SessionInterface.
Import SessionInterface.

(** A function either returned from inside a block or goes on with a value. *)
Inductive flow (R A : Type) : Type :=
| Return (r : R)
| Continue (a : A).
Arguments Return {R A} r.
Arguments Continue {R A} a.

(** ** [RedisSessionInterface] *)
Module RedisSessionInterface.

(** A handle on a Redis server; [Redis()] connects to the default one. *)
Definition client : Type := string.
Definition Redis_default : client := "localhost:6379".

(** The calls the interface makes on the client. *)
Inductive redis_cmd `{Externals} : Type :=
| GET (name : string)
| SETEX (name : string) (value : blob) (time : Z)
| DEL (name : string).

(** The server keeps a value and its time to live under each key; [calls]
    records every command received. *)
Record redis_server `{Externals} : Type := {
  db : gmap string (blob * Z);
  calls : list redis_cmd;
}.

Record t : Type := {
  redis : client;
  key_prefix : string;
  use_signer : bool;
  permanent : bool;
  has_same_site_capability : bool;
}.

Section Methods.
Context `{Externals}.
Local Abbreviation W := (world redis_server).

(** [__init__(self, redis, key_prefix, use_signer=False, permanent=True)] *)
Definition __init__ (redis : option client) (key_prefix : string)
    (use_signer permanent : bool) : result t :=
  match (match redis with
         | None => if redis_importable then Ok Redis_default
                   else Raise ImportError
         | Some r => Ok r
         end) with
  | Raise e => Raise e
  | Ok redis =>
      Ok {| redis := redis; key_prefix := key_prefix;
            use_signer := use_signer; permanent := permanent;
            has_same_site_capability := flask_has_samesite |}
  end.

(** [self.redis.get(name)] *)
Definition redis_get (name : string) : M W (option blob) :=
  λ w, let r := backend w in
       (Ok (fst <$> db r !! name),
        set_backend {| db := db r; calls := calls r ++ [GET name] |} w).

(** [self.redis.setex(name=..., value=..., time=...)] *)
Definition redis_setex (name : string) (value : blob) (time : Z) : M W unit :=
  modify (λ w, let r := backend w in
               set_backend {| db := <[name := (value, time)]> (db r);
                              calls := calls r ++ [SETEX name value time] |} w).

(** [self.redis.delete(name)] *)
Definition redis_delete (name : string) : M W unit :=
  modify (λ w, let r := backend w in
               set_backend {| db := delete name (db r);
                              calls := calls r ++ [DEL name] |} w).

(** [self.session_class(initial, sid=sid, permanent=permanent)] *)
Definition session_class (initial : pyobj) (sid : string) (permanent : bool)
  : M W ServerSideSession :=
  lift (ServerSideSession_init initial sid permanent).

(** [open_session(self, app, request)].  Under Python 3 the sid is already
    text, so the [decode] branch is not taken. *)
Definition open_session (self : t) (app : Flask) (request : Request)
  : M W ServerSideSession :=
  let sid := cookies request !! SESSION_COOKIE_NAME app in
  match sid with
  | None | Some "" =>
      sid <- _generate_sid ;;
      session_class PNone sid (permanent self)
  | Some sid =>
      r <- (if use_signer self then
              try_except
                (sid <- lift (_unsign app sid) ;; ret (Continue sid))
                (except_BadSignature
                   (sid <- _generate_sid ;;
                    s <- session_class PNone sid (permanent self) ;;
                    ret (Return s)))
            else ret (Continue sid)) ;;
      match r with
      | Return s => ret s
      | Continue sid =>
          val <- redis_get (key_prefix self +:+ sid) ;;
          match val with
          | Some val =>
              try_except
                (data <- lift (match pickle_loads val with
                               | Some o => Ok o
                               | None => Raise UnpicklingError
                               end) ;;
                 session_class data sid false)
                (except_all (session_class PNone sid (permanent self)))
          | None => session_class PNone sid (permanent self)
          end
      end
  end.

(** [save_session(self, app, session, response)] *)
Definition save_session (self : t) (app : Flask) (session : ServerSideSession)
  : M W unit :=
  let domain := get_cookie_domain app in
  let path := get_cookie_path app in
  if is_empty session then
    if modified session then
      redis_delete (key_prefix self +:+ sid session) ;;;
      call_response (delete_cookie (SESSION_COOKIE_NAME app) domain path)
    else ret tt
  else
    let httponly := get_cookie_httponly app in
    let secure := get_cookie_secure app in
    let conditional_cookie_kwargs :=
      if has_same_site_capability self then Some (get_cookie_samesite app)
      else None in
    expires <- get_expiration_time app session ;;
    let val := pickle_dumps (PDict (mapping session)) in
    redis_setex (key_prefix self +:+ sid session) val
      (total_seconds (permanent_session_lifetime app)) ;;;
    session_id <- (if use_signer self then lift (_sign app (sid session))
                   else ret (sid session)) ;;
    call_response (set_cookie (SESSION_COOKIE_NAME app) session_id expires
                     httponly domain path secure conditional_cookie_kwargs).
End Methods.
End RedisSessionInterface.

(** ** [MemcachedSessionInterface] *)
Module MemcachedSessionInterface.

Inductive memcache_cmd `{Externals} : Type :=
| MC_GET (key : string)
| MC_SET (key : string) (val : blob) (time : Z)
| MC_DELETE (key : string).

Record memcached_server `{Externals} : Type := {
  db : gmap string (blob * Z);
  calls : list memcache_cmd;
}.

Record t : Type := {
  key_prefix : string;
  use_signer : bool;
  permanent : bool;
  has_same_site_capability : bool;
}.

(** [int(x)] of a float: truncation towards zero.  Every float is a
    rational number. *)
Definition py_int (x : Q) : Z := Z.quot (Qnum x) (Z.pos (Qden x)).

Section Methods.
Context `{Externals}.
Local Abbreviation W := (world memcached_server).

(** [_get_memcache_timeout(self, timeout)] *)
Definition _get_memcache_timeout (timeout : Z) : M W Z :=
  if 2592000 <? timeout then
    now <- gets time_time ;;
    ret (timeout + py_int now)
  else ret timeout.

(** [self.client.set(key, val, time)] *)
Definition client_set (key : string) (val : blob) (time : Z) : M W unit :=
  modify (λ w, let c := backend w in
               set_backend {| db := <[key := (val, time)]> (db c);
                              calls := calls c ++ [MC_SET key val time] |} w).

(** [self.client.delete(key)] *)
Definition client_delete (key : string) : M W unit :=
  modify (λ w, let c := backend w in
               set_backend {| db := delete key (db c);
                              calls := calls c ++ [MC_DELETE key] |} w).

(** [save_session(self, app, session, response)] under Python 3. *)
Definition save_session (self : t) (app : Flask) (session : ServerSideSession)
  : M W unit :=
  let domain := get_cookie_domain app in
  let path := get_cookie_path app in
  let full_session_key := key_prefix self +:+ sid session in
  if is_empty session then
    if modified session then
      client_delete full_session_key ;;;
      call_response (delete_cookie (SESSION_COOKIE_NAME app) domain path)
    else ret tt
  else
    let httponly := get_cookie_httponly app in
    let secure := get_cookie_secure app in
    let conditional_cookie_kwargs :=
      if has_same_site_capability self then Some (get_cookie_samesite app)
      else None in
    expires <- get_expiration_time app session ;;
    let val := pickle_dumps (PDict (mapping session)) in
    timeout <- _get_memcache_timeout
                 (total_seconds (permanent_session_lifetime app)) ;;
    client_set full_session_key val timeout ;;;
    session_id <- (if use_signer self then lift (_sign app (sid session))
                   else ret (sid session)) ;;
    call_response (set_cookie (SESSION_COOKIE_NAME app) session_id expires
                     httponly domain path secure conditional_cookie_kwargs).

(** [self.client.get(key)] *)
Definition client_get (key : string) : M W (option blob) :=
  λ w, let c := backend w in
       (Ok (fst <$> db c !! key),
        set_backend {| db := db c; calls := calls c ++ [MC_GET key] |} w).

Definition session_class (initial : pyobj) (sid : string) (permanent : bool)
  : M W ServerSideSession :=
  lift (ServerSideSession_init initial sid permanent).

(** [open_session(self, app, request)] under Python 3, where [want_bytes]
    leaves the stored bytes as they are. *)
Definition open_session (self : t) (app : Flask) (request : Request)
  : M W ServerSideSession :=
  let sid := cookies request !! SESSION_COOKIE_NAME app in
  match sid with
  | None | Some "" =>
      sid <- _generate_sid ;;
      session_class PNone sid (permanent self)
  | Some sid =>
      r <- (if use_signer self then
              try_except
                (sid <- lift (_unsign app sid) ;; ret (Continue sid))
                (except_BadSignature
                   (sid <- _generate_sid ;;
                    s <- session_class PNone sid (permanent self) ;;
                    ret (Return s)))
            else ret (Continue sid)) ;;
      match r with
      | Return s => ret s
      | Continue sid =>
          let full_session_key := key_prefix self +:+ sid in
          val <- client_get full_session_key ;;
          match val with
          | Some val =>
              try_except
                (data <- lift (match pickle_loads val with
                               | Some o => Ok o
                               | None => Raise UnpicklingError
                               end) ;;
                 session_class data sid false)
                (except_all (session_class PNone sid (permanent self)))
          | None => session_class PNone sid (permanent self)
          end
      end
  end.
End Methods.

(** The client object an interface is constructed with: one handed in by
    the caller or one of the two the module knows how to build. *)
Inductive memcache_client : Type :=
| pylibmc_Client (servers : list string)
| memcache_Client (servers : list string)
| handed_in (handle : string).

(** [_get_preferred_memcache_client(self)].  The two arguments tell whether
    [import pylibmc] and [import memcache] succeed; the function falls off
    its end, returning [None], when neither does. *)
Definition _get_preferred_memcache_client
    (pylibmc_importable memcache_importable : bool) : option memcache_client :=
  let servers := ["127.0.0.1:11211"] in
  if pylibmc_importable then Some (pylibmc_Client servers)
  else if memcache_importable then Some (memcache_Client servers)
  else None.

(** [__init__(self, client, key_prefix, use_signer=False, permanent=True)]:
    the client kept in [self.client] and the other attributes. *)
Definition __init__ `{Externals}
    (pylibmc_importable memcache_importable : bool)
    (client : option memcache_client) (key_prefix : string)
    (use_signer permanent : bool) : result (memcache_client * t) :=
  match (match client with
         | None =>
             match _get_preferred_memcache_client pylibmc_importable
                     memcache_importable with
             | None => Raise (RuntimeError "no memcache module found")
             | Some client => Ok client
             end
         | Some client => Ok client
         end) with
  | Raise e => Raise e
  | Ok client =>
      Ok (client,
          {| key_prefix := key_prefix; use_signer := use_signer;
             permanent := permanent;
             has_same_site_capability := flask_has_samesite |})
  end.
End MemcachedSessionInterface.

(** ** [MongoDBSessionInterface] *)
Module MongoDBSessionInterface.

(** A stored document [{"id": ..., "val": ..., "expiration": ...}];
    [expiration] is [None] for a session that is not permanent. *)
Record document `{Externals} : Type := {
  id : string;
  val : blob;
  expiration : option Z;
}.

Inductive mongo_cmd `{Externals} : Type :=
| FIND_ONE (id : string)
| REMOVE (id : string)
| UPDATE (id : string) (doc : document) (upsert : bool).

Record collection `{Externals} : Type := {
  docs : list document;
  calls : list mongo_cmd;
}.

Record t : Type := {
  key_prefix : string;
  use_signer : bool;
  permanent : bool;
  has_same_site_capability : bool;
}.

Section Methods.
Context `{Externals}.
Local Abbreviation W := (world collection).

Definition has_id (store_id : string) (d : document) : bool :=
  String.eqb (id d) store_id.

(** [self.store.find_one({"id": store_id})]: the first match. *)
Definition find_one (store_id : string) : M W (option document) :=
  λ w, let c := backend w in
       (Ok (head (List.filter (has_id store_id) (docs c))),
        set_backend {| docs := docs c;
                       calls := calls c ++ [FIND_ONE store_id] |} w).

(** [self.store.remove({"id": store_id})]: every match goes. *)
Definition remove (store_id : string) : M W unit :=
  modify (λ w, let c := backend w in
               set_backend
                 {| docs := List.filter (λ d, negb (has_id store_id d)) (docs c);
                    calls := calls c ++ [REMOVE store_id] |} w).

(** Replace the first document the query matches. *)
Fixpoint replace_first (store_id : string) (new : document)
    (l : list document) : option (list document) :=
  match l with
  | [] => None
  | d :: l =>
      if has_id store_id d then Some (new :: l)
      else cons d <$> replace_first store_id new l
  end.

(** [self.store.update({"id": store_id}, doc, True)]: an upsert. *)
Definition update (store_id : string) (doc : document) : M W unit :=
  modify (λ w, let c := backend w in
               set_backend
                 {| docs := default (docs c ++ [doc])
                              (replace_first store_id doc (docs c));
                    calls := calls c ++ [UPDATE store_id doc true] |} w).

Definition session_class (initial : pyobj) (sid : string) (permanent : bool)
  : M W ServerSideSession :=
  lift (ServerSideSession_init initial sid permanent).

(** [open_session(self, app, request)].  A document that was found is a
    non-empty dictionary, hence true; comparing a [None] expiration with a
    datetime raises [TypeError]. *)
Definition open_session (self : t) (app : Flask) (request : Request)
  : M W ServerSideSession :=
  let sid := cookies request !! SESSION_COOKIE_NAME app in
  match sid with
  | None | Some "" =>
      sid <- _generate_sid ;;
      session_class PNone sid (permanent self)
  | Some sid =>
      r <- (if use_signer self then
              try_except
                (sid <- lift (_unsign app sid) ;; ret (Continue sid))
                (except_BadSignature
                   (sid <- _generate_sid ;;
                    s <- session_class PNone sid (permanent self) ;;
                    ret (Return s)))
            else ret (Continue sid)) ;;
      match r with
      | Return s => ret s
      | Continue sid =>
          let store_id := key_prefix self +:+ sid in
          document <- find_one store_id ;;
          document <-
            match document with
            | Some doc =>
                match expiration doc with
                | None => raise TypeError
                | Some e =>
                    now <- gets utcnow ;;
                    if e <=? now then
                      (* Delete expired session *)
                      remove store_id ;;; ret None
                    else ret (Some doc)
                end
            | None => ret None
            end ;;
          match document with
          | Some doc =>
              try_except
                (let val := val doc in
                 data <- lift (match pickle_loads val with
                               | Some o => Ok o
                               | None => Raise UnpicklingError
                               end) ;;
                 session_class data sid false)
                (except_all (session_class PNone sid (permanent self)))
          | None => session_class PNone sid (permanent self)
          end
      end
  end.

(** [save_session(self, app, session, response)] *)
Definition save_session (self : t) (app : Flask) (session : ServerSideSession)
  : M W unit :=
  let domain := get_cookie_domain app in
  let path := get_cookie_path app in
  let store_id := key_prefix self +:+ sid session in
  if is_empty session then
    if modified session then
      remove store_id ;;;
      call_response (delete_cookie (SESSION_COOKIE_NAME app) domain path)
    else ret tt
  else
    let httponly := get_cookie_httponly app in
    let secure := get_cookie_secure app in
    let conditional_cookie_kwargs :=
      if has_same_site_capability self then Some (get_cookie_samesite app)
      else None in
    expires <- get_expiration_time app session ;;
    let val := pickle_dumps (PDict (mapping session)) in
    update store_id {| id := store_id; val := val; expiration := expires |} ;;;
    session_id <- (if use_signer self then lift (_sign app (sid session))
                   else ret (sid session)) ;;
    call_response (set_cookie (SESSION_COOKIE_NAME app) session_id expires
                     httponly domain path secure conditional_cookie_kwargs).
End Methods.
End MongoDBSessionInterface.

(** ** [SqlAlchemySessionInterface] *)
Module SqlAlchemySessionInterface.

(** A row of the session table (the model class [Session]). *)
Record Session : Type := {
  id : nat;
  session_id : string;
  expiry : option Z;
}.

(** What the interface asks of [db.session] and of the two queries. *)
Inductive sql_op `{Externals} : Type :=
| SELECT_FIRST (session_id : string)
| DELETE_SESSION (id : nat)
| SET_EXPIRY (id : nat) (expiry : option Z)
| ADD (session_id : string) (expiry : option Z)
| FLUSH
| DELETE_DATA (id : nat) (keys : gset string)
| MERGE (id : nat) (key : string) (value : blob)
| COMMIT.

(** The session table, the child table [SessionData] under its primary key
    [(id, key)], the next value of the integer primary key, and the
    operations received. *)
Record database `{Externals} : Type := {
  sessions : list Session;
  session_data : gmap (nat * string) blob;
  next_id : nat;
  calls : list sql_op;
}.

Record t : Type := {
  key_prefix : string;
  use_signer : bool;
  permanent : bool;
  has_same_site_capability : bool;
}.

Section Methods.
Context `{Externals}.
Local Abbreviation W := (world database).

Definition log (op : sql_op) (d : database) : database :=
  {| sessions := sessions d; session_data := session_data d;
     next_id := next_id d; calls := calls d ++ [op] |}.

(** [self.sql_session_model.query.filter_by(session_id=store_id).first()] *)
Definition query_first (store_id : string) : M W (option Session) :=
  λ w, let d := backend w in
       (Ok (head (List.filter (λ r, String.eqb (session_id r) store_id)
                    (sessions d))),
        set_backend (log (SELECT_FIRST store_id) d) w).

(** [self.db.session.delete(saved_session)]; the foreign key of the child
    table is declared [ondelete='cascade']. *)
Definition db_delete (saved : Session) : M W unit :=
  modify (λ w, let d := backend w in
    set_backend
      (log (DELETE_SESSION (id saved))
         {| sessions := List.filter (λ r, negb (Nat.eqb (id r) (id saved)))
                          (sessions d);
            session_data := filter (λ kv, fst (fst kv) ≠ id saved)
                              (session_data d);
            next_id := next_id d; calls := calls d |}) w).

(** [saved_session.expiry = expires] on a row that is in the table. *)
Definition set_expiry (saved : Session) (expires : option Z) : M W Session :=
  λ w, let d := backend w in
    let row := {| id := id saved; session_id := session_id saved;
                  expiry := expires |} in
    (Ok row,
     set_backend
       (log (SET_EXPIRY (id saved) expires)
          {| sessions := (λ r, if Nat.eqb (id r) (id saved) then row else r)
                           <$> sessions d;
             session_data := session_data d;
             next_id := next_id d; calls := calls d |}) w).

(** [self.db.session.add(saved_session)] then [self.db.session.flush()]:
    the new row receives its primary key. *)
Definition add_flush (store_id : string) (expires : option Z) : M W Session :=
  λ w, let d := backend w in
    let row := {| id := next_id d; session_id := store_id;
                  expiry := expires |} in
    (Ok row,
     set_backend
       (log FLUSH (log (ADD store_id expires)
          {| sessions := sessions d ++ [row];
             session_data := session_data d;
             next_id := S (next_id d); calls := calls d |})) w).

(** The [delete()] of the query on the child table: rows of this session
    whose key is in [keys]. *)
Definition delete_data (sess_id : nat) (keys : gset string) : M W unit :=
  modify (λ w, let d := backend w in
    set_backend
      (log (DELETE_DATA sess_id keys)
         {| sessions := sessions d;
            session_data :=
              filter (λ kv, ¬ (fst (fst kv) = sess_id ∧ snd (fst kv) ∈ keys))
                (session_data d);
            next_id := next_id d; calls := calls d |}) w).

(** [self.db.session.merge(SessionData(id=..., key=..., value=...))]:
    insert or update by primary key. *)
Definition merge (sess_id : nat) (key : string) (value : blob) : M W unit :=
  modify (λ w, let d := backend w in
    set_backend
      (log (MERGE sess_id key value)
         {| sessions := sessions d;
            session_data := <[(sess_id, key) := value]> (session_data d);
            next_id := next_id d; calls := calls d |}) w).

(** [self.db.session.commit()] *)
Definition commit : M W unit :=
  modify (λ w, set_backend (log COMMIT (backend w)) w).

(** The body of [for key, value in session.items():] for one item. *)
Definition merge_item (sess_id : nat) (initial : gmap string value)
    (item : string * value) : M W unit :=
  let '(key, value) := item in
  if py_eq_opt (initial !! key) value then ret tt   (* continue *)
  else merge sess_id key (pickle_dumps (PVal value)).

(** The loop over the items. *)
Definition merge_items (sess_id : nat) (initial : gmap string value)
    (items : list (string * value)) : M W unit :=
  foldr (λ item rest, merge_item sess_id initial item ;;; rest) (ret tt) items.

(** [save_session(self, app, session, response)].  [session.initial.keys()]
    needs [initial] to be a dictionary. *)
Definition save_session (self : t) (app : Flask) (session : ServerSideSession)
  : M W unit :=
  let domain := get_cookie_domain app in
  let path := get_cookie_path app in
  let store_id := key_prefix self +:+ sid session in
  saved_session <- query_first store_id ;;
  if is_empty session then
    if modified session then
      match saved_session with
      | Some saved => db_delete saved ;;; commit
      | None => ret tt
      end ;;;
      call_response (delete_cookie (SESSION_COOKIE_NAME app) domain path)
    else ret tt
  else
    let httponly := get_cookie_httponly app in
    let secure := get_cookie_secure app in
    let conditional_cookie_kwargs :=
      if has_same_site_capability self then Some (get_cookie_samesite app)
      else None in
    expires <- get_expiration_time app session ;;
    saved_session <-
      match saved_session with
      | Some saved => set_expiry saved expires
      | None => add_flush store_id expires
      end ;;
    initial <- lift (match initial session with
                     | PDict i => Ok i
                     | PVal _ => Raise AttributeError
                     end) ;;
    delete_data (id saved_session) (dom initial ∖ dom (mapping session)) ;;;
    merge_items (id saved_session) initial (map_to_list (mapping session)) ;;;
    commit ;;;
    session_id <- (if use_signer self then lift (_sign app (sid session))
                   else ret (sid session)) ;;
    call_response (set_cookie (SESSION_COOKIE_NAME app) session_id expires
                     httponly domain path secure conditional_cookie_kwargs).

(** [self.sql_session_data_model.query.filter_by(id=...)]: the rows of the
    child table of one session, as pairs of [row.key] and [row.value].  It
    is a read; [calls] keeps the lookup of the session row and the
    operations that change the database. *)
Definition query_data (sess_id : nat) : M W (list (string * blob)) :=
  gets (λ w, (λ kv, (kv.1.2, kv.2))
               <$> map_to_list (filter (λ kv, kv.1.1 = sess_id)
                                  (session_data (backend w)))).

(** [self.serializer.loads(want_bytes(row.value))] as a value of the
    dictionary.  The values of this development are scalars: a row that
    unpickles to a dictionary has no counterpart among them and is taken as
    one that cannot be loaded. *)
Definition load_value (b : blob) : result value :=
  match pickle_loads b with
  | Some (PVal v) => Ok v
  | Some (PDict _) => Raise TypeError
  | None => Raise UnpicklingError
  end.

(** The dictionary comprehension [{row.key: loads(row.value) for row in
    ...}]: rows are taken in order, the first one that does not load
    raises. *)
Definition load_rows (rows : list (string * blob))
  : result (gmap string value) :=
  foldl (λ acc row,
           match acc with
           | Raise e => Raise e
           | Ok d =>
               match load_value row.2 with
               | Ok v => Ok (<[row.1 := v]> d)
               | Raise e => Raise e
               end
           end) (Ok ∅) rows.

Definition session_class (initial : pyobj) (sid : string) (permanent : bool)
  : M W ServerSideSession :=
  lift (ServerSideSession_init initial sid permanent).

(** [open_session(self, app, request)].  A row that was found is true, and
    so is an expiry that is not [None]. *)
Definition open_session (self : t) (app : Flask) (request : Request)
  : M W ServerSideSession :=
  let sid := cookies request !! SESSION_COOKIE_NAME app in
  match sid with
  | None | Some "" =>
      sid <- _generate_sid ;;
      session_class PNone sid (permanent self)
  | Some sid =>
      r <- (if use_signer self then
              try_except
                (sid <- lift (_unsign app sid) ;; ret (Continue sid))
                (except_BadSignature
                   (sid <- _generate_sid ;;
                    s <- session_class PNone sid (permanent self) ;;
                    ret (Return s)))
            else ret (Continue sid)) ;;
      match r with
      | Return s => ret s
      | Continue sid =>
          let store_id := key_prefix self +:+ sid in
          saved_session <- query_first store_id ;;
          saved_session <-
            match saved_session with
            | Some saved =>
                match expiry saved with
                | Some e =>
                    now <- gets utcnow ;;
                    if e <=? now then
                      (* Delete expired session *)
                      db_delete saved ;;; commit ;;; ret None
                    else ret (Some saved)
                | None => ret (Some saved)
                end
            | None => ret None
            end ;;
          match saved_session with
          | Some saved =>
              try_except
                (rows <- query_data (id saved) ;;
                 data <- lift (load_rows rows) ;;
                 session_class (PDict data) sid false)
                (except_all (session_class PNone sid (permanent self)))
          | None => session_class PNone sid (permanent self)
          end
      end
  end.
End Methods.
End SqlAlchemySessionInterface.

(** ** [NullSessionInterface] *)
Module NullSessionInterface.
(** [open_session(self, app, request)] returns [None]. *)
Definition open_session (app : Flask) (request : Request)
  : option ServerSideSession := None.
End NullSessionInterface.

(** ** [Session.get_interface] of [flask_session/__init__.py] *)
Module Session.

(** The values of [app.config] the function handles. *)
Inductive cfg : Type :=
| CNone
| CStr (s : string)
| CInt (z : Z)
| CObj (handle : string).

#[global] Instance cfg_eq_dec : EqDecision cfg.
Proof. solve_decision. Defined.

(** The constructor call that builds the interface. *)
Inductive session_interface : Type :=
| RedisSessionInterface (redis key_prefix : cfg)
| MemcachedSessionInterface (client key_prefix : cfg)
| FileSystemSessionInterface (cache_dir threshold mode key_prefix : cfg)
| NullSessionInterface.

(** [config.setdefault(k, v)] *)
Definition setdefault (k : string) (v : cfg) (config : gmap string cfg)
  : gmap string cfg :=
  match config !! k with
  | Some _ => config
  | None => <[k := v]> config
  end.

(** [config[k]] *)
Definition item (config : gmap string cfg) (k : string) : result cfg :=
  match config !! k with
  | Some v => Ok v
  | None => Raise (KeyError k)
  end.

(** [os.path.join(a, b)] for a relative [b], on POSIX. *)
Definition os_path_join (a b : string) : string :=
  if String.eqb a "" then b
  else if String.eqb (String.substring (String.length a - 1)%nat 1 a) "/" then a +:+ b
  else a +:+ "/" +:+ b.

Definition rbind {A C} (r : result A) (k : A → result C) : result C :=
  match r with Ok a => k a | Raise e => Raise e end.

(** [get_interface(self, app)]; [getcwd] is the value of [os.getcwd()]. *)
Definition get_interface (getcwd : string) (app_config : gmap string cfg)
  : result session_interface :=
  let config := app_config in                                (* copy() *)
  let config := setdefault "SESSION_TYPE" (CStr "memcached") config in
  let config := setdefault "SESSION_KEY_PREFIX" (CStr "session:") config in
  let config := setdefault "SESSION_REDIS" CNone config in
  let config := setdefault "SESSION_MEMCACHED" CNone config in
  let config := setdefault "SESSION_FILE_DIR"
                  (CStr (os_path_join getcwd "flask_session")) config in
  let config := setdefault "SESSION_FILE_THRESHOLD" (CInt 500) config in
  let config := setdefault "SESSION_FILE_MODE" (CInt 384) config in
  rbind (item config "SESSION_TYPE") (λ ty,
  if decide (ty = CStr "redis") then
    rbind (item config "SESSION_REDIS") (λ r,
    rbind (item config "SESSION_KEY_PREFIX") (λ p,
    Ok (RedisSessionInterface r p)))
  else
  rbind (item config "SESSION_TYPE") (λ ty,
  if decide (ty = CStr "memcached") then
    rbind (item config "SESSION_MEMCACHED") (λ c,
    rbind (item config "SESSION_KEY_PREFIX") (λ p,
    Ok (MemcachedSessionInterface c p)))
  else
  rbind (item config "SESSION_TYPE") (λ ty,
  if decide (ty = CStr "filesystem") then
    rbind (item config "SESSION_FILE_DIR") (λ d,
    rbind (item config "SESSION_FILE_THRESHOLD") (λ th,
    rbind (item config "SESSION_FILE_MODE") (λ m,
    rbind (item config "SESSION_KEY_PREFIX") (λ p,
    Ok (FileSystemSessionInterface d th m p)))))
  else Ok NullSessionInterface))).

(** The application as [Session] sees it: its configuration and its
    [session_interface] attribute, [None] while flask's own is in place. *)
Record flask_app : Type := {
  config : gmap string cfg;
  session_interface_of : option session_interface;
}.

(** [init_app(self, app)] *)
Definition init_app (getcwd : string) (app : flask_app) : result flask_app :=
  rbind (get_interface getcwd (config app)) (λ i,
  Ok {| config := config app; session_interface_of := Some i |}).

(** [__init__(self, app=None)]: the application kept in [self.app], after
    [init_app] when one is given. *)
Definition __init__ (getcwd : string) (app : option flask_app)
  : result (option flask_app) :=
  match app with
  | Some app => rbind (init_app getcwd app) (λ app, Ok (Some app))
  | None => Ok None
  end.
End Session.

(** ** A concrete instance of the collaborators

    Used to run the interfaces on explicit inputs: uuids are drawn from a
    counter, a blob is the pickled object itself or a corrupt blob ([None]),
    and a token is signed by appending a dot and the secret. *)
Module Toy.
Definition sign (secret sid : string) : string := sid +:+ "." +:+ secret.

Definition unsign (secret token : string) : option string :=
  let tag := "." +:+ secret in
  let n := (String.length token - String.length tag)%nat in
  if (String.length tag <=? String.length token)%nat
     && String.eqb (String.substring n (String.length tag) token) tag
  then Some (String.substring 0 n token)
  else None.

Definition uuid (n : nat) : string * nat :=
  ("uuid-" +:+ String (Ascii.ascii_of_nat (48 + n)) "", S n).

Definition externals : Externals :=
  {| rng := nat;
     blob := option pyobj;
     uuid4 := uuid;
     pickle_dumps := Some;
     pickle_loads := λ b, b;
     signer_sign := sign;
     signer_unsign := unsign;
     flask_has_samesite := true;
     redis_importable := true |}.

Definition app (secret : option string) : Flask :=
  {| secret_key := secret;
     SESSION_COOKIE_NAME := "session";
     permanent_session_lifetime := {| days := 31; seconds := 0 |};
     get_cookie_domain := None;
     get_cookie_path := "/";
     get_cookie_httponly := true;
     get_cookie_secure := false;
     get_cookie_samesite := None |}.

Definition request (cookie : option string) : Request :=
  {| cookies := match cookie with
                | Some c => {["session" := c]}
                | None => ∅
                end |}.

Definition start {B} (b : B) : @world externals B :=
  @Build_world externals B 0%nat 1700000000 (1700000000 # 1)%Q b [].

Definition redis_interface (use_signer permanent : bool)
  : RedisSessionInterface.t :=
  {| RedisSessionInterface.redis := "redis://cache";
     RedisSessionInterface.key_prefix := "session:";
     RedisSessionInterface.use_signer := use_signer;
     RedisSessionInterface.permanent := permanent;
     RedisSessionInterface.has_same_site_capability := true |}.

(** A Redis server holding the given entries. *)
Definition redis_with (entries : gmap string (option pyobj * Z))
  : @RedisSessionInterface.redis_server externals :=
  @RedisSessionInterface.Build_redis_server externals entries [].

(** The session of user alice, stored under the sid [abc]. *)
Definition alice : gmap string value := {["user" := VStr "alice"]}.
Definition redis_alice := redis_with {["session:abc" := (Some (PDict alice), 60)]}.

(** Two requests of one browser against a permanent interface: the first
    one has no cookie and stores a user name, the second one sends the sid
    back. *)
Definition first_visit :=
  let self := redis_interface false true in
  match RedisSessionInterface.open_session self (app None) (request None)
          (start (redis_with ∅)) with
  | (Ok s, w) =>
      let s := setitem "user" (VStr "alice") s in
      (Some (sid s),
       snd (RedisSessionInterface.save_session self (app None) s w))
  | (Raise _, w) => (None, w)
  end.

Definition second_visit :=
  let self := redis_interface false true in
  RedisSessionInterface.open_session self (app None) (request (fst first_visit))
    (snd first_visit).

(** A memcached server that holds nothing. *)
Definition memcached_empty
  : @MemcachedSessionInterface.memcached_server externals :=
  @MemcachedSessionInterface.Build_memcached_server externals ∅ [].

Definition mongo_interface (use_signer permanent : bool)
  : MongoDBSessionInterface.t :=
  {| MongoDBSessionInterface.key_prefix := "session:";
     MongoDBSessionInterface.use_signer := use_signer;
     MongoDBSessionInterface.permanent := permanent;
     MongoDBSessionInterface.has_same_site_capability := true |}.

Definition mongo_doc (id : string) (expiration : Z)
  : @MongoDBSessionInterface.document externals :=
  @MongoDBSessionInterface.Build_document externals id (Some (PDict alice))
    (Some expiration).

(** The session [abc] expired an hour ago, and so did the session [old]
    of another browser; the session [new] is still valid. *)
Definition mongo_expired : @MongoDBSessionInterface.collection externals :=
  @MongoDBSessionInterface.Build_collection externals
    [mongo_doc "session:old" (1700000000 - 3600);
     mongo_doc "session:abc" (1700000000 - 3600);
     mongo_doc "session:new" (1700000000 + 3600)] [].

Definition sql_interface (use_signer permanent : bool)
  : SqlAlchemySessionInterface.t :=
  {| SqlAlchemySessionInterface.key_prefix := "session:";
     SqlAlchemySessionInterface.use_signer := use_signer;
     SqlAlchemySessionInterface.permanent := permanent;
     SqlAlchemySessionInterface.has_same_site_capability := true |}.

(** A database with no session. *)
Definition sql_empty : @SqlAlchemySessionInterface.database externals :=
  @SqlAlchemySessionInterface.Build_database externals [] ∅ 1%nat [].

(** The session [abc] is row 7 and was stored as [{a: 1, b: 2}]. *)
Definition sql_ab : @SqlAlchemySessionInterface.database externals :=
  @SqlAlchemySessionInterface.Build_database externals
    [{| SqlAlchemySessionInterface.id := 7%nat;
        SqlAlchemySessionInterface.session_id := "session:abc";
        SqlAlchemySessionInterface.expiry := None |}]
    {[(7%nat, "a") := Some (PVal (VInt 1));
      (7%nat, "b") := Some (PVal (VInt 2))]}
    8%nat [].

(** The record loaded from it, after [del session["b"]] and
    [session["c"] = 3]. *)
Definition session_ac : ServerSideSession :=
  {| mapping := {["a" := VInt 1; "c" := VInt 3]};
     sid := "abc"; modified := true;
     initial := PDict {["a" := VInt 1; "b" := VInt 2]} |}.

(** A fresh record after [session["a"] = None]. *)
Definition session_a_none : ServerSideSession :=
  setitem "a" VNone
    {| mapping := ∅; sid := "abc"; modified := false; initial := PDict ∅ |}.

Definition memcached_interface (use_signer permanent : bool)
  : MemcachedSessionInterface.t :=
  {| MemcachedSessionInterface.key_prefix := "session:";
     MemcachedSessionInterface.use_signer := use_signer;
     MemcachedSessionInterface.permanent := permanent;
     MemcachedSessionInterface.has_same_site_capability := true |}.

(** An application whose sessions live forty days. *)
Definition app_40_days : Flask :=
  {| secret_key := Some "k";
     SESSION_COOKIE_NAME := "session";
     permanent_session_lifetime := {| days := 40; seconds := 0 |};
     get_cookie_domain := None;
     get_cookie_path := "/";
     get_cookie_httponly := true;
     get_cookie_secure := false;
     get_cookie_samesite := None |}.

(** The record of alice under the sid [abc], as the application left it. *)
Definition session_alice (permanent : bool) : ServerSideSession :=
  setitem "user" (VStr "alice")
    {| mapping := if permanent then {["_permanent" := VBool true]} else ∅;
       sid := "abc"; modified := false; initial := PDict ∅ |}.

Definition mongo_empty : @MongoDBSessionInterface.collection externals :=
  @MongoDBSessionInterface.Build_collection externals [] [].

(** The session [abc] is row 7, expired an hour ago, with two child rows;
    the session [new] is row 8 and has one. *)
Definition sql_expired : @SqlAlchemySessionInterface.database externals :=
  @SqlAlchemySessionInterface.Build_database externals
    [{| SqlAlchemySessionInterface.id := 7%nat;
        SqlAlchemySessionInterface.session_id := "session:abc";
        SqlAlchemySessionInterface.expiry := Some (1700000000 - 3600) |};
     {| SqlAlchemySessionInterface.id := 8%nat;
        SqlAlchemySessionInterface.session_id := "session:new";
        SqlAlchemySessionInterface.expiry := None |}]
    {[(7%nat, "a") := Some (PVal (VInt 1));
      (7%nat, "b") := Some (PVal (VInt 2));
      (8%nat, "a") := Some (PVal (VInt 5))]}
    9%nat [].
End Toy.

(** ** Vocabulary of the statements *)

Module R := RedisSessionInterface.
Module MC := MemcachedSessionInterface.
Module MG := MongoDBSessionInterface.
Module SQL := SqlAlchemySessionInterface.

(** The record [session_class(sid=sid, permanent=permanent)] builds: nothing
    was loaded into it.  A permanent one is not empty, it holds the entry
    flask's [permanent] property writes. *)
Definition fresh_record (sid : string) (permanent : bool) : ServerSideSession :=
  {| mapping := if permanent then {["_permanent" := VBool true]} else ∅;
     sid := sid; modified := false; initial := PDict ∅ |}.

(** The record [session_class(data, sid=sid)] builds from a loaded
    dictionary. *)
Definition loaded_record (data : gmap string value) (o : pyobj) (sid : string)
  : ServerSideSession :=
  {| mapping := data; sid := sid; modified := false;
     initial := match o with PVal VNone => PDict ∅ | _ => o end |}.

(** The sid [open_session] looks up for a cookie value: the value itself, or
    what the signer recovers from it. *)
Definition looked_up_sid `{Externals} (use_signer : bool) (app : Flask)
    (cookie : string) : result string :=
  if use_signer then _unsign app cookie else Ok cookie.

(** A stored blob that does not yield a dictionary: [pickle.loads] raises, or
    [dict.__init__] refuses the object. *)
Definition undecodable `{Externals} (val : blob) : Prop :=
  pickle_loads val = None
  ∨ ∃ o e, pickle_loads val = Some o ∧ dict_init o = Raise e.

(** The request without the session cookie. *)
Definition without_cookie (app : Flask) (request : Request) : Request :=
  {| cookies := delete (SESSION_COOKIE_NAME app) (cookies request) |}.

(** [secret_key] is missing, [None] or empty. *)
Definition no_secret (app : Flask) : Prop :=
  secret_key app = None ∨ secret_key app = Some "".

Definition missing_secret : exn :=
  KeyError "SECRET_KEY must be set when SESSION_USE_SIGNER=True".

(** What [open_session] answers when it generates a sid: the fresh record
    and the world with the random source advanced. *)
Definition generated `{Externals} {B} (permanent : bool) (w : world B)
  : result ServerSideSession * world B :=
  (Ok (fresh_record (uuid4 (entropy w)).1 permanent),
   set_entropy (uuid4 (entropy w)).2 w).

(** The Redis store after one [get]. *)
Definition after_get `{Externals} (name : string) (w : world R.redis_server)
  : world R.redis_server :=
  set_backend {| R.db := R.db (backend w);
                 R.calls := R.calls (backend w) ++ [R.GET name] |} w.

(** The document store after [find_one], and after [remove]. *)
Definition after_find `{Externals} (store_id : string)
    (w : world MG.collection) : world MG.collection :=
  set_backend {| MG.docs := MG.docs (backend w);
                 MG.calls := MG.calls (backend w) ++ [MG.FIND_ONE store_id] |} w.

Definition after_remove `{Externals} (store_id : string)
    (w : world MG.collection) : world MG.collection :=
  set_backend
    {| MG.docs := List.filter (λ d, negb (MG.has_id store_id d))
                    (MG.docs (backend w));
       MG.calls := MG.calls (backend w) ++ [MG.REMOVE store_id] |} w.

(** The same world over a collection that never held a document under
    [store_id]. *)
Definition never_stored `{Externals} (store_id : string)
    (w : world MG.collection) : world MG.collection :=
  set_backend
    {| MG.docs := List.filter (λ d, negb (MG.has_id store_id d))
                    (MG.docs (backend w));
       MG.calls := MG.calls (backend w) |} w.

(** The items of the loop of the relational [save_session] that reach
    [merge]: those the test [initial.get(key) == value] does not skip. *)
Definition merged_items (initial : gmap string value)
    (items : list (string * value)) : list (string * value) :=
  List.filter (λ item, negb (py_eq_opt (initial !! item.1) item.2)) items.

(** The child table after the [merge] of each of these items. *)
Definition merge_all `{Externals} (sess_id : nat)
    (items : list (string * value)) (table : gmap (nat * string) blob)
  : gmap (nat * string) blob :=
  foldl (λ t item, <[(sess_id, item.1) := pickle_dumps (PVal item.2)]> t)
    table items.

(** The row [save_session] works on: the one found, with its new expiry, or
    the one it adds. *)
Definition saved_row `{Externals} (store_id : string) (expires : option Z)
    (d : SQL.database) : SQL.Session :=
  match head (List.filter (λ r, String.eqb (SQL.session_id r) store_id)
                (SQL.sessions d)) with
  | Some saved => {| SQL.id := SQL.id saved;
                     SQL.session_id := SQL.session_id saved;
                     SQL.expiry := expires |}
  | None => {| SQL.id := SQL.next_id d; SQL.session_id := store_id;
               SQL.expiry := expires |}
  end.

(** The expiry and the row of a save, as [save_session] computes them. *)
Definition save_expires `{Externals} {B} (app : Flask)
    (session : ServerSideSession) (w : world B) : option Z :=
  if truthy (SessionMixin_permanent session)
  then Some (utcnow w + total_seconds (permanent_session_lifetime app))
  else None.

Definition save_row `{Externals} (self : SQL.t) (app : Flask)
    (session : ServerSideSession) (w : world SQL.database) : SQL.Session :=
  saved_row (SQL.key_prefix self +:+ sid session)
    (save_expires app session w) (backend w).

(** The number of [commit] among the operations. *)
Definition commits `{Externals} (ops : list SQL.sql_op) : nat :=
  length (List.filter (λ op, match op with SQL.COMMIT => true | _ => false end)
            ops).

(** *** Vocabulary of the composed runs *)

(** The value [save_session] puts in the cookie: the sid, signed when the
    interface signs. *)
Definition cookie_value `{Externals} (use_signer : bool) (app : Flask)
    (sid : string) : result string :=
  if use_signer then _sign app sid else Ok sid.

(** The [set_cookie] call of a save. *)
Definition the_cookie (has_same_site_capability : bool) (app : Flask)
    (session_id : string) (expires : option Z) : cookie_op :=
  set_cookie (SESSION_COOKIE_NAME app) session_id expires
    (get_cookie_httponly app) (get_cookie_domain app) (get_cookie_path app)
    (get_cookie_secure app)
    (if has_same_site_capability then Some (get_cookie_samesite app) else None).

(** The Redis store after one [setex] and after one [delete]. *)
Definition after_setex `{Externals} (name : string) (value : blob) (time : Z)
    (w : world R.redis_server) : world R.redis_server :=
  set_backend {| R.db := <[name := (value, time)]> (R.db (backend w));
                 R.calls := R.calls (backend w) ++ [R.SETEX name value time] |} w.

Definition after_del `{Externals} (name : string)
    (w : world R.redis_server) : world R.redis_server :=
  set_backend {| R.db := delete name (R.db (backend w));
                 R.calls := R.calls (backend w) ++ [R.DEL name] |} w.

(** The memcached store after one [get] and after one [set]. *)
Definition after_mc_get `{Externals} (key : string)
    (w : world MC.memcached_server) : world MC.memcached_server :=
  set_backend {| MC.db := MC.db (backend w);
                 MC.calls := MC.calls (backend w) ++ [MC.MC_GET key] |} w.

Definition after_mc_set `{Externals} (key : string) (val : blob) (time : Z)
    (w : world MC.memcached_server) : world MC.memcached_server :=
  set_backend {| MC.db := <[key := (val, time)]> (MC.db (backend w));
                 MC.calls := MC.calls (backend w) ++ [MC.MC_SET key val time] |} w.

(** The timeout [_get_memcache_timeout] returns. *)
Definition memcache_timeout `{Externals} {B} (timeout : Z) (w : world B) : Z :=
  if 2592000 <? timeout then timeout + MC.py_int (time_time w) else timeout.

(** What the application does to a record while it handles a request, and
    a sequence of such steps; the sequence stops at the first step that
    raises. *)
Inductive mutation : Type :=
| Set_item (k : string) (v : value)
| Del_item (k : string)
| Clear.

Definition mutate (m : mutation) (s : ServerSideSession)
  : result ServerSideSession :=
  match m with
  | Set_item k v => Ok (setitem k v s)
  | Del_item k => delitem k s
  | Clear => Ok (clear s)
  end.

Fixpoint mutate_all (ms : list mutation) (s : ServerSideSession)
  : result ServerSideSession :=
  match ms with
  | [] => Ok s
  | m :: ms =>
      match mutate m s with
      | Ok s => mutate_all ms s
      | Raise e => Raise e
      end
  end.

(** The dictionary the same steps give, on a plain dictionary. *)
Fixpoint dict_after (ms : list mutation) (d : gmap string value)
  : gmap string value :=
  match ms with
  | [] => d
  | Set_item k v :: ms => dict_after ms (<[k := v]> d)
  | Del_item k :: ms => dict_after ms (delete k d)
  | Clear :: ms => dict_after ms ∅
  end.

(** No two documents of the collection share an id. *)
Definition unique_ids `{Externals} (docs : list MG.document) : Prop :=
  NoDup (MG.id <$> docs).

(** The document a save writes. *)
Definition saved_document `{Externals} (self : MG.t) (app : Flask)
    (session : ServerSideSession) (w : world MG.collection) : MG.document :=
  {| MG.id := MG.key_prefix self +:+ sid session;
     MG.val := pickle_dumps (PDict (mapping session));
     MG.expiration := save_expires app session w |}.

(** The collection after the upsert of a save. *)
Definition after_update `{Externals} (doc : MG.document)
    (w : world MG.collection) : world MG.collection :=
  set_backend
    {| MG.docs := default (MG.docs (backend w) ++ [doc])
                    (MG.replace_first (MG.id doc) doc (MG.docs (backend w)));
       MG.calls := MG.calls (backend w) ++ [MG.UPDATE (MG.id doc) doc true] |}
    w.

(** The row of the session table [query.filter_by(session_id=...).first()]
    returns. *)
Definition found_row `{Externals} (store_id : string) (d : SQL.database)
  : option SQL.Session :=
  head (List.filter (λ r, String.eqb (SQL.session_id r) store_id)
          (SQL.sessions d)).

(** The database after the lookup of the session row. *)
Definition sql_after_select `{Externals} (store_id : string)
    (w : world SQL.database) : world SQL.database :=
  set_backend (SQL.log (SQL.SELECT_FIRST store_id) (backend w)) w.

(** The database after [delete(saved)] and [commit()]: the row is gone, and
    with it its child rows. *)
Definition sql_after_delete `{Externals} (saved : SQL.Session)
    (w : world SQL.database) : world SQL.database :=
  set_backend
    (SQL.log SQL.COMMIT
       (SQL.log (SQL.DELETE_SESSION (SQL.id saved))
          {| SQL.sessions :=
               List.filter (λ r, negb (Nat.eqb (SQL.id r) (SQL.id saved)))
                 (SQL.sessions (backend w));
             SQL.session_data :=
               filter (λ kv, kv.1.1 ≠ SQL.id saved)
                 (SQL.session_data (backend w));
             SQL.next_id := SQL.next_id (backend w);
             SQL.calls := SQL.calls (backend w) |})) w.

(** The child rows of one session, as [open_session] reads them. *)
Definition stored_rows `{Externals} (sess_id : nat) (d : SQL.database)
  : list (string * blob) :=
  (λ kv, (kv.1.2, kv.2))
    <$> map_to_list (filter (λ kv, kv.1.1 = sess_id) (SQL.session_data d)).

(** The entries of a dictionary whose value is not [None]. *)
Definition without_none (d : gmap string value) : gmap string value :=
  filter (λ kv, kv.2 ≠ VNone) d.

(** The interface [get_interface] builds, read off the configuration with
    the defaults filled in. *)
Definition configured (getcwd : string) (config : gmap string Session.cfg)
  : Session.session_interface :=
  let key_prefix :=
    default (Session.CStr "session:") (config !! "SESSION_KEY_PREFIX") in
  let ty := default (Session.CStr "memcached") (config !! "SESSION_TYPE") in
  if decide (ty = Session.CStr "redis") then
    Session.RedisSessionInterface
      (default Session.CNone (config !! "SESSION_REDIS")) key_prefix
  else if decide (ty = Session.CStr "memcached") then
    Session.MemcachedSessionInterface
      (default Session.CNone (config !! "SESSION_MEMCACHED")) key_prefix
  else if decide (ty = Session.CStr "filesystem") then
    Session.FileSystemSessionInterface
      (default (Session.CStr (Session.os_path_join getcwd "flask_session"))
         (config !! "SESSION_FILE_DIR"))
      (default (Session.CInt 500) (config !! "SESSION_FILE_THRESHOLD"))
      (default (Session.CInt 384) (config !! "SESSION_FILE_MODE"))
      key_prefix
  else Session.NullSessionInterface.

(** ** The record *)

Arguments ServerSideSession_init : simpl never.

Lemma ServerSideSession_init_fresh (sid : string) (permanent : bool) :
  ServerSideSession_init PNone sid permanent = Ok (fresh_record sid permanent).
Proof. destruct permanent; reflexivity. Qed.

Lemma dict_init_dict (d : gmap string value) : dict_init (PDict d) = Ok d.
Proof.
  unfold dict_init, obj_truthy. case_bool_decide as Hd; simpl; [|done].
  by rewrite Hd.
Qed.

Lemma ServerSideSession_init_loaded (o : pyobj) (d : gmap string value)
    (sid : string) :
  dict_init o = Ok d →
  ServerSideSession_init o sid false = Ok (loaded_record d o sid).
Proof. intros Hd. unfold ServerSideSession_init. rewrite Hd. reflexivity. Qed.

Lemma ServerSideSession_init_raises (o : pyobj) (e : exn) (sid : string)
    (permanent : bool) :
  dict_init o = Raise e → ServerSideSession_init o sid permanent = Raise e.
Proof. intros Hd. unfold ServerSideSession_init. by rewrite Hd. Qed.

Lemma fresh_record_is_empty (sid : string) (permanent : bool) :
  is_empty (fresh_record sid permanent) = negb permanent.
Proof. destruct permanent; reflexivity. Qed.

Lemma fresh_record_permanent (sid : string) (permanent : bool) :
  SessionMixin_permanent (fresh_record sid permanent) = VBool permanent.
Proof. destruct permanent; reflexivity. Qed.

Lemma is_empty_true (s : ServerSideSession) :
  mapping s = ∅ → is_empty s = true.
Proof. intros Hs. unfold is_empty. by rewrite bool_decide_eq_true. Qed.

Lemma is_empty_false (s : ServerSideSession) :
  mapping s ≠ ∅ → is_empty s = false.
Proof. intros Hs. unfold is_empty. by rewrite bool_decide_eq_false. Qed.

Lemma _get_signer_no_secret (app : Flask) :
  no_secret app → _get_signer app = Raise missing_secret.
Proof. unfold _get_signer. by intros [-> | ->]. Qed.

(** ** [RedisSessionInterface.save_session] *)

(** C1.  Saving an empty record: when the record was never modified the call
    returns without touching the store or the response; when it was modified
    the store receives [delete(key_prefix + sid)], which removes the entry,
    and the response receives [delete_cookie], and nothing else happens. *)
Theorem save_session_empty_record `{Externals}
    (self : R.t) (app : Flask) (session : ServerSideSession)
    (w : world R.redis_server) :
  mapping session = ∅ →
  R.save_session self app session w =
    if modified session then
      (Ok tt,
       set_response
         (response w ++ [delete_cookie (SESSION_COOKIE_NAME app)
                           (get_cookie_domain app) (get_cookie_path app)])
         (set_backend
            {| R.db := delete (R.key_prefix self +:+ sid session)
                         (R.db (backend w));
               R.calls := R.calls (backend w)
                            ++ [R.DEL (R.key_prefix self +:+ sid session)] |}
            w))
    else (Ok tt, w).
Proof.
  intros Hempty. unfold R.save_session.
  rewrite (is_empty_true _ Hempty).
  destruct (modified session); reflexivity.
Qed.

(** An emptied record: a loaded one that the application cleared. *)
Lemma save_session_empty_record_witness :
  let s := clear (loaded_record {["k" := VInt 1]} (PDict {["k" := VInt 1]}) "abc") in
  let self := {| R.redis := "r"; R.key_prefix := "session:";
                 R.use_signer := false; R.permanent := true;
                 R.has_same_site_capability := true |} in
  let w := Toy.start {| R.db := {["session:abc" := (Some (PDict {["k" := VInt 1]}), 60)]};
                        R.calls := [] |} in
  R.db (backend (snd (R.save_session self (Toy.app None) s w))) = ∅
  ∧ response (snd (R.save_session self (Toy.app None) s w))
    = [delete_cookie "session" None "/"].
Proof.
  intros s self w.
  rewrite (save_session_empty_record (H := Toy.externals) self (Toy.app None) s w
             eq_refl).
  split; [vm_compute; reflexivity | reflexivity].
Defined.

(** ** [RedisSessionInterface.open_session] *)

Section RedisOpen.
Context `{Externals}.
Implicit Types (self : R.t) (app : Flask) (request : Request)
  (w : world R.redis_server).

Lemma generate_fresh self w :
  (sid <- _generate_sid ;; R.session_class PNone sid (R.permanent self)) w
  = generated (R.permanent self) w.
Proof.
  unfold bind, _generate_sid, R.session_class, lift, generated.
  destruct (uuid4 (entropy w)) as [u r]. simpl.
  by rewrite ServerSideSession_init_fresh.
Qed.

Lemma open_session_no_cookie self app request w :
  cookies request !! SESSION_COOKIE_NAME app = None →
  R.open_session self app request w = generated (R.permanent self) w.
Proof.
  intros Hc. unfold R.open_session. rewrite Hc. apply generate_fresh.
Qed.

Lemma open_session_empty_cookie self app request w :
  cookies request !! SESSION_COOKIE_NAME app = Some "" →
  R.open_session self app request w = generated (R.permanent self) w.
Proof.
  intros Hc. unfold R.open_session. rewrite Hc. apply generate_fresh.
Qed.

Lemma open_session_bad_signature self app request w token :
  R.use_signer self = true →
  cookies request !! SESSION_COOKIE_NAME app = Some token →
  _unsign app token = Raise BadSignature →
  R.open_session self app request w = generated (R.permanent self) w.
Proof.
  intros Hs Hc Hu. destruct token as [|a token].
  { by apply open_session_empty_cookie. }
  unfold R.open_session. rewrite Hc, Hs.
  unfold bind at 1. unfold try_except, bind at 1, lift. rewrite Hu. simpl.
  unfold bind at 1. unfold bind at 2.
  unfold _generate_sid, R.session_class, lift, generated, ret.
  destruct (uuid4 (entropy w)) as [u r]. simpl.
  by destruct (R.permanent self).
Qed.

(** After the cookie gave a sid, the lookup decides. *)
Lemma open_session_lookup self app request w cookie sid :
  cookies request !! SESSION_COOKIE_NAME app = Some cookie →
  cookie ≠ "" →
  looked_up_sid (R.use_signer self) app cookie = Ok sid →
  R.open_session self app request w =
    let w' := after_get (R.key_prefix self +:+ sid) w in
    match R.db (backend w) !! (R.key_prefix self +:+ sid) with
    | Some (val, _) =>
        match pickle_loads val with
        | Some o =>
            match ServerSideSession_init o sid false with
            | Ok s => (Ok s, w')
            | Raise _ => (Ok (fresh_record sid (R.permanent self)), w')
            end
        | None => (Ok (fresh_record sid (R.permanent self)), w')
        end
    | None => (Ok (fresh_record sid (R.permanent self)), w')
    end.
Proof.
  intros Hc Hne Hsid. destruct cookie as [|a cookie]; [done|].
  unfold R.open_session. rewrite Hc.
  unfold looked_up_sid in Hsid.
  assert ((if R.use_signer self
           then try_except
                  (sid0 <- lift (_unsign app (String a cookie)) ;;
                   ret (Continue sid0))
                  (except_BadSignature
                     (sid0 <- _generate_sid ;;
                      s <- R.session_class PNone sid0 (R.permanent self) ;;
                      ret (Return s)))
           else ret (Continue (String a cookie))) w
          = (Ok (Continue sid), w)) as Hflow.
  { destruct (R.use_signer self).
    - unfold try_except, bind, lift. by rewrite Hsid.
    - by injection Hsid as ->. }
  unfold bind at 1. rewrite Hflow.
  unfold bind at 1. unfold R.redis_get at 1. cbn zeta.
  fold (after_get (R.key_prefix self +:+ sid) w).
  destruct (R.db (backend w) !! (R.key_prefix self +:+ sid)) as [[val ttl]|];
    simpl.
  - unfold try_except, bind, lift, R.session_class, except_all, lift.
    destruct (pickle_loads val) as [o|].
    + destruct (ServerSideSession_init o sid false); [done|].
      by rewrite ServerSideSession_init_fresh.
    + by rewrite ServerSideSession_init_fresh.
  - unfold R.session_class, lift. by rewrite ServerSideSession_init_fresh.
Qed.
End RedisOpen.

(** C2, as stated, fails: with a permanent interface the record returned for
    a tampered cookie is not empty, it holds the ["_permanent"] entry. *)
Lemma open_session_tampered_cookie_not_empty :
  (R.open_session (Toy.redis_interface true true) (Toy.app (Some "k"))
     (Toy.request (Some "abc.forged")) (Toy.start Toy.redis_alice)).1
  = Ok (fresh_record "uuid-0" true)
  ∧ is_empty (fresh_record "uuid-0" true) = false
  ∧ mapping (fresh_record "uuid-0" true) !! "_permanent" = Some (VBool true).
Proof. vm_compute. repeat split; reflexivity. Qed.

(** C2, amended.  When the signer rejects the cookie value, [open_session]
    answers exactly as it does for the request without the cookie: a new sid
    is drawn from the random source and the record built for it is fresh,
    that is empty for an interface that is not permanent and holding only
    the ["_permanent"] entry for a permanent one.  The sid of the record is
    the generated one and the store is neither read nor changed. *)
Theorem open_session_tampered_cookie `{Externals}
    (self : R.t) (app : Flask) (request : Request)
    (w : world R.redis_server) (token : string) :
  R.use_signer self = true →
  cookies request !! SESSION_COOKIE_NAME app = Some token →
  _unsign app token = Raise BadSignature →
  R.open_session self app request w
  = (Ok (fresh_record (uuid4 (entropy w)).1 (R.permanent self)),
     set_entropy (uuid4 (entropy w)).2 w)
  ∧ R.open_session self app request w
    = R.open_session self app (without_cookie app request) w
  ∧ backend (R.open_session self app request w).2 = backend w
  ∧ mapping (fresh_record (uuid4 (entropy w)).1 (R.permanent self))
    = (if R.permanent self then {["_permanent" := VBool true]} else ∅).
Proof.
  intros Hs Hc Hu.
  rewrite (open_session_bad_signature self app request w token Hs Hc Hu).
  rewrite (open_session_no_cookie self app (without_cookie app request) w)
    by apply lookup_delete_eq.
  done.
Qed.

Lemma open_session_tampered_cookie_witness :
  R.open_session (Toy.redis_interface true false) (Toy.app (Some "k"))
    (Toy.request (Some "abc.forged")) (Toy.start Toy.redis_alice)
  = (Ok (fresh_record "uuid-0" false),
     set_entropy (H := Toy.externals) 1%nat (Toy.start Toy.redis_alice)).
Proof.
  apply (open_session_tampered_cookie (H := Toy.externals)
           (Toy.redis_interface true false) (Toy.app (Some "k"))
           (Toy.request (Some "abc.forged")) (Toy.start Toy.redis_alice)
           "abc.forged"); reflexivity.
Defined.

(** C3, as stated, fails: with a permanent interface the record returned
    after a failed lookup is not empty. *)
Lemma open_session_lookup_failure_not_empty :
  (R.open_session (Toy.redis_interface false true) (Toy.app None)
     (Toy.request (Some "zzz")) (Toy.start Toy.redis_alice)).1
  = Ok (fresh_record "zzz" true)
  ∧ is_empty (fresh_record "zzz" true) = false.
Proof. vm_compute. split; reflexivity. Qed.

(** C3, amended.  When the store has no entry under [key_prefix + sid], or
    the entry does not decode to a dictionary, [open_session] returns
    normally a fresh record (empty for an interface that is not permanent,
    holding only the ["_permanent"] entry for a permanent one) bound to the
    sid that was looked up; no sid is generated and the store only received
    the [get]. *)
Theorem open_session_lookup_failure `{Externals}
    (self : R.t) (app : Flask) (request : Request)
    (w : world R.redis_server) (cookie sid : string) :
  cookies request !! SESSION_COOKIE_NAME app = Some cookie →
  cookie ≠ "" →
  looked_up_sid (R.use_signer self) app cookie = Ok sid →
  (R.db (backend w) !! (R.key_prefix self +:+ sid) = None
   ∨ ∃ val ttl, R.db (backend w) !! (R.key_prefix self +:+ sid) = Some (val, ttl)
                ∧ undecodable val) →
  R.open_session self app request w
  = (Ok (fresh_record sid (R.permanent self)),
     after_get (R.key_prefix self +:+ sid) w)
  ∧ entropy (R.open_session self app request w).2 = entropy w
  ∧ mapping (fresh_record sid (R.permanent self))
    = (if R.permanent self then {["_permanent" := VBool true]} else ∅).
Proof.
  intros Hc Hne Hsid Hfail.
  rewrite (open_session_lookup self app request w cookie sid Hc Hne Hsid).
  cbn zeta.
  destruct Hfail as [-> | (val & ttl & -> & Hval)]; [done|].
  destruct Hval as [-> | (o & e & -> & Ho)]; [done|].
  by rewrite (ServerSideSession_init_raises o e sid false Ho).
Qed.

(** A corrupt blob under the signed sid [abc]. *)
Lemma open_session_lookup_failure_witness :
  R.open_session (Toy.redis_interface true false) (Toy.app (Some "k"))
    (Toy.request (Some "abc.k"))
    (Toy.start (Toy.redis_with {["session:abc" := (None, 60)]}))
  = (Ok (fresh_record "abc" false),
     after_get (H := Toy.externals) "session:abc"
       (Toy.start (Toy.redis_with {["session:abc" := (None, 60)]}))).
Proof.
  apply (open_session_lookup_failure (H := Toy.externals)
           (Toy.redis_interface true false) (Toy.app (Some "k"))
           (Toy.request (Some "abc.k"))
           (Toy.start (Toy.redis_with {["session:abc" := (None, 60)]}))
           "abc.k" "abc").
  - reflexivity.
  - discriminate.
  - reflexivity.
  - right. exists None, 60. split; [reflexivity | left; reflexivity].
Defined.

(** ** The [modified] flag and what a save does *)

Lemma setitem_modified (k : string) (v : value) (s : ServerSideSession) :
  modified (setitem k v s) = true.
Proof. reflexivity. Qed.

Lemma clear_modified (s : ServerSideSession) : modified (clear s) = true.
Proof. reflexivity. Qed.

Lemma delitem_modified (k : string) (s s' : ServerSideSession) :
  delitem k s = Ok s' → modified s' = true.
Proof.
  unfold delitem. destruct (mapping s !! k); [|done].
  by intros [= <-].
Qed.

Lemma delitem_missing (k : string) (s : ServerSideSession) :
  mapping s !! k = None → delitem k s = Raise (KeyError k).
Proof. unfold delitem. by intros ->. Qed.

(** A record that is not empty is written, whatever its [modified] flag. *)
Lemma save_session_writes `{Externals}
    (self : R.t) (app : Flask) (session : ServerSideSession)
    (w : world R.redis_server) :
  mapping session ≠ ∅ →
  R.calls (backend (R.save_session self app session w).2)
  = R.calls (backend w)
      ++ [R.SETEX (R.key_prefix self +:+ sid session)
            (pickle_dumps (PDict (mapping session)))
            (total_seconds (permanent_session_lifetime app))].
Proof.
  intros Hne. unfold R.save_session. rewrite (is_empty_false _ Hne).
  unfold get_expiration_time, bind, gets, ret, R.redis_setex, modify,
    call_response, lift.
  destruct (truthy (SessionMixin_permanent session)); simpl;
    destruct (R.use_signer self); simpl; try reflexivity;
    destruct (_sign app (sid session)); reflexivity.
Qed.

(** The record a permanent interface creates for a first visit is not
    empty: left untouched, it is stored and its cookie is set. *)
Lemma save_session_fresh_permanent_writes `{Externals}
    (self : R.t) (app : Flask) (sid' : string) (w : world R.redis_server) :
  modified (fresh_record sid' true) = false
  ∧ R.calls (backend (R.save_session self app (fresh_record sid' true) w).2)
    = R.calls (backend w)
        ++ [R.SETEX (R.key_prefix self +:+ sid')
              (pickle_dumps (PDict {["_permanent" := VBool true]}))
              (total_seconds (permanent_session_lifetime app))].
Proof.
  split; [reflexivity|].
  apply (save_session_writes self app (fresh_record sid' true) w).
  apply (insert_non_empty (M := gmap string)).
Qed.

(** C4, as stated, fails: a record loaded from the store and left untouched
    has [modified = False], and saving it sends a [setex] to the store. *)
Lemma save_session_unmodified_writes :
  let s := loaded_record Toy.alice (PDict Toy.alice) "abc" in
  modified s = false
  ∧ R.calls (backend (R.save_session (Toy.redis_interface false true)
                        (Toy.app None) s (Toy.start Toy.redis_alice)).2)
    = [R.SETEX (H := Toy.externals) "session:abc" (Some (PDict Toy.alice))
         2678400].
Proof. split; reflexivity. Qed.

(** C4, amended.  For every record, whatever its [modified] flag was, [set],
    [clear] and the [delete] of a present key leave [modified] true; the
    [delete] of a missing key raises [KeyError] and gives no new record.
    The flag decides the store traffic of a save for an empty record only:
    with [modified] false an empty record is saved without any call to the
    store or to the response, with [modified] true its entry is deleted;
    a record that is not empty is written with [setex] on every save, and
    the save is the same whether [modified] is set or not. *)
Theorem modified_gates_empty_save `{Externals}
    (self : R.t) (app : Flask) (session : ServerSideSession)
    (w : world R.redis_server) (k : string) (v : value) :
  modified (setitem k v session) = true
  ∧ modified (clear session) = true
  ∧ match delitem k session with
    | Ok s' => modified s' = true ∧ is_Some (mapping session !! k)
    | Raise e => e = KeyError k ∧ mapping session !! k = None
    end
  ∧ (mapping session = ∅ → modified session = false →
     R.save_session self app session w = (Ok tt, w))
  ∧ (mapping session = ∅ → modified session = true →
     R.calls (backend (R.save_session self app session w).2)
     = R.calls (backend w) ++ [R.DEL (R.key_prefix self +:+ sid session)])
  ∧ (mapping session ≠ ∅ →
     R.calls (backend (R.save_session self app session w).2)
     = R.calls (backend w)
         ++ [R.SETEX (R.key_prefix self +:+ sid session)
               (pickle_dumps (PDict (mapping session)))
               (total_seconds (permanent_session_lifetime app))]
     ∧ ∀ b : bool,
         R.save_session self app (set_modified b session) w
         = R.save_session self app session w).
Proof.
  split; [reflexivity|]. split; [reflexivity|]. split; [|split; [|split]].
  - unfold delitem. destruct (mapping session !! k) as [x|]; [|done].
    split; [reflexivity|]. by exists x.
  - intros He Hm. unfold R.save_session.
    rewrite (is_empty_true _ He). by rewrite Hm.
  - intros He Hm. unfold R.save_session.
    rewrite (is_empty_true _ He). by rewrite Hm.
  - intros Hne. split; [by apply save_session_writes|].
    intros b. unfold R.save_session.
    change (is_empty (set_modified b session)) with (is_empty session).
    by rewrite (is_empty_false _ Hne).
Qed.

(** Two saves against the store that holds the session of alice: an empty,
    untouched record leaves everything as it is; the loaded record is
    written again, after an assignment as well as untouched. *)
Lemma modified_gates_empty_save_witness :
  R.save_session (Toy.redis_interface false false) (Toy.app None)
    (fresh_record "abc" false) (Toy.start Toy.redis_alice)
  = (Ok tt, Toy.start Toy.redis_alice)
  ∧ R.calls
      (backend
         (R.save_session (Toy.redis_interface false false) (Toy.app None)
            (setitem "user" (VStr "bob")
               (loaded_record Toy.alice (PDict Toy.alice) "abc"))
            (Toy.start Toy.redis_alice)).2)
    = [R.SETEX (H := Toy.externals) "session:abc"
         (Some (PDict {["user" := VStr "bob"]})) 2678400].
Proof.
  split.
  - refine (proj1 (proj2 (proj2 (proj2
      (modified_gates_empty_save (H := Toy.externals)
         (Toy.redis_interface false false) (Toy.app None)
         (fresh_record "abc" false) (Toy.start Toy.redis_alice)
         "k" VNone)))) _ _); reflexivity.
  - refine (eq_trans (proj1 (proj2 (proj2 (proj2 (proj2 (proj2
      (modified_gates_empty_save (H := Toy.externals)
         (Toy.redis_interface false false) (Toy.app None)
         (setitem "user" (VStr "bob")
            (loaded_record Toy.alice (PDict Toy.alice) "abc"))
         (Toy.start Toy.redis_alice) "k" VNone))))) _)) _).
    + apply (insert_non_empty (M := gmap string)).
    + vm_compute. reflexivity.
Defined.

(** ** The missing secret *)

(** C9, as stated, fails: the interface is constructed with the signer
    switched on although the application has no secret, and the error
    appears when [open_session] verifies a cookie. *)
Lemma missing_secret_not_raised_by_constructor :
  R.__init__ (H := Toy.externals) (Some "redis://cache") "session:" true true
  = Ok (Toy.redis_interface true true)
  ∧ R.open_session (Toy.redis_interface true true) (Toy.app None)
      (Toy.request (Some "abc.k")) (Toy.start Toy.redis_alice)
    = (Raise missing_secret, Toy.start Toy.redis_alice).
Proof. split; reflexivity. Qed.

(** C9, amended.  The constructor receives no application object: with the
    signer switched on and no secret configured it returns the interface (it
    can only fail on the import of the client module).  The missing secret
    is raised, as a [KeyError], by the first verification or signature while
    a request is handled: by [open_session] when the request carries a
    cookie, before the store is read, and by [save_session] of a record that
    is not empty. *)
Theorem missing_secret_raised_on_use `{Externals}
    (redis : option R.client) (key_prefix : string) (permanent : bool)
    (app : Flask) (request : Request) (cookie : string)
    (session : ServerSideSession) (w : world R.redis_server) :
  no_secret app →
  cookies request !! SESSION_COOKIE_NAME app = Some cookie →
  cookie ≠ "" →
  mapping session ≠ ∅ →
  R.__init__ redis key_prefix true permanent ≠ Raise missing_secret
  ∧ (is_Some redis ∨ redis_importable = true →
     ∃ self, R.__init__ redis key_prefix true permanent = Ok self
             ∧ R.use_signer self = true)
  ∧ ∀ self, R.__init__ redis key_prefix true permanent = Ok self →
      R.open_session self app request w = (Raise missing_secret, w)
      ∧ (R.save_session self app session w).1 = Raise missing_secret.
Proof.
  intros Hsec Hc Hne Hs. split; [|split].
  - unfold R.__init__. destruct redis; [done|].
    by destruct redis_importable.
  - intros Hr. unfold R.__init__. destruct redis as [r|].
    + eexists. split; reflexivity.
    + destruct Hr as [[? [=]] | ->]. eexists. split; reflexivity.
  - intros self Hself.
    assert (R.use_signer self = true) as Hus.
    { unfold R.__init__ in Hself. destruct redis; [|destruct redis_importable];
        by inversion Hself. }
    split.
    + destruct cookie as [|a cookie]; [done|].
      unfold R.open_session. rewrite Hc, Hus.
      unfold bind, try_except, lift, _unsign.
      by rewrite (_get_signer_no_secret app Hsec).
    + unfold R.save_session. rewrite (is_empty_false _ Hs), Hus.
      unfold get_expiration_time, bind, gets, ret, R.redis_setex, modify,
        call_response, lift, _sign.
      rewrite (_get_signer_no_secret app Hsec).
      by destruct (truthy (SessionMixin_permanent session)).
Qed.

Lemma missing_secret_raised_on_use_witness :
  R.open_session (Toy.redis_interface true true) (Toy.app None)
    (Toy.request (Some "abc.k")) (Toy.start Toy.redis_alice)
  = (Raise missing_secret, Toy.start Toy.redis_alice).
Proof.
  refine (proj1 (proj2 (proj2
    (missing_secret_raised_on_use (H := Toy.externals)
       (Some "redis://cache") "session:" true (Toy.app None)
       (Toy.request (Some "abc.k")) "abc.k"
       (loaded_record Toy.alice (PDict Toy.alice) "abc")
       (Toy.start Toy.redis_alice) _ _ _ _))
    (Toy.redis_interface true true) eq_refl)).
  - left; reflexivity.
  - reflexivity.
  - discriminate.
  - apply (insert_non_empty (M := gmap string)).
Defined.

(** ** The [permanent] flag of a loaded record *)

(** C10, as stated, fails: the record of the first visit to a permanent
    interface is stored with its ["_permanent"] entry, so the record loaded
    on the second visit is permanent and its cookie receives an absolute
    expiration. *)
Lemma loaded_record_is_permanent :
  Toy.first_visit.1 = Some "uuid-0"
  ∧ match Toy.second_visit with
    | (Ok s, w) =>
        mapping s = {["_permanent" := VBool true; "user" := VStr "alice"]}
        ∧ SessionMixin_permanent s = VBool true
        ∧ (get_expiration_time (Toy.app None) s w).1
          = Ok (Some (1700000000 + 31 * 86400))
    | (Raise _, _) => False
    end.
Proof. vm_compute. repeat split; reflexivity. Qed.

(** C10, amended.  A record loaded from the store is constructed without the
    permanent argument, so the setting of the interface is not applied to
    it: its [permanent] flag is the value of the ["_permanent"] entry of
    the loaded dictionary, and false when the dictionary has no such entry;
    the expiration of its cookie is absolute when that flag is true in the
    sense of [if] and session-scoped otherwise.  Fresh records receive the
    setting of the interface. *)
Theorem open_session_loaded_permanent `{Externals}
    (self : R.t) (app : Flask) (request : Request)
    (w : world R.redis_server) (cookie sid : string)
    (val : blob) (ttl : Z) (o : pyobj) (d : gmap string value) :
  cookies request !! SESSION_COOKIE_NAME app = Some cookie →
  cookie ≠ "" →
  looked_up_sid (R.use_signer self) app cookie = Ok sid →
  R.db (backend w) !! (R.key_prefix self +:+ sid) = Some (val, ttl) →
  pickle_loads val = Some o →
  dict_init o = Ok d →
  R.open_session self app request w
  = (Ok (loaded_record d o sid), after_get (R.key_prefix self +:+ sid) w)
  ∧ SessionMixin_permanent (loaded_record d o sid)
    = default (VBool false) (d !! "_permanent")
  ∧ (∀ w' : world R.redis_server,
       get_expiration_time app (loaded_record d o sid) w'
       = (Ok (if truthy (default (VBool false) (d !! "_permanent"))
              then Some (utcnow w'
                         + total_seconds (permanent_session_lifetime app))
              else None), w'))
  ∧ (∀ sid', SessionMixin_permanent (fresh_record sid' (R.permanent self))
             = VBool (R.permanent self)).
Proof.
  intros Hc Hne Hsid Hdb Hval Hd.
  rewrite (open_session_lookup self app request w cookie sid Hc Hne Hsid).
  cbn zeta. rewrite Hdb, Hval, (ServerSideSession_init_loaded o d sid Hd).
  split; [done|]. split; [done|]. split.
  - intros w'. unfold get_expiration_time.
    change (SessionMixin_permanent (loaded_record d o sid))
      with (default (VBool false) (d !! "_permanent")).
    by destruct (truthy (default (VBool false) (d !! "_permanent"))).
  - intros sid'. apply fresh_record_permanent.
Qed.

(** The stored session of alice has no ["_permanent"] entry: loaded through
    a permanent interface it is not permanent. *)
Lemma open_session_loaded_permanent_witness :
  SessionMixin_permanent (loaded_record Toy.alice (PDict Toy.alice) "abc")
  = default (VBool false) (Toy.alice !! "_permanent").
Proof.
  refine (proj1 (proj2
    (open_session_loaded_permanent (H := Toy.externals)
       (Toy.redis_interface false true) (Toy.app None)
       (Toy.request (Some "abc")) (Toy.start Toy.redis_alice)
       "abc" "abc" (Some (PDict Toy.alice)) 60 (PDict Toy.alice) Toy.alice
       _ _ _ _ _ _))).
  - reflexivity.
  - discriminate.
  - reflexivity.
  - reflexivity.
  - reflexivity.
  - reflexivity.
Defined.

(** ** [MemcachedSessionInterface._get_memcache_timeout] *)

(** Truncation moves a number by less than one. *)
Lemma py_int_close (x : Q) :
  (inject_Z (MC.py_int x) - 1 < x)%Q ∧ (x < inject_Z (MC.py_int x) + 1)%Q.
Proof.
  destruct x as [n d]. unfold MC.py_int, Qlt, Qminus, Qplus, Qopp, inject_Z.
  simpl.
  pose proof (Z.quot_rem' n (Z.pos d)) as Hqr.
  destruct (Z.le_gt_cases 0 n) as [Hn | Hn].
  - pose proof (Zquot.Zrem_lt_pos_pos n (Z.pos d) Hn ltac:(lia)). nia.
  - pose proof (Zquot.Zrem_lt_neg_pos n (Z.pos d) ltac:(lia) ltac:(lia)). nia.
Qed.

Lemma py_int_nonneg (x : Q) : (0 <= x)%Q → 0 <= MC.py_int x.
Proof.
  destruct x as [n d]. unfold Qle, MC.py_int. simpl. intros Hn.
  apply Zquot.Z_quot_pos; lia.
Qed.

(** The timeout reaches the client as [_get_memcache_timeout] returns it. *)
Lemma memcached_save_session_timeout `{Externals}
    (self : MC.t) (app : Flask) (session : ServerSideSession)
    (w : world MC.memcached_server) :
  mapping session ≠ ∅ →
  MC.calls (backend (MC.save_session self app session w).2)
  = MC.calls (backend w)
      ++ [MC.MC_SET (MC.key_prefix self +:+ sid session)
            (pickle_dumps (PDict (mapping session)))
            (let timeout := total_seconds (permanent_session_lifetime app) in
             if 2592000 <? timeout
             then timeout + MC.py_int (time_time w) else timeout)].
Proof.
  intros Hne. unfold MC.save_session. rewrite (is_empty_false _ Hne).
  unfold get_expiration_time, MC._get_memcache_timeout, bind, gets, ret,
    MC.client_set, modify, call_response, lift.
  cbn zeta.
  destruct (truthy (SessionMixin_permanent session)); simpl;
    destruct (2592000 <? total_seconds (permanent_session_lifetime app)); simpl;
    destruct (MC.use_signer self); simpl; try reflexivity;
    destruct (_sign app (sid session)); reflexivity.
Qed.

(** C6.  [_get_memcache_timeout] returns a timeout of at most 2592000
    seconds (30 days) unchanged and adds [int(time.time())] to a longer one;
    [save_session] hands that value to [client.set].  A timeout of 40 days
    is longer than the limit, and the converted value is a time stamp that
    is not earlier than the current time and, the clock being past the
    epoch, positive: the call neither raises nor returns a negative
    number. *)
Theorem memcache_timeout_conversion `{Externals}
    (w : world MC.memcached_server) (timeout : Z) :
  MC._get_memcache_timeout timeout w
  = (Ok (if 2592000 <? timeout then timeout + MC.py_int (time_time w)
         else timeout), w)
  ∧ (2592000 < timeout →
     MC._get_memcache_timeout timeout w
     = (Ok (timeout + MC.py_int (time_time w)), w)
     ∧ (time_time w <= inject_Z (timeout + MC.py_int (time_time w)))%Q
     ∧ ((0 <= time_time w)%Q → 0 < timeout + MC.py_int (time_time w)))
  ∧ (timeout <= 2592000 → MC._get_memcache_timeout timeout w = (Ok timeout, w))
  ∧ 2592000 < total_seconds {| days := 40; seconds := 0 |}
  ∧ (∀ (self : MC.t) (app : Flask) (session : ServerSideSession),
       mapping session ≠ ∅ →
       total_seconds (permanent_session_lifetime app) = timeout →
       MC.calls (backend (MC.save_session self app session w).2)
       = MC.calls (backend w)
           ++ [MC.MC_SET (MC.key_prefix self +:+ sid session)
                 (pickle_dumps (PDict (mapping session)))
                 (if 2592000 <? timeout
                  then timeout + MC.py_int (time_time w) else timeout)]).
Proof.
  assert (MC._get_memcache_timeout timeout w
          = (Ok (if 2592000 <? timeout then timeout + MC.py_int (time_time w)
                 else timeout), w)) as Heq.
  { unfold MC._get_memcache_timeout. by destruct (2592000 <? timeout). }
  split; [exact Heq|]. split; [|split].
  - intros Ht. rewrite Heq.
    destruct (Z.ltb_spec 2592000 timeout) as [_|]; [|lia].
    split; [done|]. split.
    + destruct (py_int_close (time_time w)) as [_ Hlt].
      apply Qlt_le_weak. eapply Qlt_le_trans; [exact Hlt|].
      unfold Qle, Qplus, inject_Z. simpl. lia.
    + intros Hpos. pose proof (py_int_nonneg _ Hpos). lia.
  - intros Ht. rewrite Heq.
    by destruct (Z.ltb_spec 2592000 timeout) as [|_]; [lia|].
  - split; [reflexivity|].
    intros self app session Hne <-.
    by apply memcached_save_session_timeout.
Qed.

(** Forty days, with the clock at 1700000000. *)
Lemma memcache_timeout_conversion_witness :
  MC._get_memcache_timeout (total_seconds {| days := 40; seconds := 0 |})
    (Toy.start Toy.memcached_empty)
  = (Ok 1703456000, Toy.start Toy.memcached_empty).
Proof.
  refine (proj1 (proj1 (proj2
    (memcache_timeout_conversion (H := Toy.externals)
       (Toy.start Toy.memcached_empty)
       (total_seconds {| days := 40; seconds := 0 |}))) _)).
  reflexivity.
Defined.

(** ** [MongoDBSessionInterface.open_session] *)

Section MongoOpen.
Context `{Externals}.
Implicit Types (self : MG.t) (app : Flask) (request : Request)
  (w : world MG.collection).

(** After the cookie gave a sid: the document found, its expiration and
    its blob decide. *)
Lemma mongo_open_session_lookup self app request w cookie sid :
  cookies request !! SESSION_COOKIE_NAME app = Some cookie →
  cookie ≠ "" →
  looked_up_sid (MG.use_signer self) app cookie = Ok sid →
  MG.open_session self app request w =
    let store_id := MG.key_prefix self +:+ sid in
    let fresh := fresh_record sid (MG.permanent self) in
    let w1 := after_find store_id w in
    match head (List.filter (MG.has_id store_id) (MG.docs (backend w))) with
    | Some doc =>
        match MG.expiration doc with
        | None => (Raise TypeError, w1)
        | Some e =>
            if e <=? utcnow w then (Ok fresh, after_remove store_id w1)
            else
              match pickle_loads (MG.val doc) with
              | Some o =>
                  match ServerSideSession_init o sid false with
                  | Ok s => (Ok s, w1)
                  | Raise _ => (Ok fresh, w1)
                  end
              | None => (Ok fresh, w1)
              end
        end
    | None => (Ok fresh, w1)
    end.
Proof.
  intros Hc Hne Hsid. destruct cookie as [|a cookie]; [done|].
  unfold MG.open_session. rewrite Hc.
  unfold looked_up_sid in Hsid.
  assert ((if MG.use_signer self
           then try_except
                  (sid0 <- lift (_unsign app (String a cookie)) ;;
                   ret (Continue sid0))
                  (except_BadSignature
                     (sid0 <- _generate_sid ;;
                      s <- MG.session_class PNone sid0 (MG.permanent self) ;;
                      ret (Return s)))
           else ret (Continue (String a cookie))) w
          = (Ok (Continue sid), w)) as Hflow.
  { destruct (MG.use_signer self).
    - unfold try_except, bind, lift. by rewrite Hsid.
    - by injection Hsid as ->. }
  unfold bind at 1. rewrite Hflow. cbn zeta.
  unfold bind at 1. unfold MG.find_one at 1. cbn zeta.
  fold (after_find (MG.key_prefix self +:+ sid) w).
  destruct (head (List.filter (MG.has_id (MG.key_prefix self +:+ sid))
                    (MG.docs (backend w)))) as [doc|].
  - destruct (MG.expiration doc) as [e|]; [|reflexivity].
    unfold bind at 1. unfold bind at 1. unfold gets at 1.
    change (utcnow (after_find (MG.key_prefix self +:+ sid) w))
      with (utcnow w).
    destruct (e <=? utcnow w).
    + unfold bind, MG.remove, modify, ret, MG.session_class, lift.
      rewrite ServerSideSession_init_fresh. reflexivity.
    + unfold ret at 1.
      unfold try_except, bind, lift, MG.session_class, except_all, lift.
      destruct (pickle_loads (MG.val doc)) as [o|].
      * destruct (ServerSideSession_init o sid false); [done|].
        by rewrite ServerSideSession_init_fresh.
      * by rewrite ServerSideSession_init_fresh.
  - unfold bind, ret, MG.session_class, lift.
    by rewrite ServerSideSession_init_fresh.
Qed.

Lemma filter_has_id_removed (store_id : string) (l : list MG.document) :
  List.filter (MG.has_id store_id)
    (List.filter (λ d, negb (MG.has_id store_id d)) l) = [].
Proof.
  induction l as [|d l IH]; [done|]. simpl.
  destruct (MG.has_id store_id d) eqn:Hd; simpl; [done|]. by rewrite Hd.
Qed.
End MongoOpen.

(** C7, as stated, fails: with a permanent interface the record returned for
    an expired document is not empty, it holds the ["_permanent"] entry. *)
Lemma mongo_open_session_expired_not_empty :
  (MG.open_session (Toy.mongo_interface false true) (Toy.app None)
     (Toy.request (Some "abc")) (Toy.start Toy.mongo_expired)).1
  = Ok (fresh_record "abc" true)
  ∧ is_empty (fresh_record "abc" true) = false.
Proof. vm_compute. split; reflexivity. Qed.

(** C7, amended.  When [find_one] returns a document whose expiration is at
    or before the current time, [open_session] removes the documents stored
    under that id and answers as for a store that never held one: it returns
    a fresh record (empty for an interface that is not permanent, holding
    only the ["_permanent"] entry for a permanent one) bound to the same
    sid.  Only the id that is opened is checked: the documents under other
    ids stay in the store, expired or not. *)
Theorem mongo_open_session_expired `{Externals}
    (self : MG.t) (app : Flask) (request : Request)
    (w : world MG.collection) (cookie sid : string)
    (doc : MG.document) (e : Z) :
  cookies request !! SESSION_COOKIE_NAME app = Some cookie →
  cookie ≠ "" →
  looked_up_sid (MG.use_signer self) app cookie = Ok sid →
  head (List.filter (MG.has_id (MG.key_prefix self +:+ sid))
          (MG.docs (backend w))) = Some doc →
  MG.expiration doc = Some e →
  e <= utcnow w →
  let store_id := MG.key_prefix self +:+ sid in
  let w' := (MG.open_session self app request w).2 in
  MG.open_session self app request w
  = (Ok (fresh_record sid (MG.permanent self)),
     after_remove store_id (after_find store_id w))
  ∧ (MG.open_session self app request w).1
    = (MG.open_session self app request (never_stored store_id w)).1
  ∧ (∀ d, In d (MG.docs (backend w')) → MG.id d ≠ store_id)
  ∧ (∀ d, In d (MG.docs (backend w)) → MG.id d ≠ store_id →
          In d (MG.docs (backend w')))
  ∧ mapping (fresh_record sid (MG.permanent self))
    = (if MG.permanent self then {["_permanent" := VBool true]} else ∅).
Proof.
  intros Hc Hne Hsid Hdoc Hexp He store_id w'. subst w' store_id.
  rewrite (mongo_open_session_lookup self app request
             (never_stored (MG.key_prefix self +:+ sid) w) cookie sid
             Hc Hne Hsid).
  rewrite (mongo_open_session_lookup self app request w cookie sid Hc Hne Hsid).
  cbn zeta. rewrite Hdoc, Hexp.
  destruct (Z.leb_spec e (utcnow w)) as [_|]; [|lia].
  split; [done|]. split; [|split; [|split]].
  - simpl. by rewrite filter_has_id_removed.
  - simpl. intros d [_ Hd]%filter_In Heq.
    unfold MG.has_id in Hd. rewrite Heq, String.eqb_refl in Hd. done.
  - simpl. intros d Hd Hid. apply filter_In. split; [done|].
    unfold MG.has_id. by apply negb_true_iff, String.eqb_neq.
  - done.
Qed.

(** Opening [abc]: its expired document goes, the expired document of
    [old] stays. *)
Lemma mongo_open_session_expired_witness :
  MG.open_session (Toy.mongo_interface false false) (Toy.app None)
    (Toy.request (Some "abc")) (Toy.start Toy.mongo_expired)
  = (Ok (fresh_record "abc" false),
     after_remove (H := Toy.externals) "session:abc"
       (after_find "session:abc" (Toy.start Toy.mongo_expired))).
Proof.
  refine (proj1
    (mongo_open_session_expired (H := Toy.externals)
       (Toy.mongo_interface false false) (Toy.app None)
       (Toy.request (Some "abc")) (Toy.start Toy.mongo_expired)
       "abc" "abc" (Toy.mongo_doc "session:abc" (1700000000 - 3600))
       (1700000000 - 3600) _ _ _ _ _ _)).
  - reflexivity.
  - discriminate.
  - reflexivity.
  - reflexivity.
  - reflexivity.
  - vm_compute. discriminate.
Defined.

(** ** [Session.get_interface] *)

Lemma setdefault_lookup_eq (k : string) (v : Session.cfg)
    (config : gmap string Session.cfg) :
  Session.setdefault k v config !! k = Some (default v (config !! k)).
Proof.
  unfold Session.setdefault. destruct (config !! k) as [x|] eqn:Hk; [done|].
  by rewrite lookup_insert_eq.
Qed.

Lemma setdefault_lookup_ne (k k' : string) (v : Session.cfg)
    (config : gmap string Session.cfg) :
  k ≠ k' → Session.setdefault k v config !! k' = config !! k'.
Proof.
  intros Hne. unfold Session.setdefault. destruct (config !! k); [done|].
  by rewrite lookup_insert_ne.
Qed.

(** The three entries [get_interface] reads on its way to the memcached and
    null interfaces, after the seven [setdefault]. *)
Lemma get_interface_defaults (getcwd : string)
    (config : gmap string Session.cfg) :
  let config' :=
    Session.setdefault "SESSION_FILE_MODE" (Session.CInt 384)
      (Session.setdefault "SESSION_FILE_THRESHOLD" (Session.CInt 500)
         (Session.setdefault "SESSION_FILE_DIR"
            (Session.CStr (Session.os_path_join getcwd "flask_session"))
            (Session.setdefault "SESSION_MEMCACHED" Session.CNone
               (Session.setdefault "SESSION_REDIS" Session.CNone
                  (Session.setdefault "SESSION_KEY_PREFIX"
                     (Session.CStr "session:")
                     (Session.setdefault "SESSION_TYPE"
                        (Session.CStr "memcached") config)))))) in
  config' !! "SESSION_TYPE"
  = Some (default (Session.CStr "memcached") (config !! "SESSION_TYPE"))
  ∧ config' !! "SESSION_KEY_PREFIX"
    = Some (default (Session.CStr "session:") (config !! "SESSION_KEY_PREFIX"))
  ∧ config' !! "SESSION_MEMCACHED"
    = Some (default Session.CNone (config !! "SESSION_MEMCACHED")).
Proof.
  intros config'. subst config'. split; [|split].
  - do 6 (rewrite setdefault_lookup_ne by discriminate).
    apply setdefault_lookup_eq.
  - do 5 (rewrite setdefault_lookup_ne by discriminate).
    rewrite setdefault_lookup_eq.
    by rewrite setdefault_lookup_ne by discriminate.
  - do 3 (rewrite setdefault_lookup_ne by discriminate).
    rewrite setdefault_lookup_eq.
    by do 3 (rewrite setdefault_lookup_ne by discriminate).
Qed.

(** Without a [SESSION_TYPE] the interface built is the memcached one, with
    the configured client and prefix or their defaults. *)
Lemma get_interface_default_type (getcwd : string)
    (config : gmap string Session.cfg) :
  config !! "SESSION_TYPE" = None →
  Session.get_interface getcwd config
  = Ok (Session.MemcachedSessionInterface
          (default Session.CNone (config !! "SESSION_MEMCACHED"))
          (default (Session.CStr "session:") (config !! "SESSION_KEY_PREFIX"))).
Proof.
  intros Hty.
  destruct (get_interface_defaults getcwd config) as (Ht & Hp & Hm).
  unfold Session.get_interface, Session.item. cbv zeta in *.
  rewrite Ht, Hp, Hm, Hty. reflexivity.
Qed.

(** The null interface is built for a [SESSION_TYPE] that names none of the
    three backends. *)
Lemma get_interface_other_type (getcwd : string)
    (config : gmap string Session.cfg) (ty : Session.cfg) :
  config !! "SESSION_TYPE" = Some ty →
  ty ≠ Session.CStr "redis" →
  ty ≠ Session.CStr "memcached" →
  ty ≠ Session.CStr "filesystem" →
  Session.get_interface getcwd config = Ok Session.NullSessionInterface.
Proof.
  intros Hty H1 H2 H3.
  destruct (get_interface_defaults getcwd config) as (Ht & Hp & Hm).
  unfold Session.get_interface, Session.item. cbv zeta in *.
  rewrite Ht, Hty. unfold Session.rbind. simpl.
  by rewrite !decide_False.
Qed.

(** C8 fails on the code: for the configuration that selects no backend,
    [get_interface] builds [MemcachedSessionInterface(None, "session:")],
    not the null interface. *)
Theorem get_interface_empty_config (getcwd : string) :
  Session.get_interface getcwd ∅
  = Ok (Session.MemcachedSessionInterface Session.CNone
          (Session.CStr "session:"))
  ∧ Session.get_interface getcwd ∅ ≠ Ok Session.NullSessionInterface.
Proof.
  rewrite (get_interface_default_type getcwd ∅) by apply lookup_empty.
  split; [reflexivity | discriminate].
Qed.

(** ** [SqlAlchemySessionInterface.save_session] *)

Section SqlSave.
Context `{Externals}.
Implicit Types (self : SQL.t) (app : Flask) (session : ServerSideSession)
  (w : world SQL.database) (i : gmap string value)
  (items : list (string * value)) (table : gmap (nat * string) blob).

Lemma merged_items_elem i items k v :
  (k, v) ∈ merged_items i items
  ↔ (k, v) ∈ items ∧ py_eq_opt (i !! k) v = false.
Proof.
  unfold merged_items. rewrite !list_elem_of_In, filter_In. simpl.
  by rewrite negb_true_iff.
Qed.

Lemma merged_items_NoDup i items :
  NoDup items.*1 → NoDup (merged_items i items).*1.
Proof.
  induction items as [|[k v] items IH]; [done|]. simpl.
  rewrite NoDup_cons. intros [Hk Hnd].
  destruct (negb (py_eq_opt (i !! k) v)); [|by apply IH].
  simpl. apply NoDup_cons. split; [|by apply IH].
  intros [[k' v'] [Hk' Hin]]%list_elem_of_fmap. simpl in Hk'. subst k'.
  apply merged_items_elem in Hin as [Hin _].
  apply Hk, list_elem_of_fmap. by exists (k, v').
Qed.

Lemma merge_all_other_key sess_id items table k :
  k ∉ items.*1 →
  merge_all sess_id items table !! (sess_id, k) = table !! (sess_id, k).
Proof.
  revert table. induction items as [|[k' v'] items IH]; intros table Hk;
    [done|].
  simpl in *. apply not_elem_of_cons in Hk as [Hne Hk].
  unfold merge_all in *. simpl. rewrite IH by done.
  apply lookup_insert_ne. congruence.
Qed.

Lemma merge_all_other_session sess_id items table id' k :
  id' ≠ sess_id →
  merge_all sess_id items table !! (id', k) = table !! (id', k).
Proof.
  intros Hne. revert table.
  induction items as [|[k' v'] items IH]; intros table; [done|].
  unfold merge_all in *. simpl. rewrite IH.
  apply lookup_insert_ne. congruence.
Qed.

Lemma merge_all_key sess_id items table k v :
  NoDup items.*1 → (k, v) ∈ items →
  merge_all sess_id items table !! (sess_id, k)
  = Some (pickle_dumps (PVal v)).
Proof.
  revert table. induction items as [|[k' v'] items IH]; intros table Hnd Hin.
  { by apply elem_of_nil in Hin. }
  simpl in Hnd. apply NoDup_cons in Hnd as [Hk' Hnd].
  apply elem_of_cons in Hin as [[= <- <-] | Hin].
  - change (merge_all sess_id ((k, v) :: items) table)
      with (merge_all sess_id items
              (<[(sess_id, k) := pickle_dumps (PVal v)]> table)).
    rewrite merge_all_other_key by done. apply lookup_insert_eq.
  - change (merge_all sess_id ((k', v') :: items) table)
      with (merge_all sess_id items
              (<[(sess_id, k') := pickle_dumps (PVal v')]> table)).
    by apply IH.
Qed.

(** The loop: every item that passes the test is merged, in order, and
    nothing else happens. *)
Lemma merge_items_run sess_id i items w :
  SQL.merge_items sess_id i items w
  = (Ok tt,
     set_backend
       {| SQL.sessions := SQL.sessions (backend w);
          SQL.session_data :=
            merge_all sess_id (merged_items i items)
              (SQL.session_data (backend w));
          SQL.next_id := SQL.next_id (backend w);
          SQL.calls :=
            SQL.calls (backend w)
              ++ ((λ item, SQL.MERGE sess_id item.1 (pickle_dumps (PVal item.2)))
                    <$> merged_items i items) |} w).
Proof.
  revert w. induction items as [|[k v] items IH]; intros w.
  - destruct w as [? ? ? [] ?]. unfold SQL.merge_items, ret, set_backend.
    simpl. by rewrite app_nil_r.
  - change (SQL.merge_items sess_id i ((k, v) :: items))
      with (SQL.merge_item sess_id i (k, v) ;;; SQL.merge_items sess_id i items).
    unfold bind, SQL.merge_item. simpl.
    destruct (py_eq_opt (i !! k) v) eqn:Heq; simpl.
    + apply IH.
    + unfold SQL.merge, modify. rewrite IH. simpl.
      unfold set_backend. simpl. by rewrite <- app_assoc.
Qed.
End SqlSave.

Section SqlSaveRun.
Context `{Externals}.
Implicit Types (self : SQL.t) (app : Flask) (session : ServerSideSession)
  (w : world SQL.database) (i : gmap string value).

(** The database after the save of a record that is not empty. *)
Lemma sql_save_session_run self app session w i :
  mapping session ≠ ∅ →
  initial session = PDict i →
  let d := backend w in
  let store_id := SQL.key_prefix self +:+ sid session in
  let expires :=
    if truthy (SessionMixin_permanent session)
    then Some (utcnow w + total_seconds (permanent_session_lifetime app))
    else None in
  let found := head (List.filter
                       (λ r, String.eqb (SQL.session_id r) store_id)
                       (SQL.sessions d)) in
  let row := saved_row store_id expires d in
  let removed := dom i ∖ dom (mapping session) in
  let merged := merged_items i (map_to_list (mapping session)) in
  backend (SQL.save_session self app session w).2
  = {| SQL.sessions :=
         match found with
         | Some saved =>
             (λ r, if Nat.eqb (SQL.id r) (SQL.id saved) then row else r)
               <$> SQL.sessions d
         | None => SQL.sessions d ++ [row]
         end;
       SQL.session_data :=
         merge_all (SQL.id row) merged
           (filter (λ kv, ¬ (kv.1.1 = SQL.id row ∧ kv.1.2 ∈ removed))
              (SQL.session_data d));
       SQL.next_id :=
         match found with
         | Some _ => SQL.next_id d
         | None => S (SQL.next_id d)
         end;
       SQL.calls :=
         SQL.calls d
           ++ [SQL.SELECT_FIRST store_id]
           ++ match found with
              | Some _ => [SQL.SET_EXPIRY (SQL.id row) expires]
              | None => [SQL.ADD store_id expires; SQL.FLUSH]
              end
           ++ [SQL.DELETE_DATA (SQL.id row) removed]
           ++ ((λ item, SQL.MERGE (SQL.id row) item.1
                          (pickle_dumps (PVal item.2))) <$> merged)
           ++ [SQL.COMMIT] |}.
Proof.
  intros Hne Hi. cbv zeta. unfold SQL.save_session, saved_row.
  rewrite (is_empty_false _ Hne), Hi.
  unfold bind at 1. unfold SQL.query_first at 1. cbv beta zeta.
  destruct (head (List.filter
                    (λ r, String.eqb (SQL.session_id r)
                            (SQL.key_prefix self +:+ sid session))
                    (SQL.sessions (backend w)))) as [saved|];
    unfold get_expiration_time;
    destruct (truthy (SessionMixin_permanent session));
    unfold bind, gets, ret, lift, SQL.set_expiry, SQL.add_flush,
      SQL.delete_data, SQL.commit, modify, call_response;
    rewrite merge_items_run; simpl;
    destruct (SQL.use_signer self); simpl;
    try destruct (_sign app (sid session)); simpl;
    unfold SQL.log; simpl; rewrite <- ?app_assoc; reflexivity.
Qed.
End SqlSaveRun.

Section SqlSaveKeys.
Context `{Externals}.
Implicit Types (self : SQL.t) (app : Flask) (session : ServerSideSession)
  (w : world SQL.database) (i : gmap string value).

Lemma merged_keys_in_mapping i (m : gmap string value) k :
  k ∈ (merged_items i (map_to_list m)).*1 → is_Some (m !! k).
Proof.
  intros [[k' v] [Hk Hin]]%list_elem_of_fmap. simpl in Hk. subst k'.
  apply merged_items_elem in Hin as [Hin _].
  apply elem_of_map_to_list in Hin. eauto.
Qed.

(** A key of [initial] that left the mapping has no child row any more. *)
Lemma sql_save_removed_key self app session w i k :
  mapping session ≠ ∅ → initial session = PDict i →
  is_Some (i !! k) → mapping session !! k = None →
  SQL.session_data (backend (SQL.save_session self app session w).2)
    !! (SQL.id (save_row self app session w), k) = None.
Proof.
  intros Hne Hi Hk Hm.
  rewrite (sql_save_session_run self app session w i Hne Hi). simpl.
  fold (save_expires app session w). fold (save_row self app session w).
  rewrite merge_all_other_key.
  - apply map_lookup_filter_None. right. intros b _ Hkeep. apply Hkeep.
    simpl. split; [done|].
    apply elem_of_difference. split; [by apply elem_of_dom|].
    rewrite elem_of_dom, Hm. by intros [? ?].
  - intros Hin%merged_keys_in_mapping. rewrite Hm in Hin. by destruct Hin.
Qed.

(** An item that passes the test [initial.get(key) == value] is not
    merged: it is not among the items that reach [merge], and its child
    row is as it was. *)
Lemma sql_save_skipped_key self app session w i k v :
  mapping session ≠ ∅ → initial session = PDict i →
  mapping session !! k = Some v → py_eq_opt (i !! k) v = true →
  SQL.session_data (backend (SQL.save_session self app session w).2)
    !! (SQL.id (save_row self app session w), k)
  = SQL.session_data (backend w) !! (SQL.id (save_row self app session w), k)
  ∧ k ∉ (merged_items i (map_to_list (mapping session))).*1.
Proof.
  intros Hne Hi Hm Heq.
  assert (k ∉ (merged_items i (map_to_list (mapping session))).*1) as Hnot.
  { intros [[k' v'] [Hk Hin]]%list_elem_of_fmap. simpl in Hk. subst k'.
    apply merged_items_elem in Hin as [Hin Hne'].
    apply elem_of_map_to_list in Hin. congruence. }
  split; [|done].
  rewrite (sql_save_session_run self app session w i Hne Hi). simpl.
  fold (save_expires app session w). fold (save_row self app session w).
  rewrite merge_all_other_key by done.
  destruct (SQL.session_data (backend w)
              !! (SQL.id (save_row self app session w), k)) as [b|] eqn:Hb.
  - apply map_lookup_filter_Some. split; [done|]. simpl.
    intros [_ [_ Hd]%elem_of_difference]. apply Hd, elem_of_dom. eauto.
  - apply map_lookup_filter_None. by left.
Qed.

(** An item that fails the test is merged: its child row holds the pickled
    value. *)
Lemma sql_save_merged_key self app session w i k v :
  mapping session ≠ ∅ → initial session = PDict i →
  mapping session !! k = Some v → py_eq_opt (i !! k) v = false →
  SQL.session_data (backend (SQL.save_session self app session w).2)
    !! (SQL.id (save_row self app session w), k)
  = Some (pickle_dumps (PVal v)).
Proof.
  intros Hne Hi Hm Heq.
  rewrite (sql_save_session_run self app session w i Hne Hi). simpl.
  fold (save_expires app session w). fold (save_row self app session w).
  apply merge_all_key.
  - apply merged_items_NoDup, NoDup_fst_map_to_list.
  - apply merged_items_elem. split; [|done]. by apply elem_of_map_to_list.
Qed.

(** No [MERGE] is a [COMMIT]. *)
Lemma commits_merges (sess_id : nat) (l : list (string * value)) :
  commits ((λ item, SQL.MERGE sess_id item.1 (pickle_dumps (PVal item.2)))
             <$> l) = 0%nat.
Proof. unfold commits. induction l as [|x l IH]; [done|]. exact IH. Qed.

Lemma commits_app (l1 l2 : list SQL.sql_op) :
  commits (l1 ++ l2) = (commits l1 + commits l2)%nat.
Proof. unfold commits. by rewrite List.filter_app, length_app. Qed.

(** One [commit], after every other operation of the save. *)
Lemma sql_save_one_commit self app session w i :
  mapping session ≠ ∅ → initial session = PDict i →
  ∃ ops, SQL.calls (backend (SQL.save_session self app session w).2)
         = SQL.calls (backend w) ++ ops ++ [SQL.COMMIT]
         ∧ commits ops = 0%nat.
Proof.
  intros Hne Hi.
  rewrite (sql_save_session_run self app session w i Hne Hi). simpl.
  fold (save_expires app session w). fold (save_row self app session w).
  set (found := head _).
  exists ([SQL.SELECT_FIRST (SQL.key_prefix self +:+ sid session)]
          ++ match found with
             | Some _ => [SQL.SET_EXPIRY (SQL.id (save_row self app session w))
                            (save_expires app session w)]
             | None => [SQL.ADD (SQL.key_prefix self +:+ sid session)
                          (save_expires app session w); SQL.FLUSH]
             end
          ++ [SQL.DELETE_DATA (SQL.id (save_row self app session w))
                (dom i ∖ dom (mapping session))]
          ++ ((λ item, SQL.MERGE (SQL.id (save_row self app session w)) item.1
                         (pickle_dumps (PVal item.2)))
                <$> merged_items i (map_to_list (mapping session)))).
  split.
  - simpl. by rewrite <- !app_assoc.
  - rewrite !commits_app, commits_merges. by destruct found.
Qed.
End SqlSaveKeys.

(** The test of the loop cannot tell a new key whose value is [None] from a
    key that did not change, so such a key is never merged. *)
Lemma sql_save_new_none_key `{Externals}
    (self : SQL.t) (app : Flask) (session : ServerSideSession)
    (w : world SQL.database) (i : gmap string value) (k : string) :
  mapping session ≠ ∅ → initial session = PDict i →
  mapping session !! k = Some VNone → i !! k = None →
  SQL.session_data (backend (SQL.save_session self app session w).2)
    !! (SQL.id (save_row self app session w), k)
  = SQL.session_data (backend w) !! (SQL.id (save_row self app session w), k)
  ∧ k ∉ (merged_items i (map_to_list (mapping session))).*1.
Proof.
  intros Hne Hi Hm Hk.
  apply (sql_save_skipped_key self app session w i k VNone Hne Hi Hm).
  by rewrite Hk.
Qed.

(** The example of the specification: with [initial = {a: 1, b: 2}] and the
    mapping [{a: 1, c: 3}], the save deletes the row of [b], leaves the row
    of [a] alone and merges the row of [c], before its only commit. *)
Lemma sql_save_diff_example :
  let w' := (SQL.save_session (Toy.sql_interface false false) (Toy.app None)
               Toy.session_ac (Toy.start Toy.sql_ab)).2 in
  SQL.session_data (backend w')
  = ({[(7%nat, "a") := Some (PVal (VInt 1));
        (7%nat, "c") := Some (PVal (VInt 3))]}
      : gmap (nat * string) (option pyobj))
  ∧ SQL.calls (backend w')
    = [SQL.SELECT_FIRST (H := Toy.externals) "session:abc";
       SQL.SET_EXPIRY 7 None;
       SQL.DELETE_DATA 7 {["b"]};
       SQL.MERGE (H := Toy.externals) 7 "c" (Some (PVal (VInt 3)));
       SQL.COMMIT].
Proof. vm_compute. split; reflexivity. Qed.

(** C5 fails on the code.  A fresh record in which the application stored
    [session["a"] = None] is not empty and [a] is a new key, yet the save
    writes no child row for it: the session row is added and committed with
    an empty child table, and no [merge] is issued. *)
Theorem sql_save_new_none_key_not_written :
  let w' := (SQL.save_session (Toy.sql_interface false false) (Toy.app None)
               Toy.session_a_none (Toy.start Toy.sql_empty)).2 in
  mapping Toy.session_a_none = {["a" := VNone]}
  ∧ initial Toy.session_a_none = PDict ∅
  ∧ is_empty Toy.session_a_none = false
  ∧ SQL.sessions (backend w')
    = [{| SQL.id := 1; SQL.session_id := "session:abc"; SQL.expiry := None |}]
  ∧ SQL.session_data (backend w') = ∅
  ∧ SQL.calls (backend w')
    = [SQL.SELECT_FIRST (H := Toy.externals) "session:abc";
       SQL.ADD "session:abc" None;
       SQL.FLUSH;
       SQL.DELETE_DATA 1 ∅;
       SQL.COMMIT].
Proof. vm_compute. repeat split; reflexivity. Qed.

(** ** [NullSessionInterface] *)

Lemma null_open_session (app : Flask) (request : Request) :
  NullSessionInterface.open_session app request = None.
Proof. reflexivity. Qed.

(** ** Runs of the Redis interface *)

Section RedisRuns.
Context `{Externals}.
Implicit Types (self : R.t) (app : Flask) (request : Request)
  (w : world R.redis_server) (s : ServerSideSession).

(** The save of a record that is not empty: the entry is written, then the
    cookie value is computed, then the cookie is set. *)
Lemma redis_save_session_run self app s w :
  mapping s ≠ ∅ →
  R.save_session self app s w =
    let w1 := after_setex (R.key_prefix self +:+ sid s)
                (pickle_dumps (PDict (mapping s)))
                (total_seconds (permanent_session_lifetime app)) w in
    match cookie_value (R.use_signer self) app (sid s) with
    | Ok c =>
        (Ok tt,
         set_response
           (response w ++ [the_cookie (R.has_same_site_capability self) app c
                             (save_expires app s w)]) w1)
    | Raise e => (Raise e, w1)
    end.
Proof.
  intros Hne. unfold R.save_session. rewrite (is_empty_false _ Hne).
  unfold get_expiration_time, save_expires, cookie_value, bind, gets, ret,
    R.redis_setex, modify, call_response, lift, the_cookie, after_setex.
  destruct (truthy (SessionMixin_permanent s)); simpl;
    destruct (R.use_signer self); simpl; try reflexivity;
    destruct (_sign app (sid s)); reflexivity.
Qed.

(** The save of an empty record that was modified. *)
Lemma redis_save_session_emptied self app s w :
  mapping s = ∅ → modified s = true →
  R.save_session self app s w
  = (Ok tt,
     set_response
       (response w ++ [delete_cookie (SESSION_COOKIE_NAME app)
                         (get_cookie_domain app) (get_cookie_path app)])
       (after_del (R.key_prefix self +:+ sid s) w)).
Proof.
  intros He Hm. unfold R.save_session. rewrite (is_empty_true _ He), Hm.
  reflexivity.
Qed.

(** An exception of the signer other than [BadSignature] leaves
    [open_session] as it is, before anything was done. *)
Lemma open_session_unsign_raises self app request w cookie e :
  R.use_signer self = true →
  cookies request !! SESSION_COOKIE_NAME app = Some cookie →
  cookie ≠ "" →
  _unsign app cookie = Raise e →
  e ≠ BadSignature →
  R.open_session self app request w = (Raise e, w).
Proof.
  intros Hs Hc Hne Hu He. destruct cookie as [|a cookie]; [done|].
  unfold R.open_session. rewrite Hc, Hs.
  unfold bind, try_except, lift. rewrite Hu.
  by destruct e.
Qed.
End RedisRuns.

(** X1.  Round trip.  After the save of a record that is not empty, a request
    that sends back the cookie value of that save (the sid, signed when the
    interface signs) opens a record with the same sid and the same mapping;
    the record is not modified and its [initial] is a copy of the mapping.
    The serializer has to give the mapping back, and the signer the sid. *)
Theorem redis_save_then_open `{Externals}
    (self : R.t) (app : Flask) (s : ServerSideSession)
    (w : world R.redis_server) (c : string) (request : Request) :
  mapping s ≠ ∅ →
  pickle_loads (pickle_dumps (PDict (mapping s))) = Some (PDict (mapping s)) →
  cookie_value (R.use_signer self) app (sid s) = Ok c →
  c ≠ "" →
  looked_up_sid (R.use_signer self) app c = Ok (sid s) →
  cookies request !! SESSION_COOKIE_NAME app = Some c →
  let w1 := (R.save_session self app s w).2 in
  (R.save_session self app s w).1 = Ok tt
  ∧ last (response w1)
    = Some (the_cookie (R.has_same_site_capability self) app c
              (save_expires app s w))
  ∧ (R.open_session self app request w1).1
    = Ok {| mapping := mapping s; sid := sid s; modified := false;
            initial := PDict (mapping s) |}.
Proof.
  intros Hne Hp Hcv Hc Hsid Hreq. cbv zeta.
  rewrite (redis_save_session_run self app s w Hne). cbv zeta.
  rewrite Hcv. simpl. split; [done|]. split; [apply last_snoc|].
  rewrite (open_session_lookup self app request _ c (sid s) Hreq Hc Hsid).
  cbn zeta. simpl. rewrite lookup_insert_eq, Hp.
  by rewrite (ServerSideSession_init_loaded _ _ _ (dict_init_dict (mapping s))).
Qed.

(** The signed round trip of the session of alice. *)
Lemma redis_save_then_open_witness :
  (R.open_session (Toy.redis_interface true true) (Toy.app (Some "k"))
     (Toy.request (Some "abc.k"))
     (R.save_session (Toy.redis_interface true true) (Toy.app (Some "k"))
        (setitem "user" (VStr "alice") (fresh_record "abc" true))
        (Toy.start (Toy.redis_with ∅))).2).1
  = Ok {| mapping := {["user" := VStr "alice"; "_permanent" := VBool true]};
          sid := "abc"; modified := false;
          initial := PDict {["user" := VStr "alice";
                             "_permanent" := VBool true]} |}.
Proof.
  refine (proj2 (proj2
    (redis_save_then_open (H := Toy.externals)
       (Toy.redis_interface true true) (Toy.app (Some "k"))
       (setitem "user" (VStr "alice") (fresh_record "abc" true))
       (Toy.start (Toy.redis_with ∅)) "abc.k" (Toy.request (Some "abc.k"))
       _ _ _ _ _ _))).
  - apply (insert_non_empty (M := gmap string)).
  - reflexivity.
  - reflexivity.
  - discriminate.
  - reflexivity.
  - reflexivity.
Defined.

(** X2.  Clear, then save, then open.  The save of a cleared record removes
    the entry of its sid, leaves every other entry alone and asks the response
    to delete the cookie; a later request that still sends the sid finds
    nothing and gets a fresh record bound to that same sid. *)
Theorem redis_clear_save_open `{Externals}
    (self : R.t) (app : Flask) (s : ServerSideSession)
    (w : world R.redis_server) (cookie : string) (request : Request) :
  cookies request !! SESSION_COOKIE_NAME app = Some cookie →
  cookie ≠ "" →
  looked_up_sid (R.use_signer self) app cookie = Ok (sid s) →
  let key := R.key_prefix self +:+ sid s in
  let w1 := (R.save_session self app (clear s) w).2 in
  (R.save_session self app (clear s) w).1 = Ok tt
  ∧ R.db (backend w1) = delete key (R.db (backend w))
  ∧ response w1
    = response w ++ [delete_cookie (SESSION_COOKIE_NAME app)
                       (get_cookie_domain app) (get_cookie_path app)]
  ∧ R.open_session self app request w1
    = (Ok (fresh_record (sid s) (R.permanent self)), after_get key w1).
Proof.
  intros Hreq Hc Hsid. cbv zeta.
  rewrite (redis_save_session_emptied self app (clear s) w eq_refl eq_refl).
  simpl. split; [done|]. split; [done|]. split; [done|].
  rewrite (open_session_lookup self app request _ cookie (sid s) Hreq Hc Hsid).
  cbn zeta. simpl. by rewrite lookup_delete_eq.
Qed.

Lemma redis_clear_save_open_witness :
  (R.open_session (Toy.redis_interface false false) (Toy.app None)
     (Toy.request (Some "abc"))
     (R.save_session (Toy.redis_interface false false) (Toy.app None)
        (clear (loaded_record Toy.alice (PDict Toy.alice) "abc"))
        (Toy.start Toy.redis_alice)).2).1
  = Ok (fresh_record "abc" false).
Proof.
  refine (f_equal fst (proj2 (proj2 (proj2
    (redis_clear_save_open (H := Toy.externals)
       (Toy.redis_interface false false) (Toy.app None)
       (loaded_record Toy.alice (PDict Toy.alice) "abc")
       (Toy.start Toy.redis_alice) "abc" (Toy.request (Some "abc"))
       _ _ _))))).
  - reflexivity.
  - discriminate.
  - reflexivity.
Defined.

(** X3.  [open_session] only reads.  Whatever the request, it leaves the
    entries of the store and the response as they are, and it sends the store
    at most one [get]: for the key of the sid that the cookie gave, verified
    by the signer when the interface signs. *)
Theorem redis_open_session_reads_only `{Externals}
    (self : R.t) (app : Flask) (request : Request)
    (w : world R.redis_server) :
  let w' := (R.open_session self app request w).2 in
  R.db (backend w') = R.db (backend w)
  ∧ response w' = response w
  ∧ (R.calls (backend w') = R.calls (backend w)
     ∨ ∃ cookie sid,
         cookies request !! SESSION_COOKIE_NAME app = Some cookie
         ∧ looked_up_sid (R.use_signer self) app cookie = Ok sid
         ∧ R.calls (backend w')
           = R.calls (backend w) ++ [R.GET (R.key_prefix self +:+ sid)]).
Proof.
  cbv zeta.
  destruct (cookies request !! SESSION_COOKIE_NAME app) as [cookie|] eqn:Hc.
  2: { rewrite (open_session_no_cookie self app request w Hc). simpl. auto. }
  destruct (decide (cookie = "")) as [-> | Hne].
  { rewrite (open_session_empty_cookie self app request w Hc). simpl. auto. }
  destruct (looked_up_sid (R.use_signer self) app cookie) as [sid0|e] eqn:Hsid.
  - rewrite (open_session_lookup self app request w cookie sid0 Hc Hne Hsid).
    cbn zeta.
    assert (∀ r : result ServerSideSession,
              R.db (backend (r, after_get (R.key_prefix self +:+ sid0) w).2)
              = R.db (backend w)
              ∧ response (r, after_get (R.key_prefix self +:+ sid0) w).2
                = response w
              ∧ (R.calls (backend (r, after_get (R.key_prefix self +:+ sid0) w).2)
                 = R.calls (backend w)
                 ∨ ∃ cookie0 sid1,
                     Some cookie = Some cookie0
                     ∧ looked_up_sid (R.use_signer self) app cookie0 = Ok sid1
                     ∧ R.calls (backend (r, after_get (R.key_prefix self +:+ sid0) w).2)
                       = R.calls (backend w)
                           ++ [R.GET (R.key_prefix self +:+ sid1)])) as Hw.
    { intros r. simpl. split; [done|]. split; [done|]. right.
      by exists cookie, sid0. }
    destruct (R.db (backend w) !! (R.key_prefix self +:+ sid0))
      as [[val ttl]|]; [|apply Hw].
    destruct (pickle_loads val) as [o|]; [|apply Hw].
    destruct (ServerSideSession_init o sid0 false); apply Hw.
  - unfold looked_up_sid in Hsid.
    destruct (R.use_signer self) eqn:Hus; [|done].
    assert (e = BadSignature ∨ e ≠ BadSignature) as [-> | He]
      by (destruct e; (by left) || (by right)).
    + rewrite (open_session_bad_signature self app request w cookie Hus Hc Hsid).
      simpl. auto.
    + rewrite (open_session_unsign_raises self app request w cookie e
                 Hus Hc Hne Hsid He).
      simpl. auto.
Qed.

(** X4.  A save touches one key.  Whatever the record and whether the save
    returns or raises, every entry of the store under another key is as it
    was; in particular the entry of any other sid under the same prefix. *)
Theorem redis_save_session_other_keys `{Externals}
    (self : R.t) (app : Flask) (s : ServerSideSession)
    (w : world R.redis_server) (sid' : string) :
  sid' ≠ sid s →
  let w1 := (R.save_session self app s w).2 in
  (∀ k, k ≠ R.key_prefix self +:+ sid s →
        R.db (backend w1) !! k = R.db (backend w) !! k)
  ∧ R.db (backend w1) !! (R.key_prefix self +:+ sid')
    = R.db (backend w) !! (R.key_prefix self +:+ sid').
Proof.
  intros Hsid. cbv zeta.
  assert (∀ k, k ≠ R.key_prefix self +:+ sid s →
               R.db (backend (R.save_session self app s w).2) !! k
               = R.db (backend w) !! k) as Hk.
  { intros k Hne. destruct (decide (mapping s = ∅)) as [He | He].
    - unfold R.save_session. rewrite (is_empty_true _ He).
      destruct (modified s); [|done]. simpl. by apply lookup_delete_ne.
    - rewrite (redis_save_session_run self app s w He). cbv zeta.
      destruct (cookie_value (R.use_signer self) app (sid s)); simpl;
        by apply lookup_insert_ne. }
  split; [exact Hk|]. apply Hk.
  intros Heq. by apply (inj (String.app (R.key_prefix self))) in Heq.
Qed.

(** Saving the session [zzz] leaves the stored session [abc] alone. *)
Lemma redis_save_session_other_keys_witness :
  R.db (backend (R.save_session (Toy.redis_interface false true) (Toy.app None)
                   (setitem "user" (VStr "bob") (fresh_record "zzz" true))
                   (Toy.start Toy.redis_alice)).2) !! "session:abc"
  = Some (Some (PDict Toy.alice), 60).
Proof.
  refine (eq_trans (proj2
    (redis_save_session_other_keys (H := Toy.externals)
       (Toy.redis_interface false true) (Toy.app None)
       (setitem "user" (VStr "bob") (fresh_record "zzz" true))
       (Toy.start Toy.redis_alice) "abc" _)) _).
  - discriminate.
  - reflexivity.
Defined.

(** X5.  A first visit.  For a request without the cookie, [open_session]
    returns a record under a generated sid; when the application leaves that
    record untouched, the save does nothing for an interface that is not
    permanent, and for a permanent one it stores the record (which holds the
    ["_permanent"] entry) under the new sid and sets the cookie, with an
    expiration one lifetime ahead. *)
Theorem redis_first_visit `{Externals}
    (self : R.t) (app : Flask) (request : Request)
    (w : world R.redis_server) (c : string) :
  cookies request !! SESSION_COOKIE_NAME app = None →
  cookie_value (R.use_signer self) app (uuid4 (entropy w)).1 = Ok c →
  let new_sid := (uuid4 (entropy w)).1 in
  let w1 := (R.open_session self app request w).2 in
  ∃ s, R.open_session self app request w = (Ok s, w1)
       ∧ sid s = new_sid
       ∧ backend w1 = backend w
       ∧ if R.permanent self then
           R.save_session self app s w1
           = (Ok tt,
              set_response
                (response w
                   ++ [the_cookie (R.has_same_site_capability self) app c
                         (Some (utcnow w
                                + total_seconds (permanent_session_lifetime app)))])
                (after_setex (R.key_prefix self +:+ new_sid)
                   (pickle_dumps (PDict {["_permanent" := VBool true]}))
                   (total_seconds (permanent_session_lifetime app)) w1))
         else R.save_session self app s w1 = (Ok tt, w1).
Proof.
  intros Hreq Hcv. cbv zeta.
  rewrite (open_session_no_cookie self app request w Hreq). unfold generated.
  simpl. exists (fresh_record (uuid4 (entropy w)).1 (R.permanent self)).
  split; [reflexivity|]. split; [reflexivity|]. split; [reflexivity|].
  destruct (R.permanent self).
  - rewrite redis_save_session_run by apply (insert_non_empty (M := gmap string)).
    cbv zeta. simpl. rewrite Hcv. reflexivity.
  - unfold R.save_session.
    by rewrite (is_empty_true (fresh_record (uuid4 (entropy w)).1 false) eq_refl).
Qed.

Lemma redis_first_visit_witness :
  ∃ s, R.open_session (Toy.redis_interface false false) (Toy.app None)
         (Toy.request None) (Toy.start (Toy.redis_with ∅))
       = (Ok s, (R.open_session (Toy.redis_interface false false) (Toy.app None)
                   (Toy.request None) (Toy.start (Toy.redis_with ∅))).2)
       ∧ sid s = "uuid-0".
Proof.
  destruct (redis_first_visit (H := Toy.externals)
              (Toy.redis_interface false false) (Toy.app None)
              (Toy.request None) (Toy.start (Toy.redis_with ∅)) "uuid-0"
              eq_refl eq_refl) as (s & Ho & Hs & _).
  exists s. split; [exact Ho | exact Hs].
Defined.

(** X6.  A save without the secret.  When the interface signs and the
    application has no secret, the save of a record that is not empty raises
    the [KeyError] after the store was written: the entry is there, with the
    lifetime as its time to live, and the response got no cookie. *)
Theorem redis_save_session_no_secret `{Externals}
    (self : R.t) (app : Flask) (s : ServerSideSession)
    (w : world R.redis_server) :
  R.use_signer self = true →
  no_secret app →
  mapping s ≠ ∅ →
  let w1 := (R.save_session self app s w).2 in
  (R.save_session self app s w).1 = Raise missing_secret
  ∧ R.db (backend w1) !! (R.key_prefix self +:+ sid s)
    = Some (pickle_dumps (PDict (mapping s)),
            total_seconds (permanent_session_lifetime app))
  ∧ response w1 = response w.
Proof.
  intros Hus Hsec Hne. cbv zeta.
  rewrite (redis_save_session_run self app s w Hne). cbv zeta.
  unfold cookie_value, _sign. rewrite Hus, (_get_signer_no_secret app Hsec).
  simpl. split; [done|]. split; [|done]. apply lookup_insert_eq.
Qed.

Lemma redis_save_session_no_secret_witness :
  (R.save_session (Toy.redis_interface true false) (Toy.app None)
     (loaded_record Toy.alice (PDict Toy.alice) "abc")
     (Toy.start (Toy.redis_with ∅))).1
  = Raise missing_secret.
Proof.
  refine (proj1
    (redis_save_session_no_secret (H := Toy.externals)
       (Toy.redis_interface true false) (Toy.app None)
       (loaded_record Toy.alice (PDict Toy.alice) "abc")
       (Toy.start (Toy.redis_with ∅)) eq_refl _ _)).
  - left; reflexivity.
  - apply (insert_non_empty (M := gmap string)).
Defined.

(** ** What the application can do to a record *)

(** X7.  Whatever sequence of assignments, deletions and clears the
    application performs on a record, the sid and the [initial] snapshot stay
    as [__init__] set them, the mapping is what the same steps give on a plain
    dictionary, and [modified] is set as soon as one step was performed. *)
Theorem mutate_all_keeps_snapshot (ms : list mutation)
    (s s' : ServerSideSession) :
  mutate_all ms s = Ok s' →
  sid s' = sid s
  ∧ initial s' = initial s
  ∧ mapping s' = dict_after ms (mapping s)
  ∧ modified s' = match ms with [] => modified s | _ => true end.
Proof.
  revert s. induction ms as [|m ms IH]; intros s Hrun.
  { injection Hrun as <-. done. }
  simpl in Hrun. destruct (mutate m s) as [s1|e] eqn:Hm; [|done].
  destruct (IH s1 Hrun) as (Hsid & Hini & Hmap & Hmod).
  assert (sid s1 = sid s ∧ initial s1 = initial s ∧ modified s1 = true
          ∧ mapping s1 = match m with
                         | Set_item k v => <[k := v]> (mapping s)
                         | Del_item k => delete k (mapping s)
                         | Clear => ∅
                         end) as (H1 & H2 & H3 & H4).
  { destruct m as [k v | k |]; simpl in Hm.
    - by injection Hm as <-.
    - unfold delitem in Hm. destruct (mapping s !! k); [|done].
      by injection Hm as <-.
    - by injection Hm as <-. }
  rewrite Hsid, Hini, Hmap, H1, H2, H4. split; [done|]. split; [done|].
  split; [by destruct m|].
  rewrite Hmod. by destruct ms.
Qed.

Lemma mutate_all_keeps_snapshot_witness :
  initial (set_mapping {["user" := VStr "bob"]}
             (set_modified true
                (loaded_record Toy.alice (PDict Toy.alice) "abc")))
  = PDict Toy.alice.
Proof.
  refine (proj1 (proj2
    (mutate_all_keeps_snapshot
       [Del_item "user"; Clear; Set_item "user" (VStr "bob")]
       (loaded_record Toy.alice (PDict Toy.alice) "abc")
       (set_mapping {["user" := VStr "bob"]}
          (set_modified true
             (loaded_record Toy.alice (PDict Toy.alice) "abc")))
       _))).
  reflexivity.
Defined.

(** ** The interface of a configuration *)

(** The four entries [get_interface] reads on its way to the Redis and
    filesystem interfaces, after the seven [setdefault]. *)
Lemma get_interface_defaults_more (getcwd : string)
    (config : gmap string Session.cfg) :
  let config' :=
    Session.setdefault "SESSION_FILE_MODE" (Session.CInt 384)
      (Session.setdefault "SESSION_FILE_THRESHOLD" (Session.CInt 500)
         (Session.setdefault "SESSION_FILE_DIR"
            (Session.CStr (Session.os_path_join getcwd "flask_session"))
            (Session.setdefault "SESSION_MEMCACHED" Session.CNone
               (Session.setdefault "SESSION_REDIS" Session.CNone
                  (Session.setdefault "SESSION_KEY_PREFIX"
                     (Session.CStr "session:")
                     (Session.setdefault "SESSION_TYPE"
                        (Session.CStr "memcached") config)))))) in
  config' !! "SESSION_REDIS"
  = Some (default Session.CNone (config !! "SESSION_REDIS"))
  ∧ config' !! "SESSION_FILE_DIR"
    = Some (default (Session.CStr (Session.os_path_join getcwd "flask_session"))
              (config !! "SESSION_FILE_DIR"))
  ∧ config' !! "SESSION_FILE_THRESHOLD"
    = Some (default (Session.CInt 500) (config !! "SESSION_FILE_THRESHOLD"))
  ∧ config' !! "SESSION_FILE_MODE"
    = Some (default (Session.CInt 384) (config !! "SESSION_FILE_MODE")).
Proof.
  intros config'. subst config'. split; [|split; [|split]].
  - do 4 (rewrite setdefault_lookup_ne by discriminate).
    rewrite setdefault_lookup_eq.
    by do 2 (rewrite setdefault_lookup_ne by discriminate).
  - do 2 (rewrite setdefault_lookup_ne by discriminate).
    rewrite setdefault_lookup_eq.
    by do 4 (rewrite setdefault_lookup_ne by discriminate).
  - do 1 (rewrite setdefault_lookup_ne by discriminate).
    rewrite setdefault_lookup_eq.
    by do 5 (rewrite setdefault_lookup_ne by discriminate).
  - rewrite setdefault_lookup_eq.
    by do 6 (rewrite setdefault_lookup_ne by discriminate).
Qed.

(** X8.  No lookup of [get_interface] raises [KeyError], whatever the
    configuration: every entry it reads has a default ([memcached],
    [session:], no client, the directory [flask_session] under the working
    directory, 500 files, mode 384), a configured entry wins over its default,
    and a [SESSION_TYPE] that is none of the three names gives the null
    interface.  The constructor call it makes is therefore a function of the
    configuration, and that call is what [init_app] assigns to
    [app.session_interface]; [Session()] without an application assigns
    nothing.  What the constructor then does with its arguments is not part of
    this statement (for memcached see [MC.__init__]). *)
Theorem get_interface_configured (getcwd : string) (app : Session.flask_app) :
  Session.get_interface getcwd (Session.config app)
  = Ok (configured getcwd (Session.config app))
  ∧ Session.init_app getcwd app
    = Ok {| Session.config := Session.config app;
            Session.session_interface_of :=
              Some (configured getcwd (Session.config app)) |}
  ∧ Session.__init__ getcwd (Some app)
    = Ok (Some {| Session.config := Session.config app;
                  Session.session_interface_of :=
                    Some (configured getcwd (Session.config app)) |})
  ∧ Session.__init__ getcwd None = Ok None.
Proof.
  assert (Session.get_interface getcwd (Session.config app)
          = Ok (configured getcwd (Session.config app))) as Hget.
  { destruct (get_interface_defaults getcwd (Session.config app))
      as (Ht & Hp & Hm).
    destruct (get_interface_defaults_more getcwd (Session.config app))
      as (Hr & Hd & Hth & Hmo).
    unfold Session.get_interface, Session.item, configured. cbv zeta in *.
    rewrite Ht, Hp, Hm, Hr, Hd, Hth, Hmo. unfold Session.rbind.
    repeat case_decide; reflexivity. }
  split; [exact Hget|].
  unfold Session.__init__, Session.init_app. rewrite Hget. done.
Qed.

(** ** Runs of the memcached interface *)

Section MemcachedRuns.
Context `{Externals}.
Implicit Types (self : MC.t) (app : Flask) (request : Request)
  (w : world MC.memcached_server) (s : ServerSideSession).

Lemma memcached_save_session_run self app s w :
  mapping s ≠ ∅ →
  MC.save_session self app s w =
    let w1 := after_mc_set (MC.key_prefix self +:+ sid s)
                (pickle_dumps (PDict (mapping s)))
                (memcache_timeout
                   (total_seconds (permanent_session_lifetime app)) w) w in
    match cookie_value (MC.use_signer self) app (sid s) with
    | Ok c =>
        (Ok tt,
         set_response
           (response w ++ [the_cookie (MC.has_same_site_capability self) app c
                             (save_expires app s w)]) w1)
    | Raise e => (Raise e, w1)
    end.
Proof.
  intros Hne. unfold MC.save_session. rewrite (is_empty_false _ Hne).
  unfold get_expiration_time, save_expires, cookie_value, memcache_timeout,
    MC._get_memcache_timeout, bind, gets, ret, MC.client_set, modify,
    call_response, lift, the_cookie, after_mc_set.
  cbn zeta.
  destruct (truthy (SessionMixin_permanent s)); simpl;
    destruct (2592000 <? total_seconds (permanent_session_lifetime app)); simpl;
    destruct (MC.use_signer self); simpl; try reflexivity;
    destruct (_sign app (sid s)); reflexivity.
Qed.

Lemma memcached_open_session_lookup self app request w cookie sid :
  cookies request !! SESSION_COOKIE_NAME app = Some cookie →
  cookie ≠ "" →
  looked_up_sid (MC.use_signer self) app cookie = Ok sid →
  MC.open_session self app request w =
    let w' := after_mc_get (MC.key_prefix self +:+ sid) w in
    match MC.db (backend w) !! (MC.key_prefix self +:+ sid) with
    | Some (val, _) =>
        match pickle_loads val with
        | Some o =>
            match ServerSideSession_init o sid false with
            | Ok s => (Ok s, w')
            | Raise _ => (Ok (fresh_record sid (MC.permanent self)), w')
            end
        | None => (Ok (fresh_record sid (MC.permanent self)), w')
        end
    | None => (Ok (fresh_record sid (MC.permanent self)), w')
    end.
Proof.
  intros Hc Hne Hsid. destruct cookie as [|a cookie]; [done|].
  unfold MC.open_session. rewrite Hc.
  unfold looked_up_sid in Hsid.
  assert ((if MC.use_signer self
           then try_except
                  (sid0 <- lift (_unsign app (String a cookie)) ;;
                   ret (Continue sid0))
                  (except_BadSignature
                     (sid0 <- _generate_sid ;;
                      s <- MC.session_class PNone sid0 (MC.permanent self) ;;
                      ret (Return s)))
           else ret (Continue (String a cookie))) w
          = (Ok (Continue sid), w)) as Hflow.
  { destruct (MC.use_signer self).
    - unfold try_except, bind, lift. by rewrite Hsid.
    - by injection Hsid as ->. }
  unfold bind at 1. rewrite Hflow. cbn zeta.
  unfold bind at 1. unfold MC.client_get at 1. cbn zeta.
  fold (after_mc_get (MC.key_prefix self +:+ sid) w).
  destruct (MC.db (backend w) !! (MC.key_prefix self +:+ sid)) as [[val ttl]|];
    simpl.
  - unfold try_except, bind, lift, MC.session_class, except_all, lift.
    destruct (pickle_loads val) as [o|].
    + destruct (ServerSideSession_init o sid false); [done|].
      by rewrite ServerSideSession_init_fresh.
    + by rewrite ServerSideSession_init_fresh.
  - unfold MC.session_class, lift. by rewrite ServerSideSession_init_fresh.
Qed.
End MemcachedRuns.

(** X9.  Round trip on memcached.  The save of a record that is not empty
    stores the pickled mapping under [key_prefix + sid] with the timeout of
    [_get_memcache_timeout] (the lifetime, made absolute beyond 30 days), and
    a request that sends back the cookie value of that save opens a record
    with the same sid and mapping. *)
Theorem memcached_save_then_open `{Externals}
    (self : MC.t) (app : Flask) (s : ServerSideSession)
    (w : world MC.memcached_server) (c : string) (request : Request) :
  mapping s ≠ ∅ →
  pickle_loads (pickle_dumps (PDict (mapping s))) = Some (PDict (mapping s)) →
  cookie_value (MC.use_signer self) app (sid s) = Ok c →
  c ≠ "" →
  looked_up_sid (MC.use_signer self) app c = Ok (sid s) →
  cookies request !! SESSION_COOKIE_NAME app = Some c →
  let w1 := (MC.save_session self app s w).2 in
  (MC.save_session self app s w).1 = Ok tt
  ∧ MC.db (backend w1) !! (MC.key_prefix self +:+ sid s)
    = Some (pickle_dumps (PDict (mapping s)),
            memcache_timeout
              (total_seconds (permanent_session_lifetime app)) w)
  ∧ (MC.open_session self app request w1).1
    = Ok {| mapping := mapping s; sid := sid s; modified := false;
            initial := PDict (mapping s) |}.
Proof.
  intros Hne Hp Hcv Hc Hsid Hreq. cbv zeta.
  rewrite (memcached_save_session_run self app s w Hne). cbv zeta.
  rewrite Hcv. simpl. split; [done|]. split; [apply lookup_insert_eq|].
  rewrite (memcached_open_session_lookup self app request _ c (sid s)
             Hreq Hc Hsid).
  cbn zeta. simpl. rewrite lookup_insert_eq, Hp.
  by rewrite (ServerSideSession_init_loaded _ _ _ (dict_init_dict (mapping s))).
Qed.

(** Forty days on memcached: the entry carries an absolute time stamp. *)
Lemma memcached_save_then_open_witness :
  let w1 := (MC.save_session (Toy.memcached_interface true true)
               Toy.app_40_days (Toy.session_alice true)
               (Toy.start Toy.memcached_empty)).2 in
  MC.db (backend w1) !! "session:abc"
  = Some (Some (PDict (mapping (Toy.session_alice true))), 1703456000)
  ∧ (MC.open_session (Toy.memcached_interface true true) Toy.app_40_days
       (Toy.request (Some "abc.k")) w1).1
    = Ok {| mapping := mapping (Toy.session_alice true); sid := "abc";
            modified := false;
            initial := PDict (mapping (Toy.session_alice true)) |}.
Proof.
  refine (proj2
    (memcached_save_then_open (H := Toy.externals)
       (Toy.memcached_interface true true) Toy.app_40_days
       (Toy.session_alice true) (Toy.start Toy.memcached_empty)
       "abc.k" (Toy.request (Some "abc.k")) _ _ _ _ _ _)).
  - apply (insert_non_empty (M := gmap string)).
  - reflexivity.
  - reflexivity.
  - discriminate.
  - reflexivity.
  - reflexivity.
Defined.

(** X10.  Construction of the memcached interface fails in one case only: no
    client is handed in and neither [pylibmc] nor [memcache] can be imported;
    it then raises [RuntimeError]. A client that is handed in is kept, and
    otherwise [pylibmc] is preferred to [memcache], both for the server
    [127.0.0.1:11211]. The signing secret plays no part. *)
Theorem memcached_init_client `{Externals}
    (pylibmc_importable memcache_importable : bool)
    (client : option MC.memcache_client) (key_prefix : string)
    (use_signer permanent : bool) :
  let made := MC.__init__ pylibmc_importable memcache_importable client
                key_prefix use_signer permanent in
  let self := {| MC.key_prefix := key_prefix; MC.use_signer := use_signer;
                 MC.permanent := permanent;
                 MC.has_same_site_capability := flask_has_samesite |} in
  ((∃ e, made = Raise e)
   ↔ client = None ∧ pylibmc_importable = false ∧ memcache_importable = false)
  ∧ (∀ e, made = Raise e → e = RuntimeError "no memcache module found")
  ∧ (∀ c, client = Some c → made = Ok (c, self))
  ∧ (client = None → pylibmc_importable = true →
     made = Ok (MC.pylibmc_Client ["127.0.0.1:11211"], self))
  ∧ (client = None → pylibmc_importable = false → memcache_importable = true →
     made = Ok (MC.memcache_Client ["127.0.0.1:11211"], self)).
Proof.
  cbv zeta. unfold MC.__init__, MC._get_preferred_memcache_client.
  destruct client as [c|], pylibmc_importable, memcache_importable; simpl;
    repeat split;
    try (intros; congruence);
    try (intros [e0 He0]; congruence);
    try (intros (? & ? & ?); congruence);
    try (intros _; eexists; reflexivity);
    try (match goal with
         | Hx : ∃ _, _ = Raise _ |- _ => destruct Hx as [? ?]; congruence
         end).
Qed.

Lemma memcached_init_client_witness :
  MC.__init__ (H := Toy.externals) false true None "session:" false true
  = Ok (MC.memcache_Client ["127.0.0.1:11211"],
        Toy.memcached_interface false true).
Proof.
  refine (proj2 (proj2 (proj2 (proj2
    (memcached_init_client (H := Toy.externals) false true None "session:"
       false true)))) eq_refl eq_refl eq_refl).
Defined.

(** ** Runs of the document-store interface *)

Section MongoRuns.
Context `{Externals}.
Implicit Types (self : MG.t) (app : Flask) (request : Request)
  (w : world MG.collection) (s : ServerSideSession).

Lemma mongo_save_session_run self app s w :
  mapping s ≠ ∅ →
  MG.save_session self app s w =
    let w1 := after_update (saved_document self app s w) w in
    match cookie_value (MG.use_signer self) app (sid s) with
    | Ok c =>
        (Ok tt,
         set_response
           (response w ++ [the_cookie (MG.has_same_site_capability self) app c
                             (save_expires app s w)]) w1)
    | Raise e => (Raise e, w1)
    end.
Proof.
  intros Hne. unfold MG.save_session. rewrite (is_empty_false _ Hne).
  unfold get_expiration_time, saved_document, save_expires, cookie_value,
    bind, gets, ret, MG.update, modify, call_response, lift, the_cookie,
    after_update.
  destruct (truthy (SessionMixin_permanent s)); simpl;
    destruct (MG.use_signer self); simpl; try reflexivity;
    destruct (_sign app (sid s)); reflexivity.
Qed.

(** After the upsert, [find_one] returns the document that was written. *)
Lemma find_after_upsert (doc : MG.document) (l : list MG.document) :
  head (List.filter (MG.has_id (MG.id doc))
          (default (l ++ [doc]) (MG.replace_first (MG.id doc) doc l)))
  = Some doc.
Proof.
  assert (MG.has_id (MG.id doc) doc = true) as Hdoc
    by (unfold MG.has_id; apply String.eqb_refl).
  induction l as [|d l IH]; simpl.
  { by rewrite Hdoc. }
  destruct (MG.has_id (MG.id doc) d) eqn:Hd; simpl.
  { by rewrite Hdoc. }
  destruct (MG.replace_first (MG.id doc) doc l) as [l'|]; simpl in *;
    by rewrite Hd.
Qed.

(** The ids of the collection after the upsert: the same ones when one of
    them is the id of the document, one more otherwise. *)
Lemma ids_after_upsert (doc : MG.document) (l : list MG.document) :
  MG.id <$> default (l ++ [doc]) (MG.replace_first (MG.id doc) doc l)
  = if bool_decide (MG.id doc ∈ MG.id <$> l) then MG.id <$> l
    else (MG.id <$> l) ++ [MG.id doc].
Proof.
  induction l as [|d l IH].
  { case_bool_decide as Hin; [|done]. by apply elem_of_nil in Hin. }
  rewrite fmap_cons.
  change (MG.replace_first (MG.id doc) doc (d :: l))
    with (if MG.has_id (MG.id doc) d then Some (doc :: l)
          else cons d <$> MG.replace_first (MG.id doc) doc l).
  unfold MG.has_id at 1.
  destruct (String.eqb_spec (MG.id d) (MG.id doc)) as [Heq | Hne].
  - rewrite bool_decide_eq_true_2 by (rewrite Heq; apply list_elem_of_here).
    simpl. by rewrite Heq.
  - assert (default ((d :: l) ++ [doc])
              (cons d <$> MG.replace_first (MG.id doc) doc l)
            = d :: default (l ++ [doc]) (MG.replace_first (MG.id doc) doc l))
      as -> by (by destruct (MG.replace_first (MG.id doc) doc l)).
    rewrite fmap_cons, IH.
    destruct (bool_decide (MG.id doc ∈ MG.id <$> l)) eqn:Hin.
    + apply bool_decide_eq_true_1 in Hin.
      rewrite bool_decide_eq_true_2; [done|]. by apply list_elem_of_further.
    + apply bool_decide_eq_false_1 in Hin.
      rewrite bool_decide_eq_false_2; [done|].
      intros [? | ?]%elem_of_cons; congruence.
Qed.
End MongoRuns.

Section MongoPaths.
Context `{Externals}.
Implicit Types (self : MG.t) (app : Flask) (request : Request)
  (w : world MG.collection) (s : ServerSideSession).

Lemma mongo_generate_fresh self w :
  (sid <- _generate_sid ;; MG.session_class PNone sid (MG.permanent self)) w
  = generated (MG.permanent self) w.
Proof.
  unfold bind, _generate_sid, MG.session_class, lift, generated.
  destruct (uuid4 (entropy w)) as [u r]. simpl.
  by rewrite ServerSideSession_init_fresh.
Qed.

Lemma mongo_open_session_no_cookie self app request w :
  cookies request !! SESSION_COOKIE_NAME app = None
  ∨ cookies request !! SESSION_COOKIE_NAME app = Some "" →
  MG.open_session self app request w = generated (MG.permanent self) w.
Proof.
  intros [Hc | Hc]; unfold MG.open_session; rewrite Hc;
    apply mongo_generate_fresh.
Qed.

Lemma mongo_open_session_bad_signature self app request w token :
  MG.use_signer self = true →
  cookies request !! SESSION_COOKIE_NAME app = Some token →
  _unsign app token = Raise BadSignature →
  MG.open_session self app request w = generated (MG.permanent self) w.
Proof.
  intros Hs Hc Hu. destruct token as [|a token].
  { apply mongo_open_session_no_cookie. by right. }
  unfold MG.open_session. rewrite Hc, Hs.
  unfold bind at 1. unfold try_except, bind at 1, lift. rewrite Hu. simpl.
  unfold bind at 1. unfold bind at 2.
  unfold _generate_sid, MG.session_class, lift, generated, ret.
  destruct (uuid4 (entropy w)) as [u r]. simpl.
  by destruct (MG.permanent self).
Qed.

Lemma mongo_open_session_unsign_raises self app request w cookie e :
  MG.use_signer self = true →
  cookies request !! SESSION_COOKIE_NAME app = Some cookie →
  cookie ≠ "" →
  _unsign app cookie = Raise e →
  e ≠ BadSignature →
  MG.open_session self app request w = (Raise e, w).
Proof.
  intros Hs Hc Hne Hu He. destruct cookie as [|a cookie]; [done|].
  unfold MG.open_session. rewrite Hc, Hs.
  unfold bind, try_except, lift. rewrite Hu.
  by destruct e.
Qed.

(** The documents after an [open_session]: all of them, or all but those of
    one id. *)
Lemma mongo_open_session_docs self app request w :
  MG.docs (backend (MG.open_session self app request w).2)
  = MG.docs (backend w)
  ∨ ∃ store_id,
      MG.docs (backend (MG.open_session self app request w).2)
      = List.filter (λ d, negb (MG.has_id store_id d)) (MG.docs (backend w)).
Proof.
  destruct (cookies request !! SESSION_COOKIE_NAME app) as [cookie|] eqn:Hc.
  2: { rewrite mongo_open_session_no_cookie by auto. by left. }
  destruct (decide (cookie = "")) as [-> | Hne].
  { rewrite mongo_open_session_no_cookie by auto. by left. }
  destruct (looked_up_sid (MG.use_signer self) app cookie) as [sid0|e] eqn:Hsid.
  - rewrite (mongo_open_session_lookup self app request w cookie sid0
               Hc Hne Hsid).
    cbn zeta.
    destruct (head _) as [doc|]; [|by left].
    destruct (MG.expiration doc) as [e|]; [|by left].
    destruct (e <=? utcnow w).
    + right. by eexists.
    + destruct (pickle_loads (MG.val doc)) as [o|]; [|by left].
      destruct (ServerSideSession_init o sid0 false); by left.
  - unfold looked_up_sid in Hsid.
    destruct (MG.use_signer self) eqn:Hus; [|done].
    assert (e = BadSignature ∨ e ≠ BadSignature) as [-> | He]
      by (destruct e; (by left) || (by right)).
    + rewrite (mongo_open_session_bad_signature self app request w cookie
                 Hus Hc Hsid).
      by left.
    + rewrite (mongo_open_session_unsign_raises self app request w cookie e
                 Hus Hc Hne Hsid He).
      by left.
Qed.

Lemma unique_ids_filter (f : MG.document → bool) (l : list MG.document) :
  unique_ids l → unique_ids (List.filter f l).
Proof.
  unfold unique_ids. induction l as [|d l IH]; [done|].
  rewrite fmap_cons, NoDup_cons. intros [Hd Hl]. simpl.
  destruct (f d); [|by apply IH].
  rewrite fmap_cons. apply NoDup_cons. split; [|by apply IH].
  intros [d' [Hid Hin]]%list_elem_of_fmap. apply Hd.
  apply list_elem_of_fmap. exists d'. split; [done|].
  apply list_elem_of_In in Hin. apply filter_In in Hin as [Hin _].
  by apply list_elem_of_In.
Qed.
End MongoPaths.

(** X11.  A session that is not permanent cannot be opened again.  The save of
    such a record (not empty) writes a document whose [expiration] is [None];
    when the cookie of that save comes back, [open_session] finds the document
    and the comparison of [None] with the current time raises [TypeError]. The
    document stays, so every later request with that cookie raises as well.
    *)
Theorem mongo_not_permanent_save_then_open `{Externals}
    (self : MG.t) (app : Flask) (s : ServerSideSession)
    (w : world MG.collection) (c : string) (request : Request) :
  mapping s ≠ ∅ →
  truthy (SessionMixin_permanent s) = false →
  cookie_value (MG.use_signer self) app (sid s) = Ok c →
  c ≠ "" →
  looked_up_sid (MG.use_signer self) app c = Ok (sid s) →
  cookies request !! SESSION_COOKIE_NAME app = Some c →
  let store_id := MG.key_prefix self +:+ sid s in
  let w1 := (MG.save_session self app s w).2 in
  (MG.save_session self app s w).1 = Ok tt
  ∧ head (List.filter (MG.has_id store_id) (MG.docs (backend w1)))
    = Some {| MG.id := store_id;
              MG.val := pickle_dumps (PDict (mapping s));
              MG.expiration := None |}
  ∧ MG.open_session self app request w1
    = (Raise TypeError, after_find store_id w1).
Proof.
  intros Hne Hperm Hcv Hc Hsid Hreq. cbv zeta.
  rewrite (mongo_save_session_run self app s w Hne). cbv zeta.
  rewrite Hcv. simpl.
  pose proof (find_after_upsert (saved_document self app s w)
                (MG.docs (backend w))) as Hfind.
  unfold saved_document, save_expires in Hfind. rewrite Hperm in Hfind.
  simpl in Hfind.
  unfold saved_document, save_expires. rewrite Hperm. simpl.
  split; [done|]. split; [exact Hfind|].
  rewrite (mongo_open_session_lookup self app request _ c (sid s) Hreq Hc Hsid).
  cbn zeta. simpl. rewrite Hfind. reflexivity.
Qed.

Lemma mongo_not_permanent_save_then_open_witness :
  (MG.open_session (Toy.mongo_interface false false) (Toy.app None)
     (Toy.request (Some "abc"))
     (MG.save_session (Toy.mongo_interface false false) (Toy.app None)
        (Toy.session_alice false) (Toy.start Toy.mongo_empty)).2).1
  = Raise TypeError.
Proof.
  refine (f_equal fst (proj2 (proj2
    (mongo_not_permanent_save_then_open (H := Toy.externals)
       (Toy.mongo_interface false false) (Toy.app None)
       (Toy.session_alice false) (Toy.start Toy.mongo_empty)
       "abc" (Toy.request (Some "abc")) _ _ _ _ _ _)))).
  - apply (insert_non_empty (M := gmap string)).
  - reflexivity.
  - reflexivity.
  - discriminate.
  - reflexivity.
  - reflexivity.
Defined.

(** X12.  A permanent session lives one lifetime.  The save of a permanent
    record (not empty) writes a document that expires one lifetime after the
    clock of the save.  When the cookie of that save comes back before that
    time, [open_session] returns a record with the same sid and mapping; from
    that time on it removes the document and returns a fresh record under the
    same sid. *)
Theorem mongo_permanent_save_then_open `{Externals}
    (self : MG.t) (app : Flask) (s : ServerSideSession)
    (w w2 : world MG.collection) (c : string) (request : Request) :
  mapping s ≠ ∅ →
  truthy (SessionMixin_permanent s) = true →
  pickle_loads (pickle_dumps (PDict (mapping s))) = Some (PDict (mapping s)) →
  cookie_value (MG.use_signer self) app (sid s) = Ok c →
  c ≠ "" →
  looked_up_sid (MG.use_signer self) app c = Ok (sid s) →
  cookies request !! SESSION_COOKIE_NAME app = Some c →
  backend w2 = backend (MG.save_session self app s w).2 →
  let store_id := MG.key_prefix self +:+ sid s in
  let expires := utcnow w + total_seconds (permanent_session_lifetime app) in
  (MG.save_session self app s w).1 = Ok tt
  ∧ (utcnow w2 < expires →
     MG.open_session self app request w2
     = (Ok {| mapping := mapping s; sid := sid s; modified := false;
              initial := PDict (mapping s) |},
        after_find store_id w2))
  ∧ (expires <= utcnow w2 →
     MG.open_session self app request w2
     = (Ok (fresh_record (sid s) (MG.permanent self)),
        after_remove store_id (after_find store_id w2))).
Proof.
  intros Hne Hperm Hp Hcv Hc Hsid Hreq Hb. cbv zeta.
  rewrite (mongo_save_session_run self app s w Hne) in Hb |- *.
  cbv zeta in Hb |- *. rewrite Hcv in Hb |- *. simpl in Hb |- *.
  pose proof (find_after_upsert (saved_document self app s w)
                (MG.docs (backend w))) as Hfind.
  unfold saved_document, save_expires in Hfind, Hb.
  rewrite Hperm in Hfind, Hb. simpl in Hfind.
  split; [done|].
  rewrite (mongo_open_session_lookup self app request w2 c (sid s)
             Hreq Hc Hsid).
  cbn zeta. rewrite Hb. simpl. rewrite Hfind. simpl.
  split; intros Ht.
  - destruct (Z.leb_spec (utcnow w + total_seconds (permanent_session_lifetime app))
                (utcnow w2)) as [|_]; [lia|].
    rewrite Hp.
    by rewrite (ServerSideSession_init_loaded _ _ _ (dict_init_dict (mapping s))).
  - destruct (Z.leb_spec (utcnow w + total_seconds (permanent_session_lifetime app))
                (utcnow w2)) as [_|]; [|lia].
    reflexivity.
Qed.

(** Saved and opened again within the same second. *)
Lemma mongo_permanent_save_then_open_witness :
  let w1 := (MG.save_session (Toy.mongo_interface false true) (Toy.app None)
               (Toy.session_alice true) (Toy.start Toy.mongo_empty)).2 in
  MG.open_session (Toy.mongo_interface false true) (Toy.app None)
    (Toy.request (Some "abc")) w1
  = (Ok {| mapping := mapping (Toy.session_alice true); sid := "abc";
           modified := false;
           initial := PDict (mapping (Toy.session_alice true)) |},
     after_find "session:abc" w1).
Proof.
  refine (proj1 (proj2
    (mongo_permanent_save_then_open (H := Toy.externals)
       (Toy.mongo_interface false true) (Toy.app None)
       (Toy.session_alice true) (Toy.start Toy.mongo_empty)
       (MG.save_session (Toy.mongo_interface false true) (Toy.app None)
          (Toy.session_alice true) (Toy.start Toy.mongo_empty)).2
       "abc" (Toy.request (Some "abc")) _ _ _ _ _ _ _ _)) _).
  - apply (insert_non_empty (M := gmap string)).
  - reflexivity.
  - reflexivity.
  - reflexivity.
  - discriminate.
  - reflexivity.
  - reflexivity.
  - reflexivity.
  - reflexivity.
Defined.

(** X13.  One document per id.  When no two documents of the collection share
    an id, this is still so after any [save_session] and after any
    [open_session]: the upsert replaces the document of the id or adds the
    first one, and a removal only takes documents away. *)
Theorem mongo_unique_ids_kept `{Externals}
    (self : MG.t) (app : Flask) (s : ServerSideSession) (request : Request)
    (w : world MG.collection) :
  unique_ids (MG.docs (backend w)) →
  unique_ids (MG.docs (backend (MG.save_session self app s w).2))
  ∧ unique_ids (MG.docs (backend (MG.open_session self app request w).2)).
Proof.
  intros Hu. split.
  - destruct (decide (mapping s = ∅)) as [He | He].
    + unfold MG.save_session. rewrite (is_empty_true _ He).
      destruct (modified s); [|done]. simpl. by apply unique_ids_filter.
    + rewrite (mongo_save_session_run self app s w He). cbv zeta.
      assert (unique_ids (MG.docs (backend (after_update
                (saved_document self app s w) w)))) as Hw.
      { unfold unique_ids, after_update. simpl. rewrite ids_after_upsert.
        case_bool_decide as Hin; [done|].
        apply NoDup_app. split; [done|]. split; [|apply NoDup_singleton].
        intros x Hx ->%list_elem_of_singleton. done. }
      by destruct (cookie_value (MG.use_signer self) app (sid s)).
  - destruct (mongo_open_session_docs self app request w) as [-> | [i ->]];
      [done|]. by apply unique_ids_filter.
Qed.

Lemma mongo_unique_ids_kept_witness :
  unique_ids (MG.docs (backend
    (MG.save_session (Toy.mongo_interface false true) (Toy.app None)
       (Toy.session_alice true) (Toy.start Toy.mongo_expired)).2)).
Proof.
  refine (proj1
    (mongo_unique_ids_kept (H := Toy.externals)
       (Toy.mongo_interface false true) (Toy.app None)
       (Toy.session_alice true) (Toy.request None)
       (Toy.start Toy.mongo_expired) _)).
  unfold unique_ids. simpl.
  repeat (apply NoDup_cons_2; [rewrite ?elem_of_cons, elem_of_nil;
                               intros Hx; repeat destruct Hx as [Hx | Hx];
                               discriminate || done |]).
  apply NoDup_nil_2.
Defined.

(** ** Runs of the relational interface *)

Section SqlRuns.
Context `{Externals}.
Implicit Types (self : SQL.t) (app : Flask) (request : Request)
  (w : world SQL.database) (s : ServerSideSession).

(** After the cookie gave a sid: the row found, its expiry and its child
    rows decide. *)
Lemma sql_open_session_lookup self app request w cookie sid :
  cookies request !! SESSION_COOKIE_NAME app = Some cookie →
  cookie ≠ "" →
  looked_up_sid (SQL.use_signer self) app cookie = Ok sid →
  SQL.open_session self app request w =
    let store_id := SQL.key_prefix self +:+ sid in
    let fresh := fresh_record sid (SQL.permanent self) in
    let w1 := sql_after_select store_id w in
    let load (saved : SQL.Session) :=
      match SQL.load_rows (stored_rows (SQL.id saved) (backend w)) with
      | Ok d => (Ok (loaded_record d (PDict d) sid), w1)
      | Raise _ => (Ok fresh, w1)
      end in
    match found_row store_id (backend w) with
    | Some saved =>
        match SQL.expiry saved with
        | Some e =>
            if e <=? utcnow w then (Ok fresh, sql_after_delete saved w1)
            else load saved
        | None => load saved
        end
    | None => (Ok fresh, w1)
    end.
Proof.
  intros Hc Hne Hsid. destruct cookie as [|a cookie]; [done|].
  unfold SQL.open_session. rewrite Hc.
  unfold looked_up_sid in Hsid.
  assert ((if SQL.use_signer self
           then try_except
                  (sid0 <- lift (_unsign app (String a cookie)) ;;
                   ret (Continue sid0))
                  (except_BadSignature
                     (sid0 <- _generate_sid ;;
                      s <- SQL.session_class PNone sid0 (SQL.permanent self) ;;
                      ret (Return s)))
           else ret (Continue (String a cookie))) w
          = (Ok (Continue sid), w)) as Hflow.
  { destruct (SQL.use_signer self).
    - unfold try_except, bind, lift. by rewrite Hsid.
    - by injection Hsid as ->. }
  unfold bind at 1. rewrite Hflow. cbn zeta.
  unfold bind at 1. unfold SQL.query_first at 1. cbv beta zeta.
  fold (found_row (SQL.key_prefix self +:+ sid) (backend w)).
  fold (sql_after_select (SQL.key_prefix self +:+ sid) w).
  assert (∀ saved,
            (try_except
               (rows <- SQL.query_data (SQL.id saved) ;;
                data <- lift (SQL.load_rows rows) ;;
                SQL.session_class (PDict data) sid false)
               (except_all (SQL.session_class PNone sid (SQL.permanent self))))
              (sql_after_select (SQL.key_prefix self +:+ sid) w)
            = match SQL.load_rows (stored_rows (SQL.id saved) (backend w)) with
              | Ok d => (Ok (loaded_record d (PDict d) sid),
                         sql_after_select (SQL.key_prefix self +:+ sid) w)
              | Raise _ => (Ok (fresh_record sid (SQL.permanent self)),
                            sql_after_select (SQL.key_prefix self +:+ sid) w)
              end) as Hload.
  { intros saved.
    unfold try_except, bind, SQL.query_data, gets, lift, SQL.session_class,
      except_all, lift.
    change (SQL.load_rows _) with
      (SQL.load_rows (stored_rows (SQL.id saved) (backend w))).
    destruct (SQL.load_rows (stored_rows (SQL.id saved) (backend w))) as [d|e].
    - by rewrite (ServerSideSession_init_loaded _ _ _ (dict_init_dict d)).
    - by rewrite ServerSideSession_init_fresh. }
  destruct (found_row (SQL.key_prefix self +:+ sid) (backend w)) as [saved|].
  - destruct (SQL.expiry saved) as [e|].
    + unfold bind at 1. unfold bind at 1. unfold gets at 1.
      change (utcnow (sql_after_select (SQL.key_prefix self +:+ sid) w))
        with (utcnow w).
      destruct (e <=? utcnow w).
      * unfold bind, SQL.db_delete, SQL.commit, modify, ret,
          SQL.session_class, lift.
        rewrite ServerSideSession_init_fresh. reflexivity.
      * unfold ret at 1. apply Hload.
    + unfold bind at 1. unfold ret at 1. apply Hload.
  - unfold bind, ret, SQL.session_class, lift.
    by rewrite ServerSideSession_init_fresh.
Qed.
End SqlRuns.

(** X14.  The diff of a relational save, key by key.  For a record that is not
    empty, with the row of the session found or added: the child row of a key
    of the mapping holds the pickled value when [initial.get(key)] is not
    equal to the value, and is left as it was when it is equal (also for a new
    key whose value is [None]); the child row of a key of [initial] that left
    the mapping is deleted; every other row of the table, of this session or
    of another, is untouched; and the operations end with the only commit. *)
Theorem sql_save_session_diff `{Externals}
    (self : SQL.t) (app : Flask) (s : ServerSideSession)
    (w : world SQL.database) (i : gmap string value) :
  mapping s ≠ ∅ →
  initial s = PDict i →
  let row := save_row self app s w in
  let table := SQL.session_data (backend w) in
  let table' := SQL.session_data (backend (SQL.save_session self app s w).2) in
  (∀ k, table' !! (SQL.id row, k)
        = match mapping s !! k with
          | Some v => if py_eq_opt (i !! k) v then table !! (SQL.id row, k)
                      else Some (pickle_dumps (PVal v))
          | None => if bool_decide (is_Some (i !! k)) then None
                    else table !! (SQL.id row, k)
          end)
  ∧ (∀ id' k, id' ≠ SQL.id row → table' !! (id', k) = table !! (id', k))
  ∧ ∃ ops, SQL.calls (backend (SQL.save_session self app s w).2)
           = SQL.calls (backend w) ++ ops ++ [SQL.COMMIT]
           ∧ commits ops = 0%nat.
Proof.
  intros Hne Hi. cbv zeta. split; [|split].
  - intros k. destruct (mapping s !! k) as [v|] eqn:Hm.
    + destruct (py_eq_opt (i !! k) v) eqn:Heq.
      * apply (sql_save_skipped_key self app s w i k v Hne Hi Hm Heq).
      * apply (sql_save_merged_key self app s w i k v Hne Hi Hm Heq).
    + case_bool_decide as Hk.
      * apply (sql_save_removed_key self app s w i k Hne Hi Hk Hm).
      * rewrite (sql_save_session_run self app s w i Hne Hi). simpl.
        fold (save_expires app s w). fold (save_row self app s w).
        rewrite merge_all_other_key.
        2: { intros Hin%merged_keys_in_mapping. rewrite Hm in Hin.
             by destruct Hin. }
        destruct (SQL.session_data (backend w)
                    !! (SQL.id (save_row self app s w), k)) as [b|] eqn:Hb.
        -- apply map_lookup_filter_Some. split; [done|]. simpl.
           intros [_ [Hd _]%elem_of_difference]. apply Hk.
           by apply elem_of_dom.
        -- apply map_lookup_filter_None. by left.
  - intros id' k Hid.
    rewrite (sql_save_session_run self app s w i Hne Hi). simpl.
    fold (save_expires app s w). fold (save_row self app s w).
    rewrite merge_all_other_session by done.
    destruct (SQL.session_data (backend w) !! (id', k)) as [b|] eqn:Hb.
    + apply map_lookup_filter_Some. split; [done|]. simpl. by intros [? _].
    + apply map_lookup_filter_None. by left.
  - apply (sql_save_one_commit self app s w i Hne Hi).
Qed.

(** The row of [b] is deleted and the row of [c] is written. *)
Lemma sql_save_session_diff_witness :
  let table' := SQL.session_data (backend
                  (SQL.save_session (Toy.sql_interface false false)
                     (Toy.app None) Toy.session_ac (Toy.start Toy.sql_ab)).2) in
  table' !! (7%nat, "b") = None
  ∧ table' !! (7%nat, "c") = Some (Some (PVal (VInt 3))).
Proof.
  pose proof (proj1
    (sql_save_session_diff (H := Toy.externals)
       (Toy.sql_interface false false) (Toy.app None) Toy.session_ac
       (Toy.start Toy.sql_ab) {["a" := VInt 1; "b" := VInt 2]}
       (insert_non_empty (M := gmap string) _ _ _) eq_refl)) as Hdiff.
  split; [exact (Hdiff "b") | exact (Hdiff "c")].
Defined.

(** X15.  The relational save of an empty record.  It looks the session row up
    before anything else, also when the record was never modified; in that
    case nothing more happens.  When the record was modified, the row that was
    found is deleted with its child rows and the deletion is committed, no
    write is issued when there is no row, and in both cases the response is
    asked to delete the cookie. *)
Theorem sql_save_session_empty `{Externals}
    (self : SQL.t) (app : Flask) (s : ServerSideSession)
    (w : world SQL.database) :
  mapping s = ∅ →
  let store_id := SQL.key_prefix self +:+ sid s in
  let w1 := sql_after_select store_id w in
  SQL.save_session self app s w
  = if modified s then
      (Ok tt,
       set_response
         (response w ++ [delete_cookie (SESSION_COOKIE_NAME app)
                           (get_cookie_domain app) (get_cookie_path app)])
         match found_row store_id (backend w) with
         | Some saved => sql_after_delete saved w1
         | None => w1
         end)
    else (Ok tt, w1).
Proof.
  intros He. cbv zeta. unfold SQL.save_session.
  rewrite (is_empty_true _ He).
  unfold bind at 1. unfold SQL.query_first at 1. cbv beta zeta.
  fold (found_row (SQL.key_prefix self +:+ sid s) (backend w)).
  fold (sql_after_select (SQL.key_prefix self +:+ sid s) w).
  destruct (modified s); [|reflexivity].
  destruct (found_row (SQL.key_prefix self +:+ sid s) (backend w)) as [saved|];
    reflexivity.
Qed.

(** Clearing the session [abc]: row 7 and its two child rows go, the child
    row of session 8 stays. *)
Lemma sql_save_session_empty_witness :
  let w' := (SQL.save_session (Toy.sql_interface false false) (Toy.app None)
               (clear Toy.session_ac) (Toy.start Toy.sql_expired)).2 in
  SQL.session_data (backend w') = {[(8%nat, "a") := Some (PVal (VInt 5))]}
  ∧ SQL.calls (backend w')
    = [SQL.SELECT_FIRST (H := Toy.externals) "session:abc";
       SQL.DELETE_SESSION 7; SQL.COMMIT].
Proof.
  cbv zeta.
  rewrite (sql_save_session_empty (H := Toy.externals)
             (Toy.sql_interface false false) (Toy.app None)
             (clear Toy.session_ac) (Toy.start Toy.sql_expired) eq_refl).
  vm_compute. split; reflexivity.
Defined.

(** X16.  Lazy expiry on the relational store.  When the row of the session
    has an expiry at or before the current time, [open_session] deletes the
    row and, with it, every child row of that session, commits, and returns a
    fresh record under the same sid; the rows of other sessions are untouched.
    A row without an expiry never expires. *)
Theorem sql_open_session_expired `{Externals}
    (self : SQL.t) (app : Flask) (request : Request)
    (w : world SQL.database) (cookie sid : string)
    (saved : SQL.Session) :
  cookies request !! SESSION_COOKIE_NAME app = Some cookie →
  cookie ≠ "" →
  looked_up_sid (SQL.use_signer self) app cookie = Ok sid →
  found_row (SQL.key_prefix self +:+ sid) (backend w) = Some saved →
  let store_id := SQL.key_prefix self +:+ sid in
  let w' := (SQL.open_session self app request w).2 in
  match SQL.expiry saved with
  | Some e =>
      e <= utcnow w →
      SQL.open_session self app request w
      = (Ok (fresh_record sid (SQL.permanent self)),
         sql_after_delete saved (sql_after_select store_id w))
      ∧ (∀ k, SQL.session_data (backend w') !! (SQL.id saved, k) = None)
      ∧ (∀ r, In r (SQL.sessions (backend w')) → SQL.id r ≠ SQL.id saved)
      ∧ (∀ id' k, id' ≠ SQL.id saved →
           SQL.session_data (backend w') !! (id', k)
           = SQL.session_data (backend w) !! (id', k))
      ∧ last (SQL.calls (backend w')) = Some SQL.COMMIT
  | None =>
      backend w' = SQL.log (SQL.SELECT_FIRST store_id) (backend w)
  end.
Proof.
  intros Hc Hne Hsid Hfound. cbv zeta.
  rewrite (sql_open_session_lookup self app request w cookie sid Hc Hne Hsid).
  cbv zeta. rewrite Hfound.
  destruct (SQL.expiry saved) as [e|] eqn:He.
  - intros Hle. destruct (Z.leb_spec e (utcnow w)) as [_|]; [|lia].
    split; [done|]. simpl. split; [|split; [|split]].
    + intros k. apply map_lookup_filter_None. right. intros b _ Hk. by apply Hk.
    + intros r [_ Hr]%filter_In Heq. rewrite Heq, Nat.eqb_refl in Hr. done.
    + intros id' k Hid.
      destruct (SQL.session_data (backend w) !! (id', k)) as [b|] eqn:Hb.
      * by apply map_lookup_filter_Some.
      * apply map_lookup_filter_None. by left.
    + apply last_snoc.
  - by destruct (SQL.load_rows (stored_rows (SQL.id saved) (backend w))).
Qed.

Lemma sql_open_session_expired_witness :
  SQL.session_data (backend
    (SQL.open_session (Toy.sql_interface false false) (Toy.app None)
       (Toy.request (Some "abc")) (Toy.start Toy.sql_expired)).2)
    !! (7%nat, "a")
  = None.
Proof.
  refine (proj1 (proj2
    (sql_open_session_expired (H := Toy.externals)
       (Toy.sql_interface false false) (Toy.app None)
       (Toy.request (Some "abc")) (Toy.start Toy.sql_expired) "abc" "abc"
       {| SQL.id := 7; SQL.session_id := "session:abc";
          SQL.expiry := Some (1700000000 - 3600) |}
       eq_refl _ eq_refl eq_refl _)) "a").
  - discriminate.
  - vm_compute. discriminate.
Defined.

Section SqlRoundTrip.
Context `{Externals}.
Implicit Types (self : SQL.t) (app : Flask) (request : Request)
  (w : world SQL.database) (s : ServerSideSession)
  (rows : list (string * blob)) (d : gmap string value).

(** The comprehension, started from a dictionary [acc]: when every row
    loads to the value [d0] has for its key, the result has the entries of
    [d0] on the keys of the rows and those of [acc] elsewhere. *)
Lemma load_rows_from rows (d0 acc : gmap string value) :
  (∀ k b, (k, b) ∈ rows →
          ∃ v, SQL.load_value b = Ok v ∧ d0 !! k = Some v) →
  ∃ d, foldl (λ acc row,
                match acc with
                | Raise e => Raise e
                | Ok d =>
                    match SQL.load_value row.2 with
                    | Ok v => Ok (<[row.1 := v]> d)
                    | Raise e => Raise e
                    end
                end) (Ok acc) rows = Ok d
       ∧ ∀ k, d !! k = if bool_decide (k ∈ rows.*1) then d0 !! k
                       else acc !! k.
Proof.
  revert acc. induction rows as [|[k b] rows IH]; intros acc Hrows.
  { exists acc. split; [done|]. intros k.
    rewrite bool_decide_eq_false_2; [done|]. apply not_elem_of_nil. }
  destruct (Hrows k b) as (v & Hv & Hd0); [apply list_elem_of_here|].
  cbn [foldl snd fst]. rewrite Hv.
  destruct (IH (<[k := v]> acc)) as (d & Hd & Hlook).
  { intros k' b' Hin. apply Hrows. by apply list_elem_of_further. }
  exists d. split; [exact Hd|]. intros k'. rewrite Hlook.
  change (((k, b) :: rows).*1) with (k :: rows.*1).
  destruct (decide (k' = k)) as [-> | Hne].
  - rewrite (bool_decide_eq_true_2 (k ∈ k :: rows.*1))
      by apply list_elem_of_here.
    case_bool_decide; [done|]. by rewrite lookup_insert_eq.
  - rewrite lookup_insert_ne by done.
    destruct (bool_decide (k' ∈ rows.*1)) eqn:Hin.
    + apply bool_decide_eq_true_1 in Hin.
      rewrite bool_decide_eq_true_2; [done|]. by apply list_elem_of_further.
    + apply bool_decide_eq_false_1 in Hin.
      rewrite bool_decide_eq_false_2; [done|].
      intros [? | ?]%elem_of_cons; done.
Qed.

(** Rows that load to the entries of [d0], one row per entry, give [d0]. *)
Lemma load_rows_exact rows (d0 : gmap string value) :
  (∀ k b, (k, b) ∈ rows →
          ∃ v, SQL.load_value b = Ok v ∧ d0 !! k = Some v) →
  (∀ k, is_Some (d0 !! k) → k ∈ rows.*1) →
  SQL.load_rows rows = Ok d0.
Proof.
  intros Hrows Hkeys. unfold SQL.load_rows.
  destruct (load_rows_from rows d0 ∅ Hrows) as (d & -> & Hlook).
  f_equal. apply map_eq. intros k. rewrite Hlook.
  case_bool_decide as Hin; [done|]. rewrite lookup_empty.
  destruct (d0 !! k) eqn:Hk; [|done].
  exfalso. apply Hin, Hkeys. by rewrite Hk.
Qed.

(** A pair is among the rows read for a session exactly when the child
    table has it under that session. *)
Lemma stored_rows_elem (sess_id : nat) (db : SQL.database) k b :
  (k, b) ∈ stored_rows sess_id db
  ↔ SQL.session_data db !! (sess_id, k) = Some b.
Proof.
  unfold stored_rows. rewrite list_elem_of_fmap. split.
  - intros [[[n k'] b'] [[= -> ->] Hin]].
    apply elem_of_map_to_list, map_lookup_filter_Some in Hin as [Hin Hn].
    simpl in Hn. by subst n.
  - intros Hl. exists ((sess_id, k), b). split; [done|].
    apply elem_of_map_to_list, map_lookup_filter_Some. by split.
Qed.

(** The test of the loop, for a record without loaded data: an item is
    merged unless its value is [None]. *)
Lemma merged_items_fresh (m : gmap string value) k v :
  (k, v) ∈ merged_items ∅ (map_to_list m) ↔ without_none m !! k = Some v.
Proof.
  rewrite merged_items_elem, elem_of_map_to_list. unfold without_none.
  rewrite map_lookup_filter_Some, lookup_empty. simpl.
  unfold py_eq_opt. simpl. split; intros [Hm Hv]; (split; [done|]).
  - intros ->. done.
  - by destruct v.
Qed.
End SqlRoundTrip.

Section SqlRoundTripRun.
Context `{Externals}.
Implicit Types (self : SQL.t) (app : Flask) (request : Request)
  (w : world SQL.database) (s : ServerSideSession).

(** What the save of a record that is not empty returns. *)
Lemma sql_save_session_result self app s w i :
  mapping s ≠ ∅ →
  initial s = PDict i →
  (SQL.save_session self app s w).1
  = match cookie_value (SQL.use_signer self) app (sid s) with
    | Ok _ => Ok tt
    | Raise e => Raise e
    end.
Proof.
  intros Hne Hi. unfold SQL.save_session, cookie_value.
  rewrite (is_empty_false _ Hne), Hi.
  unfold bind at 1. unfold SQL.query_first at 1. cbv beta zeta.
  destruct (head _) as [saved|];
    unfold get_expiration_time;
    destruct (truthy (SessionMixin_permanent s));
    unfold bind, gets, ret, lift, SQL.set_expiry, SQL.add_flush,
      SQL.delete_data, SQL.commit, modify, call_response;
    rewrite merge_items_run; simpl;
    destruct (SQL.use_signer self); simpl; try reflexivity;
    destruct (_sign app (sid s)); reflexivity.
Qed.

(** The database after the save of a new session: the row is added under
    the next id and the child table holds one row for every item whose
    value is not [None]. *)
Lemma sql_save_new_session self app s w :
  mapping s ≠ ∅ →
  initial s = PDict ∅ →
  found_row (SQL.key_prefix self +:+ sid s) (backend w) = None →
  (∀ k, SQL.session_data (backend w) !! (SQL.next_id (backend w), k) = None) →
  let db' := backend (SQL.save_session self app s w).2 in
  found_row (SQL.key_prefix self +:+ sid s) db'
  = Some {| SQL.id := SQL.next_id (backend w);
            SQL.session_id := SQL.key_prefix self +:+ sid s;
            SQL.expiry := save_expires app s w |}
  ∧ ∀ k, SQL.session_data db' !! (SQL.next_id (backend w), k)
         = (λ v, pickle_dumps (PVal v)) <$> without_none (mapping s) !! k.
Proof.
  intros Hne Hi Hfound Hfree. cbv zeta.
  rewrite (sql_save_session_run self app s w ∅ Hne Hi). cbv zeta.
  unfold saved_row. unfold found_row in Hfound. rewrite Hfound.
  fold (save_expires app s w). simpl. split.
  - unfold found_row. simpl. rewrite List.filter_app.
    destruct (List.filter _ (SQL.sessions (backend w))) as [|r l] eqn:Hf;
      [|done].
    simpl. by rewrite String.eqb_refl.
  - intros k.
    destruct (without_none (mapping s) !! k) as [v|] eqn:Hk; simpl.
    + apply merge_all_key.
      * apply merged_items_NoDup, NoDup_fst_map_to_list.
      * by apply merged_items_fresh.
    + rewrite merge_all_other_key.
      * apply map_lookup_filter_None. left. apply Hfree.
      * intros [[k' v] [Hk' Hin]]%list_elem_of_fmap. simpl in Hk'. subst k'.
        apply merged_items_fresh in Hin. congruence.
Qed.
End SqlRoundTripRun.

(** X17.  Round trip on the relational adapter, for a session saved for the
    first time.  The save adds the row of the session and one child row per
    item whose value is not [None]; a later request that sends back the cookie
    value of that save, before the expiry written with the row, opens a record
    with the same sid whose mapping is the saved one without the items whose
    value is [None]: those are lost. *)
Theorem sql_new_session_round_trip `{Externals}
    (self : SQL.t) (app : Flask) (s : ServerSideSession)
    (w w2 : world SQL.database) (c : string) (request : Request) :
  mapping s ≠ ∅ →
  initial s = PDict ∅ →
  found_row (SQL.key_prefix self +:+ sid s) (backend w) = None →
  (∀ k, SQL.session_data (backend w) !! (SQL.next_id (backend w), k) = None) →
  (∀ k v, mapping s !! k = Some v →
          pickle_loads (pickle_dumps (PVal v)) = Some (PVal v)) →
  cookie_value (SQL.use_signer self) app (sid s) = Ok c →
  c ≠ "" →
  looked_up_sid (SQL.use_signer self) app c = Ok (sid s) →
  cookies request !! SESSION_COOKIE_NAME app = Some c →
  backend w2 = backend (SQL.save_session self app s w).2 →
  (truthy (SessionMixin_permanent s) = true →
   utcnow w2 < utcnow w + total_seconds (permanent_session_lifetime app)) →
  (SQL.save_session self app s w).1 = Ok tt
  ∧ (SQL.open_session self app request w2).1
    = Ok {| mapping := without_none (mapping s); sid := sid s;
            modified := false;
            initial := PDict (without_none (mapping s)) |}.
Proof.
  intros Hne Hi Hfound Hfree Hp Hcv Hc Hsid Hreq Hb Hnow. split.
  { rewrite (sql_save_session_result self app s w ∅ Hne Hi). by rewrite Hcv. }
  rewrite (sql_open_session_lookup self app request w2 c (sid s) Hreq Hc Hsid).
  cbv zeta. rewrite Hb.
  destruct (sql_save_new_session self app s w Hne Hi Hfound Hfree)
    as [Hrow Hdata].
  rewrite Hrow.
  assert (SQL.load_rows
            (stored_rows (SQL.next_id (backend w))
               (backend (SQL.save_session self app s w).2))
          = Ok (without_none (mapping s))) as Hload.
  { apply load_rows_exact.
    - intros k b Hin. apply stored_rows_elem in Hin.
      rewrite Hdata in Hin.
      destruct (without_none (mapping s) !! k) as [v|] eqn:Hk; [|done].
      injection Hin as <-. exists v. split; [|done].
      unfold without_none in Hk. apply map_lookup_filter_Some in Hk as [Hk _].
      unfold SQL.load_value. by rewrite (Hp k v Hk).
    - intros k [v Hk]. apply list_elem_of_fmap.
      exists (k, pickle_dumps (PVal v)). split; [done|].
      apply stored_rows_elem. rewrite Hdata, Hk. done. }
  cbn [SQL.expiry SQL.id]. unfold save_expires.
  destruct (truthy (SessionMixin_permanent s)) eqn:Hperm.
  - specialize (Hnow eq_refl).
    destruct (Z.leb_spec
                (utcnow w + total_seconds (permanent_session_lifetime app))
                (utcnow w2)) as [Hle|_]; [lia|].
    by rewrite Hload.
  - by rewrite Hload.
Qed.

(** Alice's record with one more item, [session["a"] = None], saved into an
    empty database and opened a minute later: the item [a] is not there. *)
Lemma sql_new_session_round_trip_witness :
  let s := setitem "a" VNone (Toy.session_alice true) in
  let w := Toy.start Toy.sql_empty in
  let w1 := (SQL.save_session (Toy.sql_interface true true)
               (Toy.app (Some "k")) s w).2 in
  let w2 := @Build_world Toy.externals _ (entropy w1) (utcnow w + 60)
              (time_time w1) (backend w1) [] in
  (SQL.open_session (Toy.sql_interface true true) (Toy.app (Some "k"))
     (Toy.request (Some "abc.k")) w2).1
  = Ok {| mapping := without_none (mapping s); sid := "abc";
          modified := false; initial := PDict (without_none (mapping s)) |}.
Proof.
  cbv zeta.
  refine (proj2
    (sql_new_session_round_trip (H := Toy.externals)
       (Toy.sql_interface true true) (Toy.app (Some "k"))
       (setitem "a" VNone (Toy.session_alice true))
       (Toy.start Toy.sql_empty)
       (@Build_world Toy.externals _
          (entropy
             (SQL.save_session (Toy.sql_interface true true)
                (Toy.app (Some "k"))
                (setitem "a" VNone (Toy.session_alice true))
                (Toy.start Toy.sql_empty)).2)
          (utcnow (Toy.start Toy.sql_empty) + 60)
          (time_time
             (SQL.save_session (Toy.sql_interface true true)
                (Toy.app (Some "k"))
                (setitem "a" VNone (Toy.session_alice true))
                (Toy.start Toy.sql_empty)).2)
          (backend
             (SQL.save_session (Toy.sql_interface true true)
                (Toy.app (Some "k"))
                (setitem "a" VNone (Toy.session_alice true))
                (Toy.start Toy.sql_empty)).2) [])
       "abc.k" (Toy.request (Some "abc.k"))
       _ _ _ _ _ _ _ _ _ _ _)).
  - apply (insert_non_empty (M := gmap string)).
  - reflexivity.
  - vm_compute. reflexivity.
  - intros k. apply (lookup_empty (M := gmap (nat * string))).
  - intros k v _. reflexivity.
  - vm_compute. reflexivity.
  - discriminate.
  - vm_compute. reflexivity.
  - vm_compute. reflexivity.
  - vm_compute. reflexivity.
  - intros _. vm_compute. reflexivity.
Defined.

Section OtherAdapterPaths.
Context `{Externals}.
Implicit Types (app : Flask) (request : Request).

Lemma memcached_open_session_no_cookie (self : MC.t) app request
    (w : world MC.memcached_server) :
  cookies request !! SESSION_COOKIE_NAME app = None
  ∨ cookies request !! SESSION_COOKIE_NAME app = Some "" →
  MC.open_session self app request w = generated (MC.permanent self) w.
Proof.
  intros [Hc | Hc]; unfold MC.open_session; rewrite Hc;
    unfold bind, _generate_sid, MC.session_class, lift, generated;
    destruct (uuid4 (entropy w)) as [u r]; simpl;
    by rewrite ServerSideSession_init_fresh.
Qed.

Lemma memcached_open_session_bad_signature (self : MC.t) app request
    (w : world MC.memcached_server) token :
  MC.use_signer self = true →
  cookies request !! SESSION_COOKIE_NAME app = Some token →
  _unsign app token = Raise BadSignature →
  MC.open_session self app request w = generated (MC.permanent self) w.
Proof.
  intros Hs Hc Hu. destruct token as [|a token].
  { apply memcached_open_session_no_cookie. by right. }
  unfold MC.open_session. rewrite Hc, Hs.
  unfold bind at 1. unfold try_except, bind at 1, lift. rewrite Hu. simpl.
  unfold bind at 1. unfold bind at 2.
  unfold _generate_sid, MC.session_class, lift, generated, ret.
  destruct (uuid4 (entropy w)) as [u r]. simpl.
  by destruct (MC.permanent self).
Qed.

Lemma sql_open_session_no_cookie (self : SQL.t) app request
    (w : world SQL.database) :
  cookies request !! SESSION_COOKIE_NAME app = None
  ∨ cookies request !! SESSION_COOKIE_NAME app = Some "" →
  SQL.open_session self app request w = generated (SQL.permanent self) w.
Proof.
  intros [Hc | Hc]; unfold SQL.open_session; rewrite Hc;
    unfold bind, _generate_sid, SQL.session_class, lift, generated;
    destruct (uuid4 (entropy w)) as [u r]; simpl;
    by rewrite ServerSideSession_init_fresh.
Qed.

Lemma sql_open_session_bad_signature (self : SQL.t) app request
    (w : world SQL.database) token :
  SQL.use_signer self = true →
  cookies request !! SESSION_COOKIE_NAME app = Some token →
  _unsign app token = Raise BadSignature →
  SQL.open_session self app request w = generated (SQL.permanent self) w.
Proof.
  intros Hs Hc Hu. destruct token as [|a token].
  { apply sql_open_session_no_cookie. by right. }
  unfold SQL.open_session. rewrite Hc, Hs.
  unfold bind at 1. unfold try_except, bind at 1, lift. rewrite Hu. simpl.
  unfold bind at 1. unfold bind at 2.
  unfold _generate_sid, SQL.session_class, lift, generated, ret.
  destruct (uuid4 (entropy w)) as [u r]. simpl.
  by destruct (SQL.permanent self).
Qed.
End OtherAdapterPaths.

(** X18.  A cookie whose signature does not verify, on the memcached, document
    and relational adapters with signing on: [open_session] returns a fresh
    record under a newly generated sid, the one the generator gives, and
    leaves the store as it was: nothing is read, nothing is written and no
    call reaches the backend.  The value sent by the client is used for
    nothing but the failed verification. *)
Theorem open_session_bad_signature_other_adapters `{Externals}
    (app : Flask) (request : Request) (token : string)
    (mc : MC.t) (mg : MG.t) (sq : SQL.t)
    (wm : world MC.memcached_server) (wg : world MG.collection)
    (ws : world SQL.database) :
  MC.use_signer mc = true →
  MG.use_signer mg = true →
  SQL.use_signer sq = true →
  cookies request !! SESSION_COOKIE_NAME app = Some token →
  _unsign app token = Raise BadSignature →
  MC.open_session mc app request wm
  = (Ok (fresh_record (uuid4 (entropy wm)).1 (MC.permanent mc)),
     set_entropy (uuid4 (entropy wm)).2 wm)
  ∧ MG.open_session mg app request wg
    = (Ok (fresh_record (uuid4 (entropy wg)).1 (MG.permanent mg)),
       set_entropy (uuid4 (entropy wg)).2 wg)
  ∧ SQL.open_session sq app request ws
    = (Ok (fresh_record (uuid4 (entropy ws)).1 (SQL.permanent sq)),
       set_entropy (uuid4 (entropy ws)).2 ws)
  ∧ backend (MC.open_session mc app request wm).2 = backend wm
  ∧ backend (MG.open_session mg app request wg).2 = backend wg
  ∧ backend (SQL.open_session sq app request ws).2 = backend ws.
Proof.
  intros Hmc Hmg Hsq Hc Hu.
  rewrite (memcached_open_session_bad_signature mc app request wm token
             Hmc Hc Hu).
  rewrite (mongo_open_session_bad_signature mg app request wg token
             Hmg Hc Hu).
  rewrite (sql_open_session_bad_signature sq app request ws token
             Hsq Hc Hu).
  unfold generated. by repeat split.
Qed.

(** A forged cookie against the three stores of the examples: the expired
    rows of the relational store are still there afterwards. *)
Lemma open_session_bad_signature_other_adapters_witness :
  backend (SQL.open_session (Toy.sql_interface true true)
             (Toy.app (Some "k")) (Toy.request (Some "abc.forged"))
             (Toy.start Toy.sql_expired)).2
  = Toy.sql_expired.
Proof.
  refine (proj2 (proj2 (proj2 (proj2 (proj2
    (open_session_bad_signature_other_adapters (H := Toy.externals)
       (Toy.app (Some "k")) (Toy.request (Some "abc.forged")) "abc.forged"
       (Toy.memcached_interface true true) (Toy.mongo_interface true true)
       (Toy.sql_interface true true)
       (Toy.start Toy.memcached_empty) (Toy.start Toy.mongo_expired)
       (Toy.start Toy.sql_expired) _ _ _ _ _)))))).
  - reflexivity.
  - reflexivity.
  - reflexivity.
  - vm_compute. reflexivity.
  - vm_compute. reflexivity.
Defined.
